(** * Scouting-V2 admin panel: a shallow embedding of its client-side logic

    The repository is a set of browser scripts.  This development embeds the
    parts that carry logic: the persistent notification store
    (notifications.js); the dashboard's [safeFetch], its cache, its API key
    and its status indicators (Dashboard.js); the login page's requests,
    validation, session and lockout handling, and the activity-log page with
    its filters, sorting and paging (Activity.js); the scouting page with its
    filters, sorting, paging and team details (Scouting.js); the sidebar
    user-info loader (user-info-fix.js); and the reading of the session
    cookie, which two of the scripts share.

    Conventions.
    - [localStorage] is a finite map from keys to strings ([gmap string string]);
      a key that holds JSON text is kept as its decoded value in a field of
      its own.
    - The document is a finite map from element ids to the element's text
      (its [value] for a form control, its [textContent]/[innerHTML]
      otherwise); an id that is not in the map is an element that the page
      does not have, for which [getElementById] returns [null].
    - Code that can throw lives in the error monad [Js.M]; [try]/[catch] is
      [Js.try_catch].
    - Strings are sequences of code units, time values are integers
      (milliseconds since 1970-01-01 UTC), and the current time is an
      argument [now] where the code reads [Date.now()].
    - Part I holds the definitions, Part II the properties. *)

From Stdlib Require Import ZArith String Ascii DecimalString.
From stdpp Require Import base option list gmap strings sorting.

Set Warnings "-clear-no-such-hyp".

(** * Part I: the model *)

(** ** JavaScript primitives used by the scripts *)

(** What the host (browser, locale, time zone) fixes and the scripts only
    call: [String.prototype.toLowerCase]; [String.prototype.trim]; the
    offset of local time from UTC in milliseconds ([t + LocalTZA] is the
    local time of the UTC time value [t]); [new Date(s).getTime()] for a
    string [s], [None] when the date is invalid;
    [new Date(t).toLocaleDateString()];
    [new Date(t).toISOString().split('T')[0]]; and [(a / b).toFixed(2)].

    [LocalTZA] is one number: a host is a time zone whose offset from UTC
    does not change.  A zone with daylight saving time, whose local days can
    have 23 or 25 hours, is not a [Host], and what is proved here for every
    [Host] is not proved for it. *)
Class Host := {
  toLowerCase : string -> string;
  trim : string -> string;
  LocalTZA : Z;
  parseDate : string -> option Z;
  toLocaleDateString : Z -> string;
  toISODate : Z -> string;
  toFixed2 : Z -> Z -> string
}.

Module Js.

(** Primitive values as the comparison operators see them.  A [Date] is
    compared through its time value: [Num t], or [NaN] for an invalid date.
    [Undefined] is a property the object does not have. *)
Inductive value :=
| Undefined
| NaN
| Num (n : Z)
| Str (s : string).

(** [a < b].  Numbers compare as numbers and strings by code units; anything
    compared with [undefined] or [NaN] is [false].  (A field has one type in
    every record here, so a number never meets a string.) *)
Definition lt (a b : value) : bool :=
  match a, b with
  | Num x, Num y => (x <? y)%Z
  | Str x, Str y => String.ltb x y
  | _, _ => false
  end.

(** [a <= b], likewise. *)
Definition le (a b : value) : bool :=
  match a, b with
  | Num x, Num y => (x <=? y)%Z
  | Str x, Str y => String.leb x y
  | _, _ => false
  end.

(** Values of one kind, numbers or strings. *)
Definition same_kind (a b : value) : Prop :=
  match a, b with
  | Num _, Num _ | Str _, Str _ => True
  | _, _ => False
  end.

(** Truthiness of a property that is a string or is missing: [undefined],
    [null] and the empty string are falsy. *)
Definition truthy (o : option string) : bool :=
  match o with
  | Some s => negb (String.eqb s "")
  | None => false
  end.

(** [a || b] on such properties. *)
Definition or_else (a b : option string) : option string :=
  if truthy a then a else b.

(** [a || 'literal']. *)
Definition or_default (a : option string) (d : string) : string :=
  match or_else a (Some d) with
  | Some s => s
  | None => d
  end.

(** First-non-empty selection, as the specification words it: the first
    value of the chain that is there and not empty, the default when there
    is none. *)
Fixpoint first_non_empty (chain : list (option string)) (d : string) : string :=
  match chain with
  | [] => d
  | o :: rest => if truthy o then default "" o else first_non_empty rest d
  end.

(** Truthiness of a numeric property: missing and [0] are falsy. *)
Definition truthy_num (o : option Z) : bool :=
  match o with
  | Some n => negb (n =? 0)%Z
  | None => false
  end.

Definition or_else_num (a b : option Z) : option Z :=
  if truthy_num a then a else b.

(** [s.startsWith(p)]. *)
Definition startsWith (s p : string) : bool := String.prefix p s.

(** [s.includes(sub)]. *)
Fixpoint includes (s sub : string) : bool :=
  String.prefix sub s ||
  match s with
  | EmptyString => false
  | String _ s' => includes s' sub
  end.

(** [s.split(c)[0]]: the part of [s] before the first [c], all of [s] when
    it has none. *)
Fixpoint before_first (c : ascii) (s : string) : string :=
  match s with
  | EmptyString => EmptyString
  | String a s' => if Ascii.eqb a c then EmptyString else String a (before_first c s')
  end.

(** [String(n)] for an integer [n]. *)
Definition String_of (n : Z) : string := NilZero.string_of_int (Z.to_int n).

(** [l.slice(-n)] for [n > 0]: the last [n] elements, all of [l] when it has
    fewer. *)
Definition slice_last {A} (n : nat) (l : list A) : list A :=
  drop (length l - n) l.

(** [l.slice(start, end)] for [0 <= start]. *)
Definition slice {A} (start stop : nat) (l : list A) : list A :=
  take (stop - start) (drop start l).

(** [Array.prototype.sort(cmp)] for a comparator that is consistent on the
    array.  The sort is stable, and for such a comparator its result is the
    one stable ordering; insertion from the right, moving an element only
    past those it is strictly greater than, is that ordering.  For an
    inconsistent comparator the language leaves the order to the engine, and
    an engine's order can differ from the one of this definition: what it
    gives then is one run of a stable comparison sort, not the result of
    every engine. *)
Fixpoint insert_by {A} (cmp : A -> A -> Z) (x : A) (l : list A) : list A :=
  match l with
  | [] => [x]
  | y :: l' => if (0 <? cmp x y)%Z then y :: insert_by cmp x l' else x :: l
  end.

Definition sort {A} (cmp : A -> A -> Z) (l : list A) : list A :=
  foldr (insert_by cmp) [] l.

(** The order a comparator stands for: [x] may come before [y]. *)
Definition before {A} (cmp : A -> A -> Z) (x y : A) : Prop := (cmp x y <= 0)%Z.

(** A comparator is consistent on a list when, on its elements, [before]
    is transitive and two elements are always comparable one way. *)
Definition consistent_on {A} (cmp : A -> A -> Z) (l : list A) : Prop :=
  (forall x y z, x ∈ l -> y ∈ l -> z ∈ l ->
     before cmp x y -> before cmp y z -> before cmp x z)
  /\ (forall x y, x ∈ l -> y ∈ l -> before cmp x y \/ before cmp y x).

(** The error monad: [inl msg] is a thrown [Error(msg)]. *)
Definition M (A : Type) : Type := string + A.

Definition ret {A} (a : A) : M A := inr a.

Definition throw {A} (msg : string) : M A := inl msg.

Definition bind {A B} (m : M A) (k : A -> M B) : M B :=
  match m with
  | inl e => inl e
  | inr a => k a
  end.

Definition try_catch {A} (body : M A) (handler : string -> M A) : M A :=
  match body with
  | inl e => handler e
  | inr a => inr a
  end.

(** [l.filter(p)] for a callback that can throw: the first throw aborts the
    whole call. *)
Fixpoint filterM {A} (p : A -> M bool) (l : list A) : M (list A) :=
  match l with
  | [] => ret []
  | x :: l' =>
      bind (p x) (fun keep =>
      bind (filterM p l') (fun rest =>
      ret (if keep then x :: rest else rest)))
  end.

End Js.

Notation "x <- m ;; k" := (Js.bind m (fun x => k))
  (at level 100, m at next level, right associativity).

(** A host with ASCII strings, at a constant offset from UTC: [toLowerCase]
    maps [A]..[Z] to [a]..[z] and [trim] strips blanks, tabs and line breaks
    at both ends; dates are read in the date-time format of the language
    standard, and numbers are doubles. *)
Module AsciiHost.

Definition lower_ascii (c : ascii) : ascii :=
  let n := nat_of_ascii c in
  if (65 <=? n)%nat && (n <=? 90)%nat then ascii_of_nat (n + 32) else c.

Fixpoint lower (s : string) : string :=
  match s with
  | EmptyString => EmptyString
  | String c s' => String (lower_ascii c) (lower s')
  end.

Definition is_space (c : ascii) : bool :=
  let n := nat_of_ascii c in
  (n =? 32)%nat || ((9 <=? n)%nat && (n <=? 13)%nat).

Fixpoint trim_left (s : string) : string :=
  match s with
  | EmptyString => EmptyString
  | String c s' => if is_space c then trim_left s' else s
  end.

Fixpoint trim_right (s : string) : string :=
  match s with
  | EmptyString => EmptyString
  | String c s' =>
      match trim_right s' with
      | EmptyString => if is_space c then EmptyString else String c EmptyString
      | r => String c r
      end
  end.

(** The civil calendar: the day number (days since 1970-01-01) of a date,
    and back. *)
Definition days_from_civil (y m d : Z) : Z :=
  let y := if (m <=? 2)%Z then (y - 1)%Z else y in
  let era := (y / 400)%Z in
  let yoe := (y - era * 400)%Z in
  let mp := ((m + 9) mod 12)%Z in
  let doy := ((153 * mp + 2) / 5 + d - 1)%Z in
  let doe := (yoe * 365 + yoe / 4 - yoe / 100 + doy)%Z in
  (era * 146097 + doe - 719468)%Z.

Definition civil_from_days (z : Z) : Z * Z * Z :=
  let z := (z + 719468)%Z in
  let era := (z / 146097)%Z in
  let doe := (z - era * 146097)%Z in
  let yoe := ((doe - doe / 1460 + doe / 36524 - doe / 146096) / 365)%Z in
  let doy := (doe - (365 * yoe + yoe / 4 - yoe / 100))%Z in
  let mp := ((5 * doy + 2) / 153)%Z in
  let d := (doy - (153 * mp + 2) / 5 + 1)%Z in
  let m := if (mp <? 10)%Z then (mp + 3)%Z else (mp - 9)%Z in
  let y := (yoe + era * 400 + (if (m <=? 2)%Z then 1 else 0))%Z in
  (y, m, d).

Definition digit (c : ascii) : option Z :=
  let n := nat_of_ascii c in
  if (48 <=? n)%nat && (n <=? 57)%nat then Some (Z.of_nat (n - 48)) else None.

Fixpoint digits (acc : Z) (l : list ascii) : option Z :=
  match l with
  | [] => Some acc
  | c :: l' =>
      match digit c with
      | Some n => digits (10 * acc + n)%Z l'
      | None => None
      end
  end.

(** The year of a date string and what follows it: four digits, or a sign
    and six digits, of which [-000000] is not a year. *)
Definition parse_year (l : list ascii) : option (Z * list ascii) :=
  match l with
  | "+"%char :: y1 :: y2 :: y3 :: y4 :: y5 :: y6 :: rest =>
      (fun y => (y, rest)) <$> digits 0 [y1; y2; y3; y4; y5; y6]
  | "-"%char :: y1 :: y2 :: y3 :: y4 :: y5 :: y6 :: rest =>
      match digits 0 [y1; y2; y3; y4; y5; y6] with
      | Some y => if (y =? 0)%Z then None else Some ((- y)%Z, rest)
      | None => None
      end
  | y1 :: y2 :: y3 :: y4 :: rest => (fun y => (y, rest)) <$> digits 0 [y1; y2; y3; y4]
  | _ => None
  end.

(** Two digits and what follows them, when the number is between [lo] and
    [hi]. *)
Definition parse_two (lo hi : Z) (l : list ascii) : option (Z * list ascii) :=
  match l with
  | c1 :: c2 :: rest =>
      match digits 0 [c1; c2] with
      | Some n => if (lo <=? n)%Z && (n <=? hi)%Z then Some (n, rest) else None
      | None => None
      end
  | _ => None
  end.

(** [-MM] and [-DD], each of which can be left out. *)
Definition parse_month_day (l : list ascii) : option (Z * Z * list ascii) :=
  match l with
  | "-"%char :: l1 =>
      match parse_two 1 12 l1 with
      | Some (m, "-"%char :: l2) =>
          (fun '(d, rest) => (m, d, rest)) <$> parse_two 1 31 l2
      | Some (m, rest) => Some (m, 1%Z, rest)
      | None => None
      end
  | _ => Some (1%Z, 1%Z, l)
  end.

(** [HH:mm], [HH:mm:ss] or [HH:mm:ss.sss] as milliseconds of the day, and
    what follows; the hour 24 is the end of the day and takes zeros only. *)
Definition parse_time (l : list ascii) : option (Z * list ascii) :=
  match parse_two 0 24 l with
  | Some (h, ":"%char :: l1) =>
      match parse_two 0 59 l1 with
      | Some (m, l2) =>
          let seconds :=
            match l2 with
            | ":"%char :: l3 =>
                match parse_two 0 59 l3 with
                | Some (sec, "."%char :: f1 :: f2 :: f3 :: rest) =>
                    (fun ms => (sec, ms, rest)) <$> digits 0 [f1; f2; f3]
                | Some (sec, rest) => Some (sec, 0%Z, rest)
                | None => None
                end
            | _ => Some (0%Z, 0%Z, l2)
            end in
          match seconds with
          | Some (sec, ms, rest) =>
              let t := (((h * 60 + m) * 60 + sec) * 1000 + ms)%Z in
              if (t <=? 86400000)%Z then Some (t, rest) else None
          | None => None
          end
      | None => None
      end
  | _ => None
  end.

(** The offset from UTC at the end of a date-time, in milliseconds: [Z],
    [+HH:mm] or [-HH:mm], or nothing, which stands for local time. *)
Definition parse_offset (tz : Z) (l : list ascii) : option Z :=
  match l with
  | [] => Some tz
  | ["Z"%char] => Some 0%Z
  | sign :: l1 =>
      match parse_two 0 23 l1 with
      | Some (h, ":"%char :: l2) =>
          match parse_two 0 59 l2 with
          | Some (m, []) =>
              if Ascii.eqb sign "+" then Some ((h * 60 + m) * 60000)%Z
              else if Ascii.eqb sign "-" then Some (- ((h * 60 + m) * 60000))%Z
              else None
          | _ => None
          end
      | _ => None
      end
  end.

(** [new Date(s).getTime()] for the date-time format of the language
    standard: a date [YYYY], [YYYY-MM] or [YYYY-MM-DD], which alone is
    midnight UTC, or a date followed by [T], a time and an offset, which is
    local time when the offset is left out.  A day number past the end of
    its month runs on into the next month.  A time value outside the range
    of [Date] is an invalid date.  The standard leaves every other string to
    the engine; this host takes them all for invalid dates, where engines
    read some of them by rules of their own. *)
Definition parse_date (tz : Z) (s : string) : option Z :=
  match parse_year (list_ascii_of_string s) with
  | Some (y, l1) =>
      match parse_month_day l1 with
      | Some (m, d, l2) =>
          let day := (days_from_civil y m d * 86400000)%Z in
          let t :=
            match l2 with
            | [] => Some day
            | "T"%char :: l3 =>
                match parse_time l3 with
                | Some (ms, l4) => (fun offset => day + ms - offset)%Z <$> parse_offset tz l4
                | None => None
                end
            | _ => None
            end in
          match t with
          | Some t => if (Z.abs t <=? 8640000000000000)%Z then Some t else None
          | None => None
          end
      | None => None
      end
  | None => None
  end.

Definition two_digits (n : Z) : string :=
  if (n <? 10)%Z then "0" +:+ NilZero.string_of_int (Z.to_int n)
  else NilZero.string_of_int (Z.to_int n).

Definition iso_date (t : Z) : string :=
  let '(y, m, d) := civil_from_days (t / 86400000) in
  NilZero.string_of_int (Z.to_int y) +:+ "-" +:+ two_digits m +:+ "-" +:+ two_digits d.

(** The [en-US] form [M/D/YYYY] of the local date. *)
Definition locale_date (tz t : Z) : string :=
  let '(y, m, d) := civil_from_days ((t + tz) / 86400000) in
  NilZero.string_of_int (Z.to_int m) +:+ "/" +:+ NilZero.string_of_int (Z.to_int d)
  +:+ "/" +:+ NilZero.string_of_int (Z.to_int y).

(** The double [a / b] for integers [0 < a, b < 2^53]: the quotient rounded
    to 53 significant bits, ties to the even one.  The result [(m, k)] stands
    for [m / 2^k], with [m * 2^(-k)] for a negative [k]. *)
Definition double_div (a b : Z) : Z * Z :=
  let scaled (k : Z) : Z * Z :=
    if (0 <=? k)%Z then ((a * 2 ^ k)%Z, b) else (a, (b * 2 ^ (- k))%Z) in
  let k0 := (52 - (Z.log2 a - Z.log2 b))%Z in
  let k := if (fst (scaled k0) / snd (scaled k0) <? 2 ^ 52)%Z then (k0 + 1)%Z else k0 in
  let '(num, den) := scaled k in
  let q := (num / den)%Z in
  let r := (num mod den)%Z in
  let m :=
    if (2 * r <? den)%Z then q
    else if (den <? 2 * r)%Z then (q + 1)%Z
    else if Z.even q then q else (q + 1)%Z in
  (m, k).

(** [(a / b).toFixed(2)] for such integers, and for [a = 0]: the numeral
    with two decimals that is nearest to the double, the larger one of two
    that are as near. *)
Definition fixed2 (a b : Z) : string :=
  let hundredths :=
    if (a <=? 0)%Z then 0%Z
    else
      let '(m, k) := double_div a b in
      if (0 <=? k)%Z then ((2 * 100 * m + 2 ^ k) / (2 * 2 ^ k))%Z
      else (100 * m * 2 ^ (- k))%Z in
  NilZero.string_of_int (Z.to_int (hundredths / 100)) +:+ "."
  +:+ two_digits (hundredths mod 100).

Definition host (tz : Z) : Host :=
  {| toLowerCase := lower;
     trim := fun s => trim_right (trim_left s);
     LocalTZA := tz;
     parseDate := parse_date tz;
     toLocaleDateString := locale_date tz;
     toISODate := iso_date;
     toFixed2 := fixed2 |}.

End AsciiHost.

(** ** notifications.js: the persistent notification store *)

Module NotificationManager.

Record notification := {
  message : string;
  type : string;
  timestamp : Z
}.

Definition MAX_STORED_NOTIFICATIONS : nat := 5.

(** The value under the key ['admin_notifications'], decoded: [None] is a
    missing key, which [storeNotification] reads as ['[]']. *)
Definition stored_list (o : option (list notification)) : list notification :=
  default [] o.

(** [storeNotification(notification)], on the decoded value of the key. *)
Definition storeNotification (o : option (list notification)) (n : notification)
  : option (list notification) :=
  let stored := stored_list o in
  let stored :=
    if (MAX_STORED_NOTIFICATIONS <=? length stored)%nat
    then Js.slice_last (MAX_STORED_NOTIFICATIONS - 1) stored
    else stored in
  Some (stored ++ [n]).

(** [removeStoredNotification(message)]. *)
Definition removeStoredNotification (o : option (list notification)) (m : string)
  : option (list notification) :=
  Some (filter (fun n => message n ≠ m) (stored_list o)).

(** A run of [storeNotification] calls. *)
Definition storeAll (o : option (list notification)) (ns : list notification)
  : option (list notification) :=
  foldl storeNotification o ns.

(** [show(message, type, duration, persistent)] at time [now], on the decoded
    value of the key; the toast it draws is outside the model. *)
Definition show (now : Z) (m ty : string) (persistent : bool)
    (o : option (list notification)) : option (list notification) :=
  if persistent
  then storeNotification o {| message := m; type := ty; timestamp := now |}
  else o.

Definition oneHour : Z := 60 * 60 * 1000.

(** [loadStoredNotifications()] at time [now]: the value it writes to the
    key, and the notifications for which it sets a timer.  (The clock is
    read once for the whole [filter] here.) *)
Definition loadStoredNotifications (now : Z) (o : option (list notification))
  : option (list notification) * list notification :=
  let stored := stored_list o in
  let validNotifications :=
    List.filter (fun n => (now - timestamp n <? oneHour)%Z) stored in
  (Some validNotifications, validNotifications).

(** The timers of [loadStoredNotifications] running, in the order they were
    set: each calls [show(notification.message, notification.type, 0, true)].
    [clock i] is [Date.now()] in the call of timer [i]. *)
Fixpoint runTimers (clock : nat -> Z) (i : nat) (scheduled : list notification)
    (o : option (list notification)) : option (list notification) :=
  match scheduled with
  | [] => o
  | n :: rest =>
      runTimers clock (S i) rest (show (clock i) (message n) (type n) true o)
  end.

End NotificationManager.

(** ** HTTP responses as [fetch] delivers them *)

Module Http.

(** A response: its status line and what reading its body gives.  Reading
    can throw ([json()] on a body that is not JSON, a connection that
    drops). *)
Record response (D : Type) := {
  status : Z;
  statusText : string;
  json : Js.M D;
  text : Js.M string
}.
Arguments status {D} _.
Arguments statusText {D} _.
Arguments json {D} _.
Arguments text {D} _.

(** [response.ok]: the status is in the range 200-299. *)
Definition ok {D} (r : response D) : bool :=
  (200 <=? status r)%Z && (status r <=? 299)%Z.

(** A request as the scripts issue it. *)
Record request := {
  method : string;
  url : string
}.

(** The network: what [fetch] gives for each request, [inl] when it
    rejects. *)
Definition network (D : Type) : Type := request -> Js.M (response D).

End Http.

(** ** The session cookie *)

(** [getAuthCookie()], which Dashboard.js has as a method of [Dashboard] and
    as a function, and Activity.js as a method of [TeamSheldonAdmin]; the
    three are the same text. *)
Module Cookie.

(** [s.split(c)] for a separator of one character. *)
Fixpoint split (c : ascii) (s : string) : list string :=
  match s with
  | EmptyString => [EmptyString]
  | String a s' =>
      if Ascii.eqb a c then EmptyString :: split c s'
      else match split c s' with
           | part :: parts => String a part :: parts
           | [] => [String a EmptyString]
           end
  end.

(** The loop [while (cookie.charAt(0) === ' ') cookie = cookie.substring(1)]. *)
Fixpoint stripSpaces (s : string) : string :=
  match s with
  | String a s' => if Ascii.eqb a " " then stripSpaces s' else s
  | EmptyString => s
  end.

(** [s.substring(n, s.length)]. *)
Fixpoint substring (n : nat) (s : string) : string :=
  match n, s with
  | S n', String _ s' => substring n' s'
  | _, _ => s
  end.

Definition name : string := "admin_token=".

(** [getAuthCookie()]; [decodedCookie] is [decodeURIComponent(document.cookie)],
    and [None] is [null]. *)
Definition getAuthCookie (decodedCookie : string) : option string :=
  substring (String.length name)
  <$> List.find (String.prefix name) (stripSpaces <$> split ";" decodedCookie).

(** A string of [n] blanks, and a string without the character [c]. *)
Fixpoint spaces (n : nat) : string :=
  match n with
  | 0 => EmptyString
  | S n' => String " " (spaces n')
  end.

Definition free (c : ascii) (s : string) : Prop :=
  ~ In c (list_ascii_of_string s).

End Cookie.

(** ** Dashboard.js *)

Module Dashboard.

(** The object [safeFetch] returns. *)
Record result (D : Type) := {
  success : bool;
  data : option D;
  error : option string;
  message : option string
}.
Arguments success {D} _.
Arguments data {D} _.
Arguments error {D} _.
Arguments message {D} _.

(** [safeFetch(url, options)]; [fetched] is what [fetch(url, ...)] gives. *)
Definition safeFetch {D} (fetched : Js.M (Http.response D)) : Js.M (result D) :=
  Js.try_catch
    (response <- fetched ;;
     if (Http.status response =? 429)%Z then
       Js.ret {| success := false; data := None;
                 error := Some "rate_limit"; message := Some "Rate limited" |}
     else if Http.ok response then
       d <- Http.json response ;;
       Js.ret {| success := true; data := Some d;
                 error := None; message := None |}
     else
       errorText <- Http.text response ;;
       Js.ret {| success := false; data := None;
                 error := Some "api_error";
                 message := Some ("HTTP " +:+ Js.String_of (Http.status response)
                                  +:+ ": " +:+ Http.statusText response) |})
    (fun error_message =>
       Js.ret {| success := false; data := None;
                 error := Some "network_error"; message := Some error_message |}).

(** [handleMissingApiKey()], on [localStorage]. *)
Definition handleMissingApiKey (ls : gmap string string) : gmap string string :=
  delete "authToken" (delete "adminToken" (delete "admin_session_active" ls)).

(** The page's [performLogout()], on [localStorage]. *)
Definition performLogout (ls : gmap string string) : gmap string string :=
  delete "sessionId" (delete "userRole" (delete "userEmail"
    (delete "authToken" (delete "adminToken" ls)))).

(** [checkAuth()]: its [isValid].  [isDevelopment] is whether the page is
    served from localhost, from port 3000 or from a file. *)
Definition checkAuth (isDevelopment : bool) (decodedCookie : string) : bool :=
  if isDevelopment then true
  else Js.truthy (Cookie.getAuthCookie decodedCookie).

(** The constructor's [API_KEY]. *)
Definition API_KEY (ls : gmap string string) : option string :=
  Js.or_else (ls !! "adminToken") (ls !! "authToken").

(** The constructor, on [localStorage]: the storage after it, and whether it
    goes on to [loadUserInfo()] and [init()].  ([validateApiKey()], which it
    starts, is below.) *)
Definition new (ls : gmap string string) : gmap string string * bool :=
  if negb (Js.truthy (API_KEY ls)) then (handleMissingApiKey ls, false)
  else (ls, true).

(** [validateApiKey()], on [localStorage]; [verified] is what the request to
    [/api/auth/verify] gives. *)
Definition validateApiKey {D} (verified : Js.M (Http.response D))
    (ls : gmap string string) : gmap string string :=
  match
    Js.try_catch
      (response <- verified ;;
       if Http.ok response then
         _ <- Http.json response ;; Js.ret ls
       else
         _ <- Http.text response ;; Js.ret (handleMissingApiKey ls))
      (fun _ => Js.ret ls)
  with
  | inr ls' => ls'
  | inl _ => ls
  end.

Definition cacheExpiry : Z := 5 * 60 * 1000.

(** An entry of [this.cache]. *)
Record cacheEntry (D : Type) := {
  cached_data : D;
  cached_timestamp : Z
}.
Arguments cached_data {D} _.
Arguments cached_timestamp {D} _.

(** [getCachedData(key)] at time [now]; [None] is [null]. *)
Definition getCachedData {D} (now : Z) (key : string)
    (cache : gmap string (cacheEntry D)) : option D :=
  match cache !! key with
  | Some cached =>
      if (now - cached_timestamp cached <? cacheExpiry)%Z
      then Some (cached_data cached) else None
  | None => None
  end.

(** [setCachedData(key, data)] at time [now]. *)
Definition setCachedData {D} (now : Z) (key : string) (data : D)
    (cache : gmap string (cacheEntry D)) : gmap string (cacheEntry D) :=
  <[key := {| cached_data := data; cached_timestamp := now |}]> cache.

(** What [cachedFetch] returns: an object [{ok: true, json}] whose [json()]
    gives the data, the response of [fetch] itself, or
    [{ok: false, status: 500}]. *)
Inductive cachedResponse (D : Type) :=
| OkData (data : D)
| Response (response : Http.response D)
| Status500.
Arguments OkData {D} _.
Arguments Response {D} _.
Arguments Status500 {D}.

(** [cachedFetch(url, options, cacheKey)], called at time [now]; [later] is
    the time at which the body of the response has been read.  [truthy]
    tells which data are truthy (JSON [null], [false], [0] and the empty
    string are not), and [fetched] is what [fetch(url, options)] gives.  The
    result is the value returned, the cache after the call and whether the
    request was sent. *)
Definition cachedFetch {D} (truthy : D -> bool) (now later : Z)
    (fetched : Js.M (Http.response D)) (cacheKey : string)
    (cache : gmap string (cacheEntry D))
  : cachedResponse D * gmap string (cacheEntry D) * bool :=
  let requested :=
    match
      Js.try_catch
        (response <- fetched ;;
         if Http.ok response then
           data <- Http.json response ;;
           Js.ret (OkData data, setCachedData later cacheKey data cache)
         else Js.ret (Response response, cache))
        (fun _ => Js.ret (Status500, cache))
    with
    | inr (r, cache') => (r, cache', true)
    | inl _ => (Status500, cache, true)
    end in
  match getCachedData now cacheKey cache with
  | Some cached => if truthy cached then (OkData cached, cache, false) else requested
  | None => requested
  end.

(** [if (element) element.className = className], on the class names of the
    document's elements by id. *)
Definition setClassName (id className : string) (doc : gmap string string)
  : gmap string string :=
  match doc !! id with
  | Some _ => <[id := className]> doc
  | None => doc
  end.

(** [checkSystemStatus()]: the class names after it, and whether the request
    to [/health] was sent; [fetched] is what that request gives. *)
Definition checkSystemStatus {D} (fetched : Js.M (Http.response D))
    (doc : gmap string string) : gmap string string * bool :=
  match
    (doc <-
       match doc !! "apiStatus" with
       | Some _ =>
           response <- safeFetch fetched ;;
           Js.ret
             (<["apiStatus" :=
                  if success response then "status-indicator online"
                  else if bool_decide (error response = Some "rate_limit")
                       then "status-indicator warning"
                       else "status-indicator offline"]> doc)
       | None => Js.ret doc
       end ;;
     Js.ret (setClassName "dbStatus" "status-indicator online" doc))
  with
  | inr doc' => (doc', bool_decide (is_Some (doc !! "apiStatus")))
  | inl _ =>
      (setClassName "apiStatus" "status-indicator offline" doc,
       bool_decide (is_Some (doc !! "apiStatus")))
  end.

End Dashboard.

(** ** Activity.js, second script: the login page *)

Module TeamSheldonAdmin.

Definition SESSION_TIMEOUT : Z := 5 * 60 * 1000.
Definition MAX_LOGIN_ATTEMPTS : Z := 5.
Definition LOCKOUT_DURATION : Z := 15 * 60 * 1000.

(** A user object of a login response. *)
Record User := {
  user_name : option string;
  user_email : option string;
  user_role : option string;
  user_username : option string
}.

(** The object [handleLoginSuccess] receives: the response, or its [data]. *)
Record UserData := {
  token : option string;
  access_token : option string;
  authToken : option string;
  user : option User;
  userData : option User;
  name : option string;
  username : option string;
  email : option string;
  role : option string
}.

(** The parsed response of [/api/auth/login]: its own fields read as a
    [UserData], and the fields [handleLogin] branches on. *)
Record LoginResponse := {
  success : option bool;
  message : option string;
  data : option UserData;
  fields : UserData
}.

(** The value under ['admin_login_attempts'], decoded. *)
Record Attempts := {
  count : Z;
  timestamp : Z
}.

Record Credentials := {
  cred_username : option string;
  cred_password : option string;
  cred_agreeToS : bool;
  cred_turnstileToken : option string
}.

(** The fields of the object, the storage it uses and the [admin_token]
    cookie.  The key ['admin_login_attempts'] of the storage, which holds
    JSON text, is the field [admin_login_attempts]; [localStorage] has the
    other keys. *)
Record state := {
  loginAttempts : Z;
  isLoggingIn : bool;
  isAuthenticated : bool;
  currentUser : option User;
  localStorage : gmap string string;
  admin_login_attempts : option Attempts;
  admin_token : option string
}.

Definition set_storage (f : gmap string string -> gmap string string) (st : state) : state :=
  {| loginAttempts := loginAttempts st; isLoggingIn := isLoggingIn st;
     isAuthenticated := isAuthenticated st; currentUser := currentUser st;
     localStorage := f (localStorage st);
     admin_login_attempts := admin_login_attempts st;
     admin_token := admin_token st |}.

Definition set_attempts (n : Z) (stored : option Attempts) (st : state) : state :=
  {| loginAttempts := n; isLoggingIn := isLoggingIn st;
     isAuthenticated := isAuthenticated st; currentUser := currentUser st;
     localStorage := localStorage st;
     admin_login_attempts := stored;
     admin_token := admin_token st |}.

Definition set_session (auth : bool) (u : option User) (cookie : option string)
    (st : state) : state :=
  {| loginAttempts := loginAttempts st; isLoggingIn := isLoggingIn st;
     isAuthenticated := auth; currentUser := u;
     localStorage := localStorage st;
     admin_login_attempts := admin_login_attempts st;
     admin_token := cookie |}.

Definition set_isLoggingIn (b : bool) (st : state) : state :=
  {| loginAttempts := loginAttempts st; isLoggingIn := b;
     isAuthenticated := isAuthenticated st; currentUser := currentUser st;
     localStorage := localStorage st;
     admin_login_attempts := admin_login_attempts st;
     admin_token := admin_token st |}.

(** [getLoginAttempts()] at time [now] ([Date.now()]). *)
Definition getLoginAttempts (now : Z) (stored : option Attempts) : Z :=
  let data := default {| count := 0; timestamp := 0 |} stored in
  if (LOCKOUT_DURATION <? now - timestamp data)%Z then 0%Z else count data.

(** The constructor: the counter is read from storage once. *)
Definition new (now : Z) (ls : gmap string string) (stored : option Attempts)
    (cookie : option string) : state :=
  {| loginAttempts := getLoginAttempts now stored; isLoggingIn := false;
     isAuthenticated := false; currentUser := None;
     localStorage := ls; admin_login_attempts := stored; admin_token := cookie |}.

Definition incrementLoginAttempts (now : Z) (st : state) : state :=
  let n := (loginAttempts st + 1)%Z in
  set_attempts n (Some {| count := n; timestamp := now |}) st.

Definition resetLoginAttempts (st : state) : state :=
  set_attempts 0 None st.

Definition lockAccount (now : Z) (st : state) : state :=
  set_attempts (loginAttempts st)
    (Some {| count := MAX_LOGIN_ATTEMPTS; timestamp := now |}) st.

Definition isLocked (st : state) : bool :=
  (MAX_LOGIN_ATTEMPTS <=? loginAttempts st)%Z.

(** [handleLoginFailure(message)]; the notification it shows is not part of
    the state. *)
Definition handleLoginFailure (now : Z) (st : state) : state :=
  let st := incrementLoginAttempts now st in
  let attemptsLeft := (MAX_LOGIN_ATTEMPTS - loginAttempts st)%Z in
  if (attemptsLeft <=? 0)%Z then lockAccount now st else st.

(** [handleLoginError(error)] only notifies and logs. *)
Definition handleLoginError (st : state) : state := st.

(** [userData.token || userData.access_token || userData.authToken]. *)
Definition responseToken (d : UserData) : option string :=
  Js.or_else (Js.or_else (token d) (access_token d)) (authToken d).

(** [handleLoginSuccess(userData)].  [sessionToken] is the token the code
    makes up from the clock and [Math.random] when the response has none.
    The session timer and the redirect are outside the model. *)
Definition handleLoginSuccess (sessionToken : string) (d : UserData) (st : state) : state :=
  let st := resetLoginAttempts st in
  let tok := responseToken d in
  let usr :=
    match user d, userData d with
    | Some u, _ => u
    | None, Some u => u
    | None, None =>
        {| user_name := Some (Js.or_default (Js.or_else (name d) (username d)) "Admin User");
           user_email := Some (Js.or_default (email d) "admin@teamsheldon.tech");
           user_role := Some (Js.or_default (role d) "Administrator");
           user_username := None |}
    end in
  let cookie := if Js.truthy tok then tok else Some sessionToken in
  let st :=
    match tok with
    | Some t =>
        if Js.truthy tok
        then set_storage (fun ls => <["authToken" := t]> (<["adminToken" := t]> ls)) st
        else set_storage (fun ls => delete "authToken" (delete "adminToken" ls)) st
    | None => set_storage (fun ls => delete "authToken" (delete "adminToken" ls)) st
    end in
  let userEmail := Js.or_default (Js.or_else (user_email usr) (user_username usr)) "Loading..." in
  let userRole := Js.or_default (user_role usr) "Loading..." in
  let userName := Js.or_default (user_name usr) (Js.before_first "@" userEmail) in
  let st := set_storage (fun ls =>
              <["userName" := userName]> (<["userRole" := userRole]>
                (<["userEmail" := userEmail]> ls))) st in
  let st := set_session true (Some usr) cookie st in
  set_storage (fun ls => <["admin_session_active" := "true"]> ls) st.

(** [logout(reason)]. *)
Definition logout (st : state) : state :=
  let st := set_session false None None st in
  set_storage (fun ls =>
    delete "authToken" (delete "adminToken" (delete "admin_session_active" ls))) st.

(** [validateCredentials(credentials)]; [isDevelopment] is whether the page
    is served from localhost. *)
Definition validateCredentials (isDevelopment : bool) (c : Credentials) : bool :=
  let isDevCredentials :=
    isDevelopment && bool_decide (cred_username c = Some "dev")
                  && bool_decide (cred_password c = Some "dev123") in
  let bad_username :=
    negb (Js.truthy (cred_username c))
    || (String.length (default "" (cred_username c)) <? 3)%nat in
  let bad_password :=
    negb (Js.truthy (cred_password c))
    || (String.length (default "" (cred_password c)) <? 8)%nat in
  let bad_agree := negb (cred_agreeToS c) in
  let bad_turnstile := negb (Js.truthy (cred_turnstileToken c)) && negb isDevCredentials in
  negb (bad_username || bad_password || bad_agree || bad_turnstile).

(** What [handleLogin] does with the value of [authenticateUser]. *)
Definition dispatchResponse (now : Z) (sessionToken : string)
    (response : option LoginResponse) (st : state) : state :=
  match response with
  | Some r =>
      if bool_decide (success r = Some true)
         || Js.truthy (token (fields r)) || bool_decide (is_Some (user (fields r)))
      then
        match success r, data r with
        | Some true, Some d => handleLoginSuccess sessionToken d st
        | _, _ => handleLoginSuccess sessionToken (fields r) st
        end
      else handleLoginFailure now st
  | None => handleLoginFailure now st
  end.

(** [handleLogin(event)].  [authenticated] is what [authenticateUser] gives
    for the one request it sends to [/api/auth/login] ([inl] when it throws,
    which it does for every status that is not ok).  The result says whether
    that request was issued. *)
Definition handleLogin (now : Z) (isDevelopment : bool) (sessionToken : string)
    (c : Credentials) (authenticated : Js.M (option LoginResponse)) (st : state)
  : state * bool :=
  if isLoggingIn st || isLocked st then (st, false)
  else if negb (validateCredentials isDevelopment c) then (st, false)
  else
    let st := set_isLoggingIn true st in
    let st :=
      match authenticated with
      | inr response => dispatchResponse now sessionToken response st
      | inl _ => handleLoginError st
      end in
    (set_isLoggingIn false st, true).

(** [minutes > 0 ? `${minutes}m ${seconds}s` : `${seconds}s`] for
    [minutes = Math.floor(n / 60)] and [seconds = n % 60]. *)
Definition timeDisplay (n : Z) : string :=
  let minutes := (n / 60)%Z in
  let seconds := Z.rem n 60 in
  if (0 <? minutes)%Z
  then Js.String_of minutes +:+ "m " +:+ Js.String_of seconds +:+ "s"
  else Js.String_of seconds +:+ "s".

(** [authenticateUser(credentials)].  [fetched] is what the request to
    [/api/auth/login] gives, and [retryAfterOf errorText] is
    [JSON.parse(errorText).retryAfter], which throws for a text that is not
    JSON.  The result is the value returned or the error thrown, and the
    seconds [startRateLimitTimer] was called with, if it was. *)
Definition authenticateUser (fetched : Js.M (Http.response (option LoginResponse)))
    (retryAfterOf : string -> Js.M (option Z))
  : Js.M (option LoginResponse) * option Z :=
  let attempt : Js.M (option LoginResponse) * option Z :=
    match fetched with
    | inl e => (inl e, None)
    | inr response =>
        if negb (Http.ok response) then
          match Http.text response with
          | inl e => (inl e, None)
          | inr errorText =>
              if (Http.status response =? 429)%Z then
                match retryAfterOf errorText with
                | inl e => (inl e, None)
                | inr r =>
                    let retryAfter := default 60%Z (Js.or_else_num r (Some 60%Z)) in
                    (Js.throw ("Rate limited. Please wait " +:+ timeDisplay retryAfter
                               +:+ " before trying again."),
                     Some retryAfter)
                end
              else
                (Js.throw ("HTTP " +:+ Js.String_of (Http.status response) +:+ ": "
                           +:+ Http.statusText response +:+ " - " +:+ errorText),
                 None)
          end
        else (Http.json response, None)
    end in
  (Js.try_catch attempt.1
     (fun message =>
        if Js.includes message "429" || Js.includes message "Rate limit"
           || Js.includes message "Too many requests"
        then Js.throw message
        else Js.throw ("Authentication failed: " +:+ message)),
   attempt.2).

(** The login button and the form as [startRateLimitTimer] sets them: the
    button's [disabled] and what its [innerHTML] shows, and whether the form
    takes pointer events; each is [None] when the page lacks the element. *)
Inductive label :=
| InitialLabel
| RateLimitedLabel
| WaitLabel (timeDisplay : string)
| SignInLabel.

Record button := {
  button_disabled : bool;
  button_label : label
}.

Record rateLimit := {
  remainingSeconds : Z;
  loginButton : option button;
  loginForm : option bool;
  rateLimitTimer : bool
}.

(** The closure [updateTimer]; the second component says whether it reached
    its [clearInterval]. *)
Definition updateTimer (t : rateLimit) : rateLimit * bool :=
  let shown := timeDisplay (remainingSeconds t) in
  let waiting :=
    (fun b => {| button_disabled := button_disabled b; button_label := WaitLabel shown |})
    <$> loginButton t in
  let remaining := (remainingSeconds t - 1)%Z in
  if (remaining <? 0)%Z then
    ({| remainingSeconds := remaining;
        loginButton :=
          (fun _ => {| button_disabled := false; button_label := SignInLabel |})
          <$> waiting;
        loginForm := (fun _ => true) <$> loginForm t;
        rateLimitTimer := rateLimitTimer t |}, true)
  else
    ({| remainingSeconds := remaining; loginButton := waiting;
        loginForm := loginForm t; rateLimitTimer := rateLimitTimer t |}, false).

(** [startRateLimitTimer(seconds)] on a page with these elements.  The
    first [updateTimer()] runs before [setInterval]: a [clearInterval] in it
    does not stop the interval that is set after it. *)
Definition startRateLimitTimer (seconds : Z) (btn : option button)
    (frm : option bool) : rateLimit :=
  let btn :=
    (fun _ => {| button_disabled := true; button_label := RateLimitedLabel |}) <$> btn in
  let frm := (fun _ => false) <$> frm in
  let t := (updateTimer {| remainingSeconds := seconds; loginButton := btn;
                           loginForm := frm; rateLimitTimer := false |}).1 in
  {| remainingSeconds := remainingSeconds t; loginButton := loginButton t;
     loginForm := loginForm t; rateLimitTimer := true |}.

(** One second passing: the interval, while it is set, calls [updateTimer]. *)
Definition tick (t : rateLimit) : rateLimit :=
  if rateLimitTimer t then
    let '(t', cleared) := updateTimer t in
    {| remainingSeconds := remainingSeconds t'; loginButton := loginButton t';
       loginForm := loginForm t'; rateLimitTimer := negb cleared |}
  else t.

(** The values of the login form's controls. *)
Record form := {
  form_username : string;
  form_password : string;
  form_agreeToS : bool
}.

(** The credentials [handleLogin] reads from the submitted form. *)
Definition credentials `{Host} (f : form) (turnstileToken : option string) : Credentials :=
  {| cred_username := Some (trim (form_username f));
     cred_password := Some (form_password f);
     cred_agreeToS := form_agreeToS f;
     cred_turnstileToken := turnstileToken |}.

(** [validateForm()]: the [disabled] it gives the login button. *)
Definition validateForm `{Host} (isDevelopment : bool) (f : form)
    (turnstileToken : option string) : bool :=
  let isDevCredentials :=
    isDevelopment && String.eqb (trim (form_username f)) "dev"
                  && String.eqb (form_password f) "dev123" in
  let isValid :=
    (3 <=? String.length (trim (form_username f)))%nat
    && (8 <=? String.length (form_password f))%nat
    && form_agreeToS f
    && (Js.truthy turnstileToken || isDevCredentials) in
  negb isValid.

End TeamSheldonAdmin.

(** ** The sidebar's user profile *)

Module Document.

(** [setElementText(id, text)]: the text is set when the page has the
    element, and nothing happens otherwise. *)
Definition setElementText (id text : string) (doc : gmap string string)
  : gmap string string :=
  match doc !! id with
  | Some _ => <[id := text]> doc
  | None => doc
  end.

(** The profile object of [/api/user/profile], also kept under ['userInfo']. *)
Record UserInfo := {
  username : option string;
  name : option string;
  role : option string;
  userRole : option string;
  email : option string;
  userEmail : option string
}.

(** [updateUserDisplay(userInfo)] of [ActivityLogsManager] and of
    [ScoutingManager] (the two methods are the same text): the three values
    it writes ... *)
Definition displayedUser (u : UserInfo) : string * string * string :=
  (Js.or_default (Js.or_else (username u) (name u)) "Admin User",
   Js.or_default (Js.or_else (role u) (userRole u)) "Administrator",
   Js.or_default (Js.or_else (email u) (userEmail u)) "admin@teamsheldon.tech").

(** ... and the writes. *)
Definition updateUserDisplay (u : UserInfo) (doc : gmap string string)
  : gmap string string :=
  let '(username, userRole, userEmail) := displayedUser u in
  setElementText "sidebarUserEmail" userEmail
    (setElementText "sidebarUserRole" userRole
      (setElementText "sidebarUserName" username doc)).

(** The object literal [{username, role: 'Administrator',
    email: 'admin@teamsheldon.tech'}] the pages show when they have no
    profile. *)
Definition defaultUser (username : string) : UserInfo :=
  {| username := Some username; name := None;
     role := Some "Administrator"; userRole := None;
     email := Some "admin@teamsheldon.tech"; userEmail := None |}.

End Document.

(** ** Dashboard.js: the sidebar's user profile *)

Module DashboardProfile.

(** [loadUserInfo()] of [Dashboard].  [cookieToken] is what
    [this.getAuthCookie()] gives and [fetched] what the request to the
    profile endpoint gives; the state is [localStorage], the decoded
    ['userInfo'] key and the document.  The result also says whether the
    request was sent. *)
Definition loadUserInfo (cookieToken : option string)
    (fetched : Js.M (Http.response Document.UserInfo))
    (ls : gmap string string) (stored : option Document.UserInfo)
    (doc : gmap string string)
  : gmap string string * option Document.UserInfo * gmap string string * bool :=
  let username := Js.or_else (ls !! "username") (ls !! "userEmail") in
  let userRole := Js.or_else (ls !! "userRole") (Some "Administrator") in
  let userEmail := Js.or_else (ls !! "userEmail") (ls !! "username") in
  let '(username, userEmail) :=
    if Js.truthy username && Js.includes (default "" username) "@" then
      let emailParts := Cookie.split "@" (default "" username) in
      let username := default "" (emailParts !! 0) in
      (Some username, Some (username +:+ "@" +:+ default "" (emailParts !! 1)))
    else (username, userEmail) in
  let username := if Js.truthy username then default "" username else "Admin User" in
  let userEmail :=
    if Js.truthy userEmail then default "" userEmail else "admin@teamsheldon.tech" in
  let userRole := if Js.truthy userRole then default "" userRole else "Administrator" in
  let token := Js.or_else (ls !! "authToken") cookieToken in
  let '(username, userRole, userEmail, ls, stored, requested) :=
    if Js.truthy token then
      match
        (response <- fetched ;;
         if Http.ok response then
           userInfo <- Http.json response ;; Js.ret (Some userInfo)
         else Js.ret None)
      with
      | inr (Some userInfo) =>
          let username :=
            Js.or_default (Js.or_else (Document.username userInfo)
                                      (Document.name userInfo)) username in
          let userRole :=
            Js.or_default (Js.or_else (Document.role userInfo)
                                      (Document.userRole userInfo)) userRole in
          let userEmail :=
            Js.or_default (Js.or_else (Document.email userInfo)
                                      (Document.userEmail userInfo)) userEmail in
          (username, userRole, userEmail,
           <["userEmail" := userEmail]> (<["userRole" := userRole]>
             (<["username" := username]> ls)),
           Some userInfo, true)
      | _ => (username, userRole, userEmail, ls, stored, true)
      end
    else (username, userRole, userEmail, ls, stored, false) in
  (ls, stored,
   Document.setElementText "sidebarUserEmail" userEmail
     (Document.setElementText "sidebarUserRole" userRole
       (Document.setElementText "sidebarUserName" username doc)),
   requested).

End DashboardProfile.

(** ** user-info-fix.js *)

Module UserInfoFix.

(** The three values [loadUserInfoWithFallbacks] computes from
    [localStorage] and hands to [updateUserInfoElements]: user name, role,
    email. *)
Definition processedUserInfo (ls : gmap string string) : string * string * string :=
  let username :=
    Js.or_else (Js.or_else (Js.or_else (ls !! "username") (ls !! "userEmail"))
                           (ls !! "user")) (ls !! "adminUsername") in
  let userRole :=
    Js.or_else (Js.or_else (Js.or_else (ls !! "userRole") (ls !! "role"))
                           (ls !! "adminRole")) (Some "Administrator") in
  let userEmail :=
    Js.or_else (Js.or_else (ls !! "userEmail") (ls !! "email")) (ls !! "username") in
  let '(username, userEmail) :=
    if Js.truthy username && Js.includes (default "" username) "@" then
      (Some (Js.before_first "@" (default "" username)),
       if Js.truthy userEmail then userEmail else username)
    else (username, userEmail) in
  let username := if Js.truthy username then default "" username else "Admin User" in
  let userEmail :=
    if Js.truthy userEmail then default "" userEmail
    else if Js.includes username "@" then username else "admin@teamsheldon.tech" in
  let userRole := if Js.truthy userRole then default "" userRole else "Administrator" in
  (username, userRole, userEmail).

(** [updateUserInfoElements(username, userRole, userEmail)].  When the page
    lacks the sidebar element the code looks for a stand-in by attribute, by
    class and by the id without its ['sidebar'] prefix; the document here has
    ids only, so the last of the three is the one it can find. *)
Definition updateElement (id alt value : string) (doc : gmap string string)
  : gmap string string :=
  match doc !! id with
  | Some _ => <[id := value]> doc
  | None => Document.setElementText alt value doc
  end.

Definition updateUserInfoElements (username userRole userEmail : string)
    (doc : gmap string string) : gmap string string :=
  updateElement "sidebarUserEmail" "UserEmail" userEmail
    (updateElement "sidebarUserRole" "UserRole" userRole
      (updateElement "sidebarUserName" "UserName" username doc)).

(** The three values [fetchFreshUserInfo] computes from a profile it
    fetched. *)
Definition freshUserInfo (u : Document.UserInfo) (ls : gmap string string)
  : string * string * string :=
  (Js.or_default (Js.or_else (Js.or_else (Document.username u) (Document.name u))
                             (ls !! "username")) "Admin User",
   Js.or_default (Js.or_else (Js.or_else (Document.role u) (Document.userRole u))
                             (ls !! "userRole")) "Administrator",
   Js.or_default (Js.or_else (Js.or_else (Document.email u) (Document.userEmail u))
                             (ls !! "userEmail")) "admin@teamsheldon.tech").

(** [fetchFreshUserInfo()].  [fetched] is what the one request to the
    profile endpoint gives; the state is [localStorage], the decoded
    ['userInfo'] key and the document.  The result also says whether the
    request was sent. *)
Definition fetchFreshUserInfo (fetched : Js.M (Http.response Document.UserInfo))
    (ls : gmap string string) (stored : option Document.UserInfo)
    (doc : gmap string string)
  : gmap string string * option Document.UserInfo * gmap string string * bool :=
  let token :=
    Js.or_else (Js.or_else (ls !! "authToken") (ls !! "adminToken")) (ls !! "token") in
  if negb (Js.truthy token) then (ls, stored, doc, false)
  else
    match
      Js.try_catch
        (response <- fetched ;;
         if Http.ok response then
           userInfo <- Http.json response ;;
           let '(username, userRole, userEmail) := freshUserInfo userInfo ls in
           Js.ret (<["userEmail" := userEmail]> (<["userRole" := userRole]>
                     (<["username" := username]> ls)),
                   Some userInfo,
                   updateUserInfoElements username userRole userEmail doc)
         else Js.ret (ls, stored, doc))
        (fun _ => Js.ret (ls, stored, doc))
    with
    | inr (ls', stored', doc') => (ls', stored', doc', true)
    | inl _ => (ls, stored, doc, true)
    end.

(** [loadUserInfoWithFallbacks()]: the stored values are shown, then the
    profile is fetched. *)
Definition loadUserInfoWithFallbacks (fetched : Js.M (Http.response Document.UserInfo))
    (ls : gmap string string) (stored : option Document.UserInfo)
    (doc : gmap string string)
  : gmap string string * option Document.UserInfo * gmap string string * bool :=
  let '(username, userRole, userEmail) := processedUserInfo ls in
  fetchFreshUserInfo fetched ls stored
    (updateUserInfoElements username userRole userEmail doc).

End UserInfoFix.

(** ** Activity.js, first script: the activity-log page *)

Module ActivityLogsManager.

Definition API_BASE : string := "https://api.teamsheldon.tech".

Definition msPerDay : Z := 24 * 60 * 60 * 1000.

(** An entry of the API's login history, by the properties the code reads.
    [entry_id] is [entry._id || entry.id].  [entry_time] is the time value
    of [new Date(...)] on the entry's timestamp ([entry.timestamp], or
    [entry.timestamp || entry.date] on the dashboard path), [None] when that
    is an invalid date. *)
Record entry := {
  entry_id : option string;
  entry_time : option Z;
  entry_ip : option string;
  entry_ipAddress : option string;
  entry_username : option string;
  entry_user : option string;
  entry_status : option string;
  entry_success : option bool;
  entry_location : option string;
  entry_country : option string
}.

(** A log as the page keeps it; the properties that are only shown in the
    details popup are left out.  [ipAddress] is [None] when the property is
    [undefined]. *)
Record log := {
  id : string;
  timestamp : option Z;
  ipAddress : option string;
  username : string;
  status : string;
  location : string
}.

Definition convertSuccessToStatus (success : option bool) : string :=
  match success with
  | Some true => "success"
  | Some false => "failed"
  | None => "unknown"
  end.

(** The callback of the [map] in [loadActivityLogs]. *)
Definition historyLog (index : nat) (e : entry) : log :=
  {| id := Js.or_default (entry_id e) ("log_" +:+ Js.String_of (Z.of_nat index));
     timestamp := entry_time e;
     ipAddress := Js.or_else (entry_ip e) (entry_ipAddress e);
     username := Js.or_default (entry_username e) "Unknown";
     status := convertSuccessToStatus (entry_success e);
     location := Js.or_default (Js.or_else (entry_location e) (entry_country e)) "" |}.

(** The callback of the [map] in [processDashboardActivityData]. *)
Definition dashboardLog (index : nat) (e : entry) : log :=
  {| id := Js.or_default (entry_id e) ("admin_log_" +:+ Js.String_of (Z.of_nat index));
     timestamp := entry_time e;
     ipAddress := Some (Js.or_default (Js.or_else (entry_ip e) (entry_ipAddress e)) "Unknown");
     username := Js.or_default (Js.or_else (entry_username e) (entry_user e)) "Unknown";
     status := Js.or_default (entry_status e)
                 (if bool_decide (entry_success e = Some true) then "success" else "failed");
     location := Js.or_default (Js.or_else (entry_location e) (entry_country e)) "" |}.

(** The columns of the log table, which [sortLogs] is called with. *)
Inductive field := Timestamp | IpAddress | Username | Status.

Inductive direction := asc | desc.

#[global] Instance field_eq_dec : EqDecision field.
Proof. solve_decision. Defined.

#[global] Instance direction_eq_dec : EqDecision direction.
Proof. solve_decision. Defined.

Record sortState := {
  sort_field : field;
  sort_direction : direction
}.

(** What the table body shows, and the text of the counter above it. *)
Inductive tableBody :=
| LoadingRow
| ErrorRow (message : string)
| NoActivityRow
| LogRows (rows : list log).

Inductive counter :=
| CountLoading
| CountFailed
| CountShowing (first last total : nat).

Record state := {
  currentPage : nat;
  logsPerPage : nat;
  totalLogs : nat;
  filteredLogs : list log;
  allLogs : list log;
  currentSort : sortState;
  logsTableBody : tableBody;
  logsCount : counter
}.

(** The filter controls: the day picked in the date input (days since
    1970-01-01, [None] when the input is empty or missing), the text of the
    IP input and the value of the status select. *)
Record controls := {
  dateFilter : option Z;
  ipAddressInput : option string;
  statusSelect : option string
}.

(** The constructor's fields. *)
Definition new : state :=
  {| currentPage := 1; logsPerPage := 50; totalLogs := 0;
     filteredLogs := []; allLogs := [];
     currentSort := {| sort_field := Timestamp; sort_direction := desc |};
     logsTableBody := LoadingRow; logsCount := CountLoading |}.

(** [a[field]], a timestamp already wrapped in [new Date]. *)
Definition fieldValue (f : field) (l : log) : Js.value :=
  match f with
  | Timestamp => match timestamp l with Some t => Js.Num t | None => Js.NaN end
  | IpAddress => match ipAddress l with Some s => Js.Str s | None => Js.Undefined end
  | Username => Js.Str (username l)
  | Status => Js.Str (status l)
  end.

(** The comparator of [sortLogs]. *)
Definition compareLogs (f : field) (d : direction) (a b : log) : Z :=
  let aVal := fieldValue f a in
  let bVal := fieldValue f b in
  if Js.lt aVal bVal then (if decide (d = asc) then -1 else 1)%Z
  else if Js.lt bVal aVal then (if decide (d = asc) then 1 else -1)%Z
  else 0%Z.

(** A list is ordered by a field when each log and every later one are in
    the order of the direction: non-decreasing for [asc], non-increasing for
    [desc], timestamps as dates. *)
Definition ordered (f : field) (d : direction) (a b : log) : Prop :=
  match d with
  | asc => Js.le (fieldValue f a) (fieldValue f b) = true
  | desc => Js.le (fieldValue f b) (fieldValue f a) = true
  end.

(** A log has a value to sort by: a valid date for [Timestamp], an
    [ipAddress] that is there for [IpAddress]. *)
Definition defined (f : field) (l : log) : Prop :=
  match f with
  | Timestamp => is_Some (timestamp l)
  | IpAddress => is_Some (ipAddress l)
  | Username | Status => True
  end.

Definition reverse (d : direction) : direction :=
  match d with
  | asc => desc
  | desc => asc
  end.

(** [displayLogs()]. *)
Definition displayLogs (st : state) : state :=
  let startIndex := ((currentPage st - 1) * logsPerPage st)%nat in
  let endIndex := (startIndex + logsPerPage st)%nat in
  let pageData := Js.slice startIndex endIndex (filteredLogs st) in
  match pageData with
  | [] =>
      {| currentPage := currentPage st; logsPerPage := logsPerPage st;
         totalLogs := totalLogs st; filteredLogs := filteredLogs st;
         allLogs := allLogs st; currentSort := currentSort st;
         logsTableBody := NoActivityRow; logsCount := logsCount st |}
  | _ =>
      {| currentPage := currentPage st; logsPerPage := logsPerPage st;
         totalLogs := totalLogs st; filteredLogs := filteredLogs st;
         allLogs := allLogs st; currentSort := currentSort st;
         logsTableBody := LogRows pageData;
         logsCount := CountShowing (startIndex + 1) (Nat.min endIndex (totalLogs st))
                                   (totalLogs st) |}
  end.

(** The direction [sortLogs] settles on. *)
Definition sortDirection (f : field) (d : option direction) (st : state) : direction :=
  match d with
  | Some d => d
  | None =>
      if decide (sort_field (currentSort st) = f)
      then (if decide (sort_direction (currentSort st) = asc) then desc else asc)
      else desc
  end.

(** [sortLogs(field, direction = null, updateDisplay = true)]. *)
Definition sortLogs (f : field) (d : option direction) (updateDisplay : bool)
    (st : state) : state :=
  let d := sortDirection f d st in
  let st :=
    {| currentPage := currentPage st; logsPerPage := logsPerPage st;
       totalLogs := totalLogs st;
       filteredLogs := Js.sort (compareLogs f d) (filteredLogs st);
       allLogs := allLogs st;
       currentSort := {| sort_field := f; sort_direction := d |};
       logsTableBody := logsTableBody st; logsCount := logsCount st |} in
  if updateDisplay then displayLogs st else st.

(** The start of the day the date filter selects: [new Date(dateFilter)]
    is midnight UTC of the day, and [setHours(0, 0, 0, 0)] moves it to the
    local midnight at or before it. *)
Definition filterDate `{Host} (day : Z) : Z :=
  let utcMidnight := (day * msPerDay)%Z in
  ((utcMidnight + LocalTZA) / msPerDay * msPerDay - LocalTZA)%Z.

Definition dateCallback `{Host} (day : Z) (l : log) : bool :=
  let start := filterDate day in
  let nextDay := (start + msPerDay)%Z in
  match timestamp l with
  | Some logDate => (start <=? logDate)%Z && (logDate <? nextDay)%Z
  | None => false
  end.

(** The callback of the IP filter; [toLowerCase] of [undefined] throws. *)
Definition ipCallback `{Host} (ipFilter : string) (l : log) : Js.M bool :=
  match ipAddress l with
  | Some ip => Js.ret (Js.includes (toLowerCase ip) (toLowerCase ipFilter))
  | None => Js.throw "Cannot read properties of undefined (reading 'toLowerCase')"
  end.

(** [applyFilters()].  It ends with [updatePagination()], which only draws
    the pager and is left out, as is [updateStatistics()] in the functions
    below. *)
Definition applyFilters `{Host} (c : controls) (st : state) : Js.M state :=
  let filtered := allLogs st in
  let filtered :=
    match dateFilter c with
    | Some day => List.filter (dateCallback day) filtered
    | None => filtered
    end in
  let ipFilter := trim <$> ipAddressInput c in
  filtered <-
    (if Js.truthy ipFilter
     then Js.filterM (ipCallback (default "" ipFilter)) filtered
     else Js.ret filtered) ;;
  let filtered :=
    if Js.truthy (statusSelect c)
    then List.filter (fun l => String.eqb (status l) (default "" (statusSelect c))) filtered
    else filtered in
  let st :=
    {| currentPage := 1; logsPerPage := logsPerPage st;
       totalLogs := length filtered; filteredLogs := filtered;
       allLogs := allLogs st; currentSort := currentSort st;
       logsTableBody := logsTableBody st; logsCount := logsCount st |} in
  let st := sortLogs (sort_field (currentSort st))
                     (Some (sort_direction (currentSort st))) false st in
  Js.ret (displayLogs st).

(** The three filters of [applyFilters], one after the other, as tests on
    a log that has its [ipAddress]. *)
Definition dateStage `{Host} (c : controls) (l : log) : bool :=
  match dateFilter c with
  | Some day => dateCallback day l
  | None => true
  end.

Definition ipStage `{Host} (c : controls) (l : log) : bool :=
  if Js.truthy (trim <$> ipAddressInput c)
  then match ipAddress l with
       | Some ip =>
           Js.includes (toLowerCase ip)
                       (toLowerCase (default "" (trim <$> ipAddressInput c)))
       | None => false
       end
  else true.

Definition statusStage (c : controls) (l : log) : bool :=
  if Js.truthy (statusSelect c)
  then String.eqb (status l) (default "" (statusSelect c))
  else true.

(** What the specification asks of the filters.  The calendar day, in
    local time, of a time value; and whether a log passes every active
    filter: its timestamp within the selected calendar day, its IP
    containing the (trimmed) text of the IP input whatever the case, its
    status the selected one. *)
Definition localDay `{Host} (t : Z) : Z := ((t + LocalTZA) / msPerDay)%Z.

Definition withinSelectedDay `{Host} (c : controls) (l : log) : bool :=
  match dateFilter c with
  | Some day =>
      match timestamp l with
      | Some t => (localDay t =? day)%Z
      | None => false
      end
  | None => true
  end.

Definition selected `{Host} (c : controls) (l : log) : bool :=
  withinSelectedDay c l && ipStage c l && statusStage c l.

Definition set_allLogs (logs : list log) (st : state) : state :=
  {| currentPage := currentPage st; logsPerPage := logsPerPage st;
     totalLogs := totalLogs st; filteredLogs := filteredLogs st;
     allLogs := logs; currentSort := currentSort st;
     logsTableBody := logsTableBody st; logsCount := logsCount st |}.

(** [showErrorState(message)]. *)
Definition showErrorState (message : string) (st : state) : state :=
  {| currentPage := currentPage st; logsPerPage := logsPerPage st;
     totalLogs := totalLogs st; filteredLogs := filteredLogs st;
     allLogs := allLogs st; currentSort := currentSort st;
     logsTableBody := ErrorRow message; logsCount := CountFailed |}.

(** [showLoadingState()]. *)
Definition showLoadingState (st : state) : state :=
  {| currentPage := currentPage st; logsPerPage := logsPerPage st;
     totalLogs := totalLogs st; filteredLogs := filteredLogs st;
     allLogs := allLogs st; currentSort := currentSort st;
     logsTableBody := LoadingRow; logsCount := CountLoading |}.

(** The page's [performLogout()], on [localStorage]. *)
Definition performLogout (ls : gmap string string) : gmap string string :=
  delete "loginTimestamp" (delete "userInfo" (delete "refreshToken"
    (delete "authToken" ls))).

(** [loadUserInfo()].  [fetched] is what the request to the profile
    endpoint gives; the state is [localStorage], the decoded ['userInfo'] key
    and the document.  The result also says whether the request was sent.
    The redirect that follows a 401 is outside the model. *)
Definition loadUserInfo (fetched : Js.M (Http.response Document.UserInfo))
    (ls : gmap string string) (stored : option Document.UserInfo)
    (doc : gmap string string)
  : gmap string string * option Document.UserInfo * gmap string string * bool :=
  if negb (Js.truthy (ls !! "authToken")) then
    (ls, stored,
     Document.updateUserDisplay (Document.defaultUser "Admin User (No Token)") doc, false)
  else
    match stored with
    | Some userInfo => (ls, stored, Document.updateUserDisplay userInfo doc, false)
    | None =>
        match
          (response <- fetched ;;
           if Http.ok response then
             userInfo <- Http.json response ;;
             Js.ret (ls, Some userInfo, Document.updateUserDisplay userInfo doc)
           else if (Http.status response =? 401)%Z then
             Js.ret (∅, None, doc)
           else Js.ret (ls, stored, doc))
        with
        | inr (ls', stored', doc') => (ls', stored', doc', true)
        | inl _ =>
            (ls, stored,
             Document.updateUserDisplay (Document.defaultUser "Admin User") doc, true)
        end
    end.

(** The JSON bodies of the two log endpoints, by what the code reads in
    them: whether [statistics] and [analytics] are both there, the array
    [recentActivity] (of the body, else of [analytics], else empty), whether
    [success] is [false], [message], [history], and the body itself when it
    is an array. *)
Record body := {
  comprehensive : bool;
  recentActivity : list entry;
  success_false : bool;
  body_message : option string;
  history : option (list entry);
  array : option (list entry)
}.

(** The network of this page; a body is [None] for JSON [null]. *)
Abbreviation network := (Http.network (option body)).

Definition healthRequest : Http.request :=
  {| Http.method := "GET"; Http.url := API_BASE +:+ "/health" |}.

Definition probeRequest : Http.request :=
  {| Http.method := "HEAD"; Http.url := API_BASE +:+ "/api/login-history" |}.

Definition dashboardRequest : Http.request :=
  {| Http.method := "GET"; Http.url := API_BASE +:+ "/api/admin/dashboard" |}.

Definition historyRequest : Http.request :=
  {| Http.method := "GET"; Http.url := API_BASE +:+ "/api/login-history" |}.

(** Both status indicators get the class name, each when the page has it. *)
Definition setIndicators (className : string) (doc : gmap string string)
  : gmap string string :=
  Document.setElementText "dbStatus" className
    (Document.setElementText "apiStatus" className doc).

(** [checkAPIStatus()]: the requests it issues, in order, and the document
    (the class names of the indicators) after it. *)
Definition checkAPIStatus (net : network) (doc : gmap string string)
  : list Http.request * gmap string string :=
  match (response <- net healthRequest ;;
         if Http.ok response then Js.ret tt else Js.throw "API not responding") with
  | inr _ => ([healthRequest], setIndicators "status-indicator online" doc)
  | inl _ =>
      match (testResponse <- net probeRequest ;;
             if negb (Http.status testResponse =? 404)%Z
             then Js.ret tt else Js.throw "API not available") with
      | inr _ =>
          ([healthRequest; probeRequest], setIndicators "status-indicator online" doc)
      | inl _ =>
          ([healthRequest; probeRequest], setIndicators "status-indicator offline" doc)
      end
  end.

(** [processDashboardActivityData(dashboardData)]; the overview, the charts
    and the statistics it also draws are outside the model. *)
Definition processDashboardActivityData `{Host} (c : controls) (b : body) (st : state)
  : Js.M state :=
  applyFilters c (set_allLogs (imap dashboardLog (recentActivity b)) st).

(** The inner [try] of [loadActivityLogs]: [Some st] when the dashboard
    endpoint gave comprehensive data and the function returns with [st],
    [None] when the code goes on to the history endpoint. *)
Definition tryDashboard `{Host} (net : network) (c : controls) (st : state)
  : option state :=
  match
    Js.try_catch
      (dashboardResponse <- net dashboardRequest ;;
       if Http.ok dashboardResponse then
         dashboardData <- Http.json dashboardResponse ;;
         match dashboardData with
         | Some b =>
             if comprehensive b
             then st' <- processDashboardActivityData c b st ;; Js.ret (Some st')
             else Js.ret None
         | None => Js.ret None
         end
       else Js.ret None)
      (fun _ => Js.ret None)
  with
  | inr r => r
  | inl _ => None
  end.

(** The rest of the outer [try]: the history endpoint. *)
Definition loadHistory `{Host} (net : network) (c : controls) (st : state)
  : Js.M state :=
  response <- net historyRequest ;;
  if negb (Http.ok response) then
    Js.throw ("HTTP " +:+ Js.String_of (Http.status response) +:+ ": "
              +:+ Http.statusText response)
  else
    data <- Http.json response ;;
    match data with
    | None => Js.throw "Cannot read properties of null (reading 'history')"
    | Some b =>
        if success_false b then
          Js.throw (Js.or_default (body_message b) "Failed to load activity logs")
        else
          let logsArray :=
            match history b, array b with
            | Some h, _ => h
            | None, Some a => a
            | None, None => []
            end in
          applyFilters c (set_allLogs (imap historyLog logsArray) st)
    end.

(** [loadActivityLogs(showLoading)]: the requests it issues, in order, and
    the state after it. *)
Definition loadActivityLogs `{Host} (net : network) (c : controls)
    (showLoading : bool) (st : state) : list Http.request * state :=
  let st := if showLoading then showLoadingState st else st in
  match tryDashboard net c st with
  | Some st' => ([dashboardRequest], st')
  | None =>
      ([dashboardRequest; historyRequest],
       match loadHistory net c st with
       | inr st' => st'
       | inl message =>
           let st := set_allLogs [] (showErrorState message st) in
           match applyFilters c st with
           | inr st' => st'
           | inl _ => st
           end
       end)
  end.

Definition set_page (page perPage : nat) (st : state) : state :=
  {| currentPage := page; logsPerPage := perPage;
     totalLogs := totalLogs st; filteredLogs := filteredLogs st;
     allLogs := allLogs st; currentSort := currentSort st;
     logsTableBody := logsTableBody st; logsCount := logsCount st |}.

(** [Math.ceil(this.totalLogs / this.logsPerPage)], for a positive
    [logsPerPage]. *)
Definition totalPages (st : state) : nat :=
  ((totalLogs st + logsPerPage st - 1) / logsPerPage st)%nat.

(** [nextPage()] and [previousPage()], without the [updatePagination()] they
    end with, as in [applyFilters]. *)
Definition nextPage (st : state) : state :=
  if (currentPage st <? totalPages st)%nat
  then displayLogs (set_page (currentPage st + 1) (logsPerPage st) st)
  else st.

Definition previousPage (st : state) : state :=
  if (1 <? currentPage st)%nat
  then displayLogs (set_page (currentPage st - 1) (logsPerPage st) st)
  else st.

End ActivityLogsManager.

(** ** Scouting.js, first script: the scouting page *)

Module ScoutingManager.

(** A team report of [/api/teams], by the properties the code reads. *)
Record team := {
  id : option string;
  teamNumber : option Z;
  number : option Z;
  teamName : option string;
  name : option string;
  scoutName : option string;
  scout : option string;
  scoutedBy : option string;
  createdBy : option string;
  reliability : option string;
  date : option string;
  createdAt : option string;
  timestamp : option string
}.

Inductive direction := asc | desc.

#[global] Instance direction_eq_dec : EqDecision direction.
Proof. solve_decision. Defined.

Record sortState := {
  sort_field : string;
  sort_direction : direction
}.

(** The fields of the object.  [teamsPerPage] is positive: it is parsed from
    the values of the page-size select. *)
Record state := {
  currentPage : nat;
  teamsPerPage : nat;
  allTeams : list team;
  filteredTeams : list team;
  currentSort : sortState
}.

(** A card of the grid, by the six texts [renderTeams] writes into its
    markup; [card_teamId] is the text between the quotes of its
    [data-team-id] attribute. *)
Record card := {
  card_teamId : string;
  card_number : string;
  card_name : string;
  card_scout : string;
  card_reliability : string;
  card_date : string
}.

(** The markup of the grid: what the page came with, the "No teams found"
    box, or cards. *)
Inductive grid :=
| InitialMarkup
| NoTeamsFound
| TeamCards (cards : list card).

(** The page: the texts of its elements by id (the [value] of a control,
    the [textContent] otherwise), the grid when the page has one, the
    options of its selects and the [disabled] flags of its buttons. *)
Record page := {
  texts : gmap string string;
  teamsGrid : option grid;
  options : gmap string (list string);
  disabled : gmap string bool
}.

Definition new : state :=
  {| currentPage := 1; teamsPerPage := 24; allTeams := []; filteredTeams := [];
     currentSort := {| sort_field := "teamNumber"; sort_direction := asc |} |}.

(** [loadUserInfo()], as in [ActivityLogsManager] but for the name it shows
    without a token, for the 401 it does not single out and for the [catch],
    which only logs. *)
Definition loadUserInfo (fetched : Js.M (Http.response Document.UserInfo))
    (ls : gmap string string) (stored : option Document.UserInfo)
    (doc : gmap string string)
  : gmap string string * option Document.UserInfo * gmap string string * bool :=
  if negb (Js.truthy (ls !! "authToken")) then
    (ls, stored, Document.updateUserDisplay (Document.defaultUser "Admin User") doc, false)
  else
    match stored with
    | Some userInfo => (ls, stored, Document.updateUserDisplay userInfo doc, false)
    | None =>
        match
          (response <- fetched ;;
           if Http.ok response then
             userInfo <- Http.json response ;;
             Js.ret (ls, Some userInfo, Document.updateUserDisplay userInfo doc)
           else Js.ret (ls, stored, doc))
        with
        | inr (ls', stored', doc') => (ls', stored', doc', true)
        | inl _ => (ls, stored, doc, true)
        end
    end.

Definition set_texts (f : gmap string string -> gmap string string) (pg : page) : page :=
  {| texts := f (texts pg); teamsGrid := teamsGrid pg;
     options := options pg; disabled := disabled pg |}.

Definition setElementText (id text : string) (pg : page) : page :=
  set_texts (Document.setElementText id text) pg.

Definition setDisabled (id : string) (b : bool) (pg : page) : page :=
  match texts pg !! id with
  | Some _ =>
      {| texts := texts pg; teamsGrid := teamsGrid pg;
         options := options pg; disabled := <[id := b]> (disabled pg) |}
  | None => pg
  end.

(** [team.scoutName || team.scout || team.scoutedBy || team.createdBy]. *)
Definition scoutOf (t : team) : option string :=
  Js.or_else (Js.or_else (Js.or_else (scoutName t) (scout t)) (scoutedBy t)) (createdBy t).

(** [team.date || team.createdAt || team.timestamp]. *)
Definition dateOf (t : team) : option string :=
  Js.or_else (Js.or_else (date t) (createdAt t)) (timestamp t).

(** The order of [sort()] without a comparator, on strings. *)
Definition compareStrings (a b : string) : Z :=
  if String.ltb a b then (-1)%Z else if String.ltb b a then 1%Z else 0%Z.

(** [populateScoutsFilter()]: the select gets the distinct scout names in
    order; its old options go, and with them its selection. *)
Definition populateScoutsFilter (pg : page) (st : state) : page :=
  match texts pg !! "scoutFilter" with
  | None => pg
  | Some _ =>
      let scouts :=
        Js.sort compareStrings
          (remove_dups (omap (fun t => if Js.truthy (scoutOf t) then scoutOf t else None)
                             (allTeams st))) in
      {| texts := <["scoutFilter" := ""]> (texts pg); teamsGrid := teamsGrid pg;
         options := <["scoutFilter" := scouts]> (options pg); disabled := disabled pg |}
  end.

(** The callback of the [filter] in [applyFilters]. *)
Definition teamCallback `{Host} (search : string)
    (reliabilityFilter scoutFilter dateFilter : option string) (t : team) : bool :=
  let teamNumber :=
    toLowerCase
      (match Js.or_else_num (teamNumber t) (number t) with
       | Some n => if Js.truthy_num (Some n) then Js.String_of n else ""
       | None => ""
       end) in
  let teamName := toLowerCase (Js.or_default (Js.or_else (teamName t) (name t)) "") in
  let scoutName := toLowerCase (Js.or_default (scoutOf t) "") in
  let reliabilityVal := reliability t in
  let dateVal := dateOf t in
  if negb (String.eqb search "")
     && negb (Js.includes teamNumber search || Js.includes teamName search
              || Js.includes scoutName search) then false
  else if Js.truthy reliabilityFilter && negb (bool_decide (reliabilityVal = reliabilityFilter))
  then false
  else if Js.truthy scoutFilter && negb (bool_decide (Some scoutName = scoutFilter))
  then false
  else if Js.truthy dateFilter && Js.truthy dateVal
          && negb (Js.startsWith (default "" dateVal) (default "" dateFilter))
  then false
  else true.

(** [getFieldValue(team, field)]. *)
Definition getFieldValue (t : team) (f : string) : Js.value :=
  if String.eqb f "teamNumber" then
    Js.Num (match Js.or_else_num (teamNumber t) (number t) with
            | Some n => n
            | None => 0
            end)
  else if String.eqb f "teamName" then
    Js.Str (Js.or_default (Js.or_else (teamName t) (name t)) "")
  else if String.eqb f "scoutName" then Js.Str (Js.or_default (scoutOf t) "")
  else if String.eqb f "date" then Js.Str (Js.or_default (dateOf t) "")
  else if String.eqb f "reliability" then Js.Str (Js.or_default (reliability t) "")
  else Js.Str "".

(** The comparator of [sortTeams]. *)
Definition compareTeams (f : string) (d : direction) (a b : team) : Z :=
  let dir := if decide (d = asc) then 1%Z else (-1)%Z in
  let va := getFieldValue a f in
  let vb := getFieldValue b f in
  if Js.lt va vb then (-1 * dir)%Z
  else if Js.lt vb va then (1 * dir)%Z
  else 0%Z.

(** [formatDate(date)]. *)
Definition formatDate `{Host} (d : option string) : string :=
  if negb (Js.truthy d) then "Unknown"
  else
    match parseDate (default "" d) with
    | None => default "" d
    | Some t => toLocaleDateString t
    end.

(** The texts of one card of [renderTeams]. *)
Definition teamCard `{Host} (t : team) : card :=
  {| card_teamId :=
       if Js.truthy (id t) then default "" (id t)
       else match teamNumber t with
            | Some n => Js.String_of n
            | None => "undefined"
            end;
     card_number :=
       match teamNumber t with
       | Some n => if Js.truthy_num (Some n) then Js.String_of n else "N/A"
       | None => "N/A"
       end;
     card_name := Js.or_default (teamName t) "Unknown Team";
     card_scout := Js.or_default (scoutOf t) "Unknown";
     card_reliability := Js.or_default (reliability t) "N/A";
     card_date := formatDate (dateOf t) |}.

(** [renderTeams()]. *)
Definition renderTeams `{Host} (pg : page) (st : state) : page :=
  match teamsGrid pg with
  | None => pg
  | Some _ =>
      match filteredTeams st with
      | [] =>
          setElementText "teamsCount" "0 teams"
            {| texts := texts pg; teamsGrid := Some NoTeamsFound;
               options := options pg; disabled := disabled pg |}
      | _ =>
          let start := ((currentPage st - 1) * teamsPerPage st)%nat in
          let stop := (start + teamsPerPage st)%nat in
          let teamsToShow := Js.slice start stop (filteredTeams st) in
          setElementText "teamsCount"
            (Js.String_of (Z.of_nat (length (filteredTeams st))) +:+ " teams")
            {| texts := texts pg; teamsGrid := Some (TeamCards (teamCard <$> teamsToShow));
               options := options pg; disabled := disabled pg |}
      end
  end.

(** [Math.max(1, Math.ceil(length / teamsPerPage))]. *)
Definition totalPages (st : state) : nat :=
  Nat.max 1 ((length (filteredTeams st) + teamsPerPage st - 1) / teamsPerPage st).

(** [updatePaginationInfo()]. *)
Definition updatePaginationInfo (pg : page) (st : state) : page :=
  let pg := setElementText "paginationInfo"
              ("Page " +:+ Js.String_of (Z.of_nat (currentPage st)) +:+ " of "
               +:+ Js.String_of (Z.of_nat (totalPages st))) pg in
  let pg := setDisabled "prevPage" (currentPage st <=? 1)%nat pg in
  setDisabled "nextPage" (totalPages st <=? currentPage st)%nat pg.

Definition set_currentPage (n : nat) (st : state) : state :=
  {| currentPage := n; teamsPerPage := teamsPerPage st; allTeams := allTeams st;
     filteredTeams := filteredTeams st; currentSort := currentSort st |}.

(** [sortTeams(field, updateDisplay)]; [field] is [None] or empty when the
    page has no sort select or nothing is picked in it. *)
Definition sortTeams `{Host} (field : option string) (updateDisplay : bool)
    (pg : page) (st : state) : page * state :=
  if negb (Js.truthy field) then (pg, st)
  else
    let f := default "" field in
    let d :=
      if String.eqb (sort_field (currentSort st)) f
      then (if decide (sort_direction (currentSort st) = asc) then desc else asc)
      else asc in
    let st :=
      {| currentPage := currentPage st; teamsPerPage := teamsPerPage st;
         allTeams := allTeams st;
         filteredTeams := Js.sort (compareTeams f d) (filteredTeams st);
         currentSort := {| sort_field := f; sort_direction := d |} |} in
    if updateDisplay then
      let st := set_currentPage 1 st in
      (updatePaginationInfo (renderTeams pg st) st, st)
    else (pg, st).

(** [applyFilters()]. *)
Definition applyFilters `{Host} (pg : page) (st : state) : page * state :=
  let search := Js.or_default (toLowerCase <$> texts pg !! "teamSearch") "" in
  let reliabilityFilter := texts pg !! "reliabilityFilter" in
  let scoutFilter := toLowerCase <$> texts pg !! "scoutFilter" in
  let dateFilter := texts pg !! "dateFilter" in
  let st :=
    {| currentPage := currentPage st; teamsPerPage := teamsPerPage st;
       allTeams := allTeams st;
       filteredTeams :=
         List.filter (teamCallback search reliabilityFilter scoutFilter dateFilter)
                     (allTeams st);
       currentSort := currentSort st |} in
  let '(pg, st) := sortTeams (Some (sort_field (currentSort st))) false pg st in
  let st := set_currentPage 1 st in
  let pg := renderTeams pg st in
  (updatePaginationInfo pg st, st).

(** [reliabilityMap[t.reliability]], a missing entry being [None]. *)
Definition reliabilityScore (t : team) : option Z :=
  match reliability t with
  | Some r =>
      if String.eqb r "Very Low" then Some 1%Z
      else if String.eqb r "Low" then Some 2%Z
      else if String.eqb r "Medium" then Some 3%Z
      else if String.eqb r "High" then Some 4%Z
      else if String.eqb r "Very High" then Some 5%Z
      else None
  | None => None
  end.

Definition truthyScouts (l : list team) : list string :=
  omap (fun t => if Js.truthy (scoutOf t) then scoutOf t else None) l.

(** [updateStats()] at time [now]. *)
Definition updateStats `{Host} (now : Z) (pg : page) (st : state) : page :=
  let count (n : nat) := Js.String_of (Z.of_nat n) in
  let today := toISODate now in
  let isToday (t : team) :=
    Js.startsWith (Js.or_default (Js.or_else (date t) (createdAt t)) "") today in
  let teamsToday := length (List.filter isToday (allTeams st)) in
  let pg := setElementText "totalTeams" (count (length (allTeams st))) pg in
  let pg := setElementText "teamsToday" (count teamsToday +:+ " today") pg in
  let pg := setElementText "totalScouts"
              (count (length (remove_dups (truthyScouts (allTeams st))))) pg in
  let pg := setElementText "scoutsToday"
              (count (length (remove_dups (truthyScouts (List.filter isToday (allTeams st)))))
               +:+ " today") pg in
  let reliabilities := omap reliabilityScore (allTeams st) in
  let pg :=
    match reliabilities with
    | [] => setElementText "avgReliability" "N/A" pg
    | _ =>
        setElementText "avgReliability"
          (toFixed2 (foldr Z.add 0%Z reliabilities) (Z.of_nat (length reliabilities))
           +:+ "/5") pg
    end in
  let pg := setElementText "reliabilityTrend" "--" pg in
  let isRecent (t : team) :=
    match dateOf t with
    | Some s =>
        match parseDate s with
        | Some d => (now - d <=? 7 * 24 * 60 * 60 * 1000)%Z
        | None => false
        end
    | None => false
    end in
  let pg := setElementText "recentReports"
              (count (length (List.filter isRecent (allTeams st)))) pg in
  setElementText "reportsToday" (count teamsToday +:+ " today") pg.

Definition set_allTeams (l : list team) (st : state) : state :=
  {| currentPage := currentPage st; teamsPerPage := teamsPerPage st; allTeams := l;
     filteredTeams := filteredTeams st; currentSort := currentSort st |}.

(** [loadTeams(showLoading)] at time [now].  [fetched] is what the request
    to [/api/teams] gives, the body being [Some] array or [None] for JSON
    that is not an array.  The loading overlay and the failure toast are
    outside the model. *)
Definition loadTeams `{Host} (now : Z)
    (fetched : Js.M (Http.response (option (list team)))) (pg : page) (st : state)
  : page * state :=
  let st :=
    match
      Js.try_catch
        (response <- fetched ;;
         if Http.ok response then
           data <- Http.json response ;;
           Js.ret (set_allTeams (default [] data) st)
         else Js.throw ("API error: " +:+ Js.String_of (Http.status response)))
        (fun _ => Js.ret (set_allTeams [] st))
    with
    | inr st' => st'
    | inl _ => st
    end in
  let pg := populateScoutsFilter pg st in
  let '(pg, st) := applyFilters pg st in
  (updateStats now pg st, st).

(** A list of teams is ordered by a field when each team and every later
    one are in the order of the direction, by the values [getFieldValue]
    gives. *)
Definition ordered (f : string) (d : direction) (a b : team) : Prop :=
  match d with
  | asc => Js.le (getFieldValue a f) (getFieldValue b f) = true
  | desc => Js.le (getFieldValue b f) (getFieldValue a f) = true
  end.

(** [nextPage()]; [Math.ceil(length / teamsPerPage)] for a positive
    [teamsPerPage]. *)
Definition nextPage `{Host} (pg : page) (st : state) : page * state :=
  let totalPages := ((length (filteredTeams st) + teamsPerPage st - 1) / teamsPerPage st)%nat in
  if (currentPage st <? totalPages)%nat then
    let st := set_currentPage (currentPage st + 1) st in
    (updatePaginationInfo (renderTeams pg st) st, st)
  else (pg, st).

(** [previousPage()]. *)
Definition previousPage `{Host} (pg : page) (st : state) : page * state :=
  if (1 <? currentPage st)%nat then
    let st := set_currentPage (currentPage st - 1) st in
    (updatePaginationInfo (renderTeams pg st) st, st)
  else (pg, st).

(** [resetFilters()]. *)
Definition resetFilters `{Host} (pg : page) (st : state) : page * state :=
  let pg := setElementText "teamSearch" "" pg in
  let pg := setElementText "reliabilityFilter" "" pg in
  let pg := setElementText "scoutFilter" "" pg in
  let pg := setElementText "dateFilter" "" pg in
  applyFilters pg st.

(** The cards the grid shows. *)
Definition cards (pg : page) : list card :=
  match teamsGrid pg with
  | Some (TeamCards cs) => cs
  | _ => []
  end.

(** [String(t.id || t.teamNumber)]. *)
Definition teamKey (t : team) : string :=
  if Js.truthy (id t) then default "" (id t)
  else match teamNumber t with
       | Some n => Js.String_of n
       | None => "undefined"
       end.


(** The characters a double-quoted attribute value holds as they are.  The
    others are the quote, which ends the value; the ampersand, which starts
    a character reference; the carriage return, which the parser reads as a
    line feed; and NUL, which it replaces. *)
Definition attributeChar (c : ascii) : bool :=
  let n := nat_of_ascii c in
  negb ((n =? 0)%nat || (n =? 13)%nat || (n =? 34)%nat || (n =? 38)%nat).

Definition attributeSafe (s : string) : bool :=
  forallb attributeChar (list_ascii_of_string s).



End ScoutingManager.

(** * Part II: properties *)

(** Lookups in a storage or a document after a run of [setItem] and
    [removeItem]. *)
Ltac map_lookup :=
  repeat first
    [ rewrite lookup_insert_eq
    | rewrite lookup_delete_eq
    | rewrite lookup_insert_ne by done
    | rewrite lookup_delete_ne by done ].

(** ** Lists, sorting and the error monad *)

Section SortFacts.

Context {A : Type} (cmp : A -> A -> Z).

Lemma insert_by_Permutation (x : A) (l : list A) :
  Js.insert_by cmp x l ≡ₚ x :: l.
Proof.
  induction l as [|y l IH]; simpl; [done|].
  destruct (0 <? cmp x y)%Z; [|done].
  rewrite IH. apply Permutation_swap.
Qed.

Lemma sort_Permutation (l : list A) : Js.sort cmp l ≡ₚ l.
Proof.
  induction l as [|x l IH]; simpl; [done|].
  rewrite insert_by_Permutation. by f_equiv.
Qed.

Lemma sort_length (l : list A) : length (Js.sort cmp l) = length l.
Proof. apply Permutation_length, sort_Permutation. Qed.

Lemma consistent_on_subseteq (l l' : list A) :
  l' ⊆ l -> Js.consistent_on cmp l -> Js.consistent_on cmp l'.
Proof.
  intros Hsub [Htrans Htotal]. split.
  - intros a b c Ha Hb Hc. apply Htrans; by apply Hsub.
  - intros a b Ha Hb. apply Htotal; by apply Hsub.
Qed.

Lemma insert_by_sorted (x : A) (l : list A) :
  Js.consistent_on cmp (x :: l) ->
  StronglySorted (Js.before cmp) l ->
  StronglySorted (Js.before cmp) (Js.insert_by cmp x l).
Proof.
  induction l as [|y l IH]; simpl; intros Hc Hsorted.
  - repeat constructor.
  - apply StronglySorted_inv in Hsorted as [Hsorted Hall].
    assert (Hx : x ∈ x :: y :: l) by apply list_elem_of_here.
    assert (Hy : y ∈ x :: y :: l) by apply list_elem_of_further, list_elem_of_here.
    destruct (0 <? cmp x y)%Z eqn:Hlt.
    + apply Z.ltb_lt in Hlt.
      assert (Hyx : Js.before cmp y x).
      { destruct Hc as [_ Htotal].
        destruct (Htotal x y Hx Hy) as [H|H]; [|done].
        unfold Js.before in H. lia. }
      constructor.
      * apply IH; [|done].
        apply (consistent_on_subseteq (x :: y :: l)); [|done].
        intros z Hz. apply elem_of_cons in Hz as [->|Hz]; [done|].
        by do 2 apply list_elem_of_further.
      * rewrite insert_by_Permutation. by constructor.
    + apply Z.ltb_ge in Hlt.
      constructor; [by constructor|].
      constructor; [done|].
      rewrite Forall_forall in Hall |- *. intros z Hz.
      destruct Hc as [Htrans _].
      apply (Htrans x y z); [done|done| |done|by apply Hall].
      by do 2 apply list_elem_of_further.
Qed.

Lemma sort_sorted (l : list A) :
  Js.consistent_on cmp l -> StronglySorted (Js.before cmp) (Js.sort cmp l).
Proof.
  induction l as [|x l IH]; simpl; intros Hc; [constructor|].
  apply insert_by_sorted.
  - apply (consistent_on_subseteq (x :: l)); [|done].
    by rewrite sort_Permutation.
  - apply IH, (consistent_on_subseteq (x :: l)); [|done].
    intros z Hz. by apply list_elem_of_further.
Qed.

End SortFacts.

(** ** notifications.js *)

Section NotificationStore.

Import NotificationManager.

Lemma slice_last_length {A} (n : nat) (l : list A) :
  length (Js.slice_last n l) = Nat.min n (length l).
Proof. unfold Js.slice_last. rewrite length_drop. lia. Qed.

Lemma slice_last_suffix {A} (n : nat) (l : list A) :
  Js.slice_last n l `suffix_of` l.
Proof. apply suffix_drop. Qed.

(** One call: the new notification follows the old list, of which the
    oldest entries go first when it was full, so that four are left. *)
Lemma storeNotification_appends (o : option (list notification)) (n : notification) :
  exists dropped kept,
    stored_list o = dropped ++ kept
    /\ storeNotification o n = Some (kept ++ [n])
    /\ (length (stored_list o) < MAX_STORED_NOTIFICATIONS -> dropped = [])
    /\ (MAX_STORED_NOTIFICATIONS <= length (stored_list o) ->
        length kept = MAX_STORED_NOTIFICATIONS - 1).
Proof.
  unfold storeNotification, Js.slice_last.
  destruct (MAX_STORED_NOTIFICATIONS <=? length (stored_list o)) eqn:Hfull.
  - apply Nat.leb_le in Hfull.
    exists (take (length (stored_list o) - (MAX_STORED_NOTIFICATIONS - 1)) (stored_list o)),
           (drop (length (stored_list o) - (MAX_STORED_NOTIFICATIONS - 1)) (stored_list o)).
    split; [by rewrite take_drop|]. split; [done|].
    split; [lia|]. intros _. rewrite length_drop.
    unfold MAX_STORED_NOTIFICATIONS in *. lia.
  - apply Nat.leb_gt in Hfull. exists [], (stored_list o).
    split; [done|]. split; [done|]. split; [done|]. lia.
Qed.

(** C9.  Whatever list is stored and however many times [storeNotification]
    is called, each call appends its notification to the list under
    ['admin_notifications']: the list after the call is the list before it
    followed by the new notification, all of it when it had fewer than
    [MAX_STORED_NOTIFICATIONS] = 5 entries and its last four entries
    otherwise.  So after each call the list has at most 5 entries and ends
    with the notification of that call. *)
Theorem storeNotification_bounded
    (stored : option (list notification)) (calls : list notification)
    (n : notification) :
  let before := stored_list (storeAll stored calls) in
  let after := stored_list (storeAll stored (calls ++ [n])) in
  length after <= 5
  /\ last after = Some n
  /\ exists dropped kept,
       before = dropped ++ kept /\ after = kept ++ [n]
       /\ (length before < 5 -> dropped = [])
       /\ (5 <= length before -> length kept = 4).
Proof.
  unfold storeAll. rewrite foldl_app. cbn [foldl].
  destruct (storeNotification_appends (foldl storeNotification stored calls) n)
    as (dropped & kept & Hbefore & -> & Hroom & Hfull).
  cbn [stored_list default from_option id] in *.
  unfold MAX_STORED_NOTIFICATIONS in Hroom, Hfull.
  split.
  - rewrite length_app. simpl.
    destruct (Nat.lt_ge_cases (length (stored_list (foldl storeNotification stored calls))) 5)
      as [Hlt|Hge].
    + pose proof (Hroom Hlt) as Hnone. rewrite Hbefore, Hnone in Hlt. simpl in Hlt. lia.
    + specialize (Hfull Hge). simpl in Hfull. lia.
  - split; [apply last_snoc|].
    exists dropped, kept. split; [done|]. split; [done|]. split; [done|].
    intros Hge. by rewrite (Hfull Hge).
Qed.

End NotificationStore.

Section NotificationReload.

Import NotificationManager.

Lemma slice_last_all {A} (n : nat) (l : list A) :
  length l <= n -> Js.slice_last n l = l.
Proof.
  intros Hlen. unfold Js.slice_last.
  by replace (length l - n) with 0 by lia.
Qed.

Lemma slice_last_snoc {A} (n : nat) (l : list A) (x : A) :
  Js.slice_last (S n) (l ++ [x]) = Js.slice_last n l ++ [x].
Proof.
  unfold Js.slice_last. rewrite length_app. simpl.
  replace (length l + 1 - S n) with (length l - n) by lia.
  by rewrite drop_app_le by lia.
Qed.

Lemma slice_last_slice_last {A} (n m : nat) (l : list A) :
  n <= m -> Js.slice_last n (Js.slice_last m l) = Js.slice_last n l.
Proof.
  intros Hle. unfold Js.slice_last. rewrite drop_drop, length_drop.
  f_equal. lia.
Qed.

(** One call keeps the last five of the old list followed by the new
    notification. *)
Lemma storeNotification_slice (o : option (list notification)) (n : notification) :
  storeNotification o n = Some (Js.slice_last 5 (stored_list o ++ [n])).
Proof.
  unfold storeNotification, MAX_STORED_NOTIFICATIONS.
  rewrite slice_last_snoc. change (5 - 1) with 4.
  destruct (5 <=? length (stored_list o)) eqn:Hfull; [done|].
  apply Nat.leb_gt in Hfull. by rewrite slice_last_all by lia.
Qed.

Lemma storeAll_slice (l ns : list notification) :
  storeAll (Some (Js.slice_last 5 l)) ns = Some (Js.slice_last 5 (l ++ ns)).
Proof.
  revert l. induction ns as [|n ns IH]; intros l.
  - by rewrite app_nil_r.
  - unfold storeAll. cbn [foldl]. rewrite storeNotification_slice.
    cbn [stored_list default from_option id].
    rewrite slice_last_snoc, slice_last_slice_last by lia.
    rewrite <- slice_last_snoc. fold (storeAll (Some (Js.slice_last 5 (l ++ [n]))) ns).
    by rewrite IH, <- app_assoc.
Qed.

Lemma storeAll_cons_slice (o : option (list notification)) (n : notification)
    (ns : list notification) :
  storeAll o (n :: ns) = Some (Js.slice_last 5 (stored_list o ++ n :: ns)).
Proof.
  unfold storeAll. cbn [foldl]. rewrite storeNotification_slice.
  fold (storeAll (Some (Js.slice_last 5 (stored_list o ++ [n]))) ns).
  by rewrite storeAll_slice, <- app_assoc.
Qed.

(** X1.  After any run of [storeNotification] calls, one or more, the key
    holds exactly the last five of the list made of what was stored followed
    by the notifications of the calls, in that order: a notification is
    dropped only as the oldest of more than five, and nothing is reordered. *)
Theorem storeAll_keeps_last_five (stored : option (list notification))
    (n : notification) (calls : list notification) :
  storeAll stored (n :: calls)
  = Some (Js.slice_last 5 (stored_list stored ++ n :: calls)).
Proof.
  unfold storeAll. cbn [foldl]. rewrite storeNotification_slice.
  fold (storeAll (Some (Js.slice_last 5 (stored_list stored ++ [n]))) calls).
  by rewrite storeAll_slice, <- app_assoc.
Qed.

(** The timers of [loadStoredNotifications] store each notification again,
    with the time of its timer. *)
Lemma runTimers_storeAll (clock : nat -> Z) (i : nat) (scheduled : list notification)
    (o : option (list notification)) :
  runTimers clock i scheduled o
  = storeAll o (imap (fun j n => {| message := message n; type := type n;
                                    timestamp := clock (i + j) |}) scheduled).
Proof.
  revert i o. induction scheduled as [|n l IH]; intros i o; [done|].
  cbn [runTimers imap]. rewrite IH. unfold storeAll, show. cbn [foldl].
  rewrite Nat.add_0_r. f_equal. apply imap_ext. intros j x _. simpl.
  by rewrite Nat.add_succ_r.
Qed.

(** The callback of the [filter] in [loadStoredNotifications] keeps the
    notifications less than an hour old, in their order. *)
Lemma filter_young (now : Z) (l : list notification) :
  List.filter (fun n => (now - timestamp n <? oneHour)%Z) l
  = filter (fun n => (now - timestamp n < oneHour)%Z) l.
Proof.
  induction l as [|n l IH]; [done|]. cbn [List.filter].
  destruct (Z.ltb_spec (now - timestamp n) oneHour) as [Hyoung|Hold].
  - by rewrite filter_cons_True, IH.
  - rewrite filter_cons_False, IH; [done|lia].
Qed.

(** X2.  [loadStoredNotifications] writes back exactly the stored
    notifications that are less than an hour old, in their stored order,
    and shows each of them again, in that order; as [show] stores what it
    shows, the key then holds the last five of the kept notifications
    followed by a second copy of each, stamped with the time of its timer:
    twice as many entries as were kept, up to the limit of five. *)
Theorem loadStoredNotifications_stores_again (now : Z) (clock : nat -> Z)
    (stored : option (list notification)) :
  let kept := filter (fun n => (now - timestamp n < oneHour)%Z) (stored_list stored) in
  let written := (loadStoredNotifications now stored).1 in
  let scheduled := (loadStoredNotifications now stored).2 in
  let after := stored_list (runTimers clock 0 scheduled written) in
  written = Some kept
  /\ scheduled = kept
  /\ after
     = Js.slice_last 5
         (kept ++ imap (fun i n => {| message := message n; type := type n;
                                      timestamp := clock i |}) kept)
  /\ length after = Nat.min 5 (2 * length kept).
Proof.
  cbn [loadStoredNotifications fst snd]. rewrite filter_young.
  set (valid := filter _ _).
  assert (Hafter : stored_list (runTimers clock 0 valid (Some valid))
            = Js.slice_last 5
                (valid ++ imap (fun i n => {| message := message n; type := type n;
                                              timestamp := clock i |}) valid)).
  { rewrite runTimers_storeAll. destruct valid as [|n l]; [done|].
    cbn [imap]. by rewrite storeAll_cons_slice. }
  split; [done|]. split; [done|]. split; [exact Hafter|].
  rewrite Hafter, slice_last_length, length_app, length_imap. lia.
Qed.

(** X3.  Closing a persistent notification undoes its [show]: when the
    store was not full and held no notification with the same message,
    [removeStoredNotification] after [storeNotification] leaves the list as
    it was. *)
Theorem removeStoredNotification_undoes_store (stored : option (list notification))
    (n : notification) :
  length (stored_list stored) < MAX_STORED_NOTIFICATIONS ->
  Forall (fun x => message x <> message n) (stored_list stored) ->
  removeStoredNotification (storeNotification stored n) (message n)
  = Some (stored_list stored).
Proof.
  intros Hroom Hother. unfold removeStoredNotification, storeNotification.
  apply Nat.leb_gt in Hroom. rewrite Hroom.
  cbn [stored_list default from_option id]. f_equal.
  rewrite filter_app, filter_cons_False, filter_nil, app_nil_r by naive_solver.
  clear Hroom. induction Hother as [|x l Hx _ IH]; [done|].
  by rewrite filter_cons_True, IH.
Qed.

Lemma removeStoredNotification_undoes_store_witness :
  let old := {| message := "Backup finished"; type := "success"; timestamp := 1000 |} in
  let n := {| message := "Session expiring"; type := "warning"; timestamp := 2000 |} in
  removeStoredNotification (storeNotification (Some [old]) n) (message n) = Some [old].
Proof.
  intros old n.
  apply (removeStoredNotification_undoes_store (Some [old]) n).
  - unfold MAX_STORED_NOTIFICATIONS. simpl. lia.
  - repeat constructor. simpl. discriminate.
Defined.

End NotificationReload.

(** ** Dashboard.js: [safeFetch] *)

Section SafeFetch.

Import Dashboard.

Context {D : Type}.
Implicit Types (fetched : Js.M (Http.response D)) (response : Http.response D).

Lemma ok_not_429 response : Http.ok response = true -> Http.status response <> 429%Z.
Proof. unfold Http.ok. intros H. apply andb_true_iff in H as [_ H]. lia. Qed.

(** [safeFetch] never throws. *)
Lemma safeFetch_returns fetched : exists r, safeFetch fetched = inr r.
Proof.
  unfold safeFetch.
  destruct fetched as [e|response]; simpl; [by eexists|].
  destruct (Http.status response =? 429)%Z; [by eexists|].
  destruct (Http.ok response).
  - destruct (Http.json response); by eexists.
  - destruct (Http.text response); by eexists.
Qed.

(** A response that is ok gives no success when its body is not JSON: the
    [catch] reports it as a network error. *)
Lemma safeFetch_ok_without_success :
  let response : Http.response Z :=
    {| Http.status := 204; Http.statusText := "No Content";
       Http.json := Js.throw "Unexpected end of JSON input";
       Http.text := Js.ret "" |} in
  Http.ok response = true
  /\ safeFetch (Js.ret response)
     = inr {| success := false; data := None; error := Some "network_error";
              message := Some "Unexpected end of JSON input" |}
  /\ ~ (forall r, safeFetch (Js.ret response) = inr r ->
          (success r = true <-> Http.ok response = true)).
Proof.
  split; [done|]. split; [done|].
  intros H. specialize (H _ eq_refl). simpl in H.
  destruct H as [_ H]. by specialize (H eq_refl).
Qed.

(** C3, as the code has it.  [safeFetch] returns for every outcome of the
    request and never throws, and its result is one of four objects.  It is
    [{success: true, data}] with the parsed body exactly when the response
    is ok and its body parses as JSON; [{success: false, error:
    'rate_limit'}] exactly when the status is 429; [{success: false, error:
    'api_error'}] exactly when the status is another one that is not ok and
    the body could be read; [{success: false, error: 'network_error'}] with
    the message of the error exactly when the request itself failed or
    reading the body threw. *)
Theorem safeFetch_outcome fetched :
  exists r, safeFetch fetched = inr r
  /\ (success r = true <->
       exists response d, fetched = inr response /\ Http.ok response = true
         /\ Http.json response = inr d)
  /\ (forall response d, fetched = inr response -> Http.ok response = true ->
       Http.json response = inr d ->
       r = {| success := true; data := Some d; error := None; message := None |})
  /\ (error r = Some "rate_limit" <->
       exists response, fetched = inr response /\ Http.status response = 429%Z)
  /\ (forall response, fetched = inr response -> Http.status response = 429%Z ->
       r = {| success := false; data := None; error := Some "rate_limit";
              message := Some "Rate limited" |})
  /\ (error r = Some "api_error" <->
       exists response body, fetched = inr response /\ Http.ok response = false
         /\ Http.status response <> 429%Z /\ Http.text response = inr body)
  /\ (forall response body, fetched = inr response -> Http.ok response = false ->
       Http.status response <> 429%Z -> Http.text response = inr body ->
       r = {| success := false; data := None; error := Some "api_error";
              message := Some ("HTTP " +:+ Js.String_of (Http.status response)
                               +:+ ": " +:+ Http.statusText response) |})
  /\ (error r = Some "network_error" <->
       (exists e, fetched = inl e)
       \/ exists response e, fetched = inr response
            /\ Http.status response <> 429%Z
            /\ (Http.ok response = true /\ Http.json response = inl e
                \/ Http.ok response = false /\ Http.text response = inl e))
  /\ (forall e, fetched = inl e ->
       r = {| success := false; data := None; error := Some "network_error";
              message := Some e |})
  /\ (forall response e, fetched = inr response -> Http.status response <> 429%Z ->
       Http.ok response = true /\ Http.json response = inl e
       \/ Http.ok response = false /\ Http.text response = inl e ->
       r = {| success := false; data := None; error := Some "network_error";
              message := Some e |}).
Proof.
  unfold safeFetch.
  destruct fetched as [e|response]; simpl.
  { eexists. split; [done|]. simpl. repeat split; try naive_solver. }
  destruct (Http.status response =? 429)%Z eqn:H429.
  { apply Z.eqb_eq in H429. pose proof (ok_not_429 response) as Hnot.
    eexists. split; [done|]. simpl. repeat split; naive_solver. }
  apply Z.eqb_neq in H429.
  destruct (Http.ok response) eqn:Hok.
  - destruct (Http.json response) as [e|d] eqn:Hjson; simpl.
    all: eexists; (split; [done|]); simpl; repeat split; naive_solver congruence.
  - destruct (Http.text response) as [e|body] eqn:Htext; simpl.
    all: eexists; (split; [done|]); simpl; repeat split; naive_solver congruence.
Qed.

End SafeFetch.

(** ** Dashboard.js: the cache *)

Section DashboardCache.

Import Dashboard.

Context {D : Type} (truthy : D -> bool).
Implicit Types (cache : gmap string (cacheEntry D)).

Lemma getCachedData_set (now later : Z) (key : string) (data : D) cache :
  getCachedData later key (setCachedData now key data cache)
  = if (later - now <? cacheExpiry)%Z then Some data else None.
Proof. unfold getCachedData, setCachedData. by rewrite lookup_insert_eq. Qed.

(** What [setCachedData] stores under a key, [getCachedData] gives back
    for that key during the five minutes that follow and no longer; the
    entries of the other keys are as they were. *)
Lemma cache_round_trip (now later : Z) (key other : string) (data : D) cache :
  let cache' := setCachedData now key data cache in
  ((later - now < cacheExpiry)%Z -> getCachedData later key cache' = Some data)
  /\ ((cacheExpiry <= later - now)%Z -> getCachedData later key cache' = None)
  /\ (other <> key -> getCachedData later other cache' = getCachedData later other cache).
Proof.
  intros cache'. unfold cache'. rewrite getCachedData_set. repeat split.
  - intros Hfresh. by apply Z.ltb_lt in Hfresh as ->.
  - intros Hstale. by apply Z.ltb_ge in Hstale as ->.
  - intros Hother. unfold getCachedData, setCachedData.
    by rewrite lookup_insert_ne.
Qed.

(** X4.  A [cachedFetch] that misses the cache and gets an ok response with
    truthy data returns the data and caches them; every [cachedFetch] for the
    key in the five minutes after that returns the same data from the cache,
    sends no request and leaves the cache alone, whatever the network would
    have answered. *)
Theorem cachedFetch_serves_cache (now later : Z)
    (fetched : Js.M (Http.response D)) (response : Http.response D) (data : D)
    (key : string) cache :
  fetched = inr response -> Http.ok response = true ->
  Http.json response = inr data -> truthy data = true ->
  (forall d, getCachedData now key cache = Some d -> truthy d = false) ->
  let first := cachedFetch truthy now later fetched key cache in
  first.1.1 = OkData data
  /\ first.2 = true
  /\ forall now' later' fetched', (now' - later < cacheExpiry)%Z ->
       cachedFetch truthy now' later' fetched' key first.1.2
       = (OkData data, first.1.2, false).
Proof.
  intros -> Hok Hjson Htruthy Hmiss first.
  assert (Hfirst : first = (OkData data, setCachedData later key data cache, true)).
  { unfold first, cachedFetch. simpl. rewrite Hok, Hjson. simpl.
    destruct (getCachedData now key cache) as [d|] eqn:Hcached; [|done].
    by rewrite (Hmiss d). }
  rewrite Hfirst. cbn [fst snd]. split; [done|]. split; [done|].
  intros now' later' fetched' Hfresh. unfold cachedFetch.
  rewrite getCachedData_set. apply Z.ltb_lt in Hfresh as ->.
  by rewrite Htruthy.
Qed.

(** X5.  A [cachedFetch] whose request fails (the fetch rejects, the
    response is not ok, or its body is not JSON) leaves the cache as it was,
    and the only data it can return are data the cache held for the key. *)
Theorem cachedFetch_failure_not_cached (now later : Z)
    (fetched : Js.M (Http.response D)) (key : string) cache :
  (forall response, fetched = inr response -> Http.ok response = true ->
     exists e, Http.json response = inl e) ->
  let result := cachedFetch truthy now later fetched key cache in
  result.1.2 = cache
  /\ (forall d, result.1.1 = OkData d -> getCachedData now key cache = Some d)
  /\ (getCachedData now key cache = None -> result.2 = true).
Proof.
  intros Hfail result.
  assert (Hrequested :
    forall requested,
      requested
      = match
          Js.try_catch
            (response <- fetched ;;
             if Http.ok response then
               data <- Http.json response ;;
               Js.ret (OkData data, setCachedData later key data cache)
             else Js.ret (Response response, cache))
            (fun _ => Js.ret (Status500, cache))
        with
        | inr (r, cache') => (r, cache', true)
        | inl _ => (Status500, cache, true)
        end ->
      requested.1.2 = cache /\ (forall d, requested.1.1 <> OkData d)
      /\ requested.2 = true).
  { intros requested ->. destruct fetched as [e|response]; simpl; [done|].
    destruct (Http.ok response) eqn:Hok; simpl; [|done].
    destruct (Hfail response eq_refl Hok) as [e ->]. done. }
  specialize (Hrequested _ eq_refl) as (Hcache & Hdata & Hsent).
  unfold result, cachedFetch.
  destruct (getCachedData now key cache) as [d|] eqn:Hcached.
  - destruct (truthy d); [|by split; [|split; [intros d' H'; by apply Hdata in H'|]]].
    cbn [fst snd]. split; [done|]. split; [|done]. by intros d' [= ->].
  - split; [done|]. split; [|done]. intros d' H'. by apply Hdata in H'.
Qed.

End DashboardCache.

(** ** Dashboard.js: the API key and the status indicators *)

Section DashboardStatus.

Import Dashboard.

Context {D : Type}.

(** X6.  [validateApiKey]: when the verify endpoint answers with a status
    that is not ok (and the answer can be read), the session is cleared as
    for a missing key, and a [Dashboard] constructed after that finds no API
    key; in every other case, a request that fails included, the storage is
    left as it is. *)
Theorem validateApiKey_rejects (verified : Js.M (Http.response D))
    (ls : gmap string string) :
  let rejected :=
    exists response body,
      verified = inr response /\ Http.ok response = false
      /\ Http.text response = inr body in
  (rejected ->
     validateApiKey verified ls = handleMissingApiKey ls
     /\ (new (validateApiKey verified ls)).2 = false)
  /\ (~ rejected -> validateApiKey verified ls = ls).
Proof.
  intros rejected. unfold rejected, validateApiKey. split.
  - intros (response & body & -> & Hok & Htext). simpl. rewrite Hok, Htext. simpl.
    split; [done|]. unfold new, API_KEY, handleMissingApiKey. by map_lookup.
  - intros Hnot. destruct verified as [e|response]; [done|]. simpl.
    destruct (Http.ok response) eqn:Hok.
    + by destruct (Http.json response).
    + destruct (Http.text response) as [e|body] eqn:Htext; [done|].
      destruct Hnot. by exists response, body.
Qed.

(** X7.  [checkSystemStatus] on a page with both indicators.  The API
    indicator is "online" exactly when the health request gave an ok
    response with a JSON body, "warning" exactly when it gave status 429, and
    "offline" in every other case; the database indicator is "online"
    whatever the request gave. *)
Theorem checkSystemStatus_indicators (fetched : Js.M (Http.response D))
    (doc : gmap string string) :
  is_Some (doc !! "apiStatus") -> is_Some (doc !! "dbStatus") ->
  let doc' := (checkSystemStatus fetched doc).1 in
  let healthy :=
    exists response d,
      fetched = inr response /\ Http.ok response = true /\ Http.json response = inr d in
  let limited := exists response, fetched = inr response /\ Http.status response = 429%Z in
  doc' !! "dbStatus" = Some "status-indicator online"
  /\ (healthy -> doc' !! "apiStatus" = Some "status-indicator online")
  /\ (limited -> doc' !! "apiStatus" = Some "status-indicator warning")
  /\ (~ healthy -> ~ limited -> doc' !! "apiStatus" = Some "status-indicator offline")
  /\ (checkSystemStatus fetched doc).2 = true.
Proof.
  intros [api Hapi] [db Hdb] doc' healthy limited.
  assert (Hdoc' : exists cls,
    doc' = <["dbStatus" := "status-indicator online"]> (<["apiStatus" := cls]> doc)
    /\ (healthy -> cls = "status-indicator online")
    /\ (limited -> cls = "status-indicator warning")
    /\ (~ healthy -> ~ limited -> cls = "status-indicator offline")).
  { unfold doc', checkSystemStatus, setClassName. rewrite Hapi.
    destruct (safeFetch_returns fetched) as [r Hr]. rewrite Hr. simpl.
    rewrite lookup_insert_ne, Hdb by done.
    eexists. split; [done|].
    unfold safeFetch in Hr. unfold healthy, limited.
    destruct fetched as [e|response]; simpl in Hr.
    { cbv [Js.ret] in Hr. injection Hr as <-. simpl.
      rewrite ?bool_decide_eq_false_2 by done.
      split; [by intros (? & ? & ? & _)|]. split; [by intros (? & ? & _)|done]. }
    destruct (Http.status response =? 429)%Z eqn:H429.
    { apply Z.eqb_eq in H429. cbv [Js.ret] in Hr. injection Hr as <-. simpl.
      rewrite ?bool_decide_eq_true_2 by done.
      split; [intros (r' & d & [= <-] & Hok & _); by apply ok_not_429 in Hok|].
      split; [done|]. intros _ Hnot. destruct Hnot. by exists response. }
    apply Z.eqb_neq in H429.
    destruct (Http.ok response) eqn:Hok.
    - destruct (Http.json response) as [e|d] eqn:Hjson; simpl in Hr;
        cbv [Js.ret] in Hr; injection Hr as <-; simpl.
      + rewrite ?bool_decide_eq_false_2 by done.
        split; [intros (r' & d & [= <-] & _ & Hd); congruence|].
        split; [intros (r' & [= <-] & Hs); congruence|done].
      + split; [done|]. split; [intros (r' & [= <-] & Hs); congruence|].
        intros Hnot. destruct Hnot. by exists response, d.
    - destruct (Http.text response) as [e|body] eqn:Htext; simpl in Hr;
        cbv [Js.ret] in Hr; injection Hr as <-; simpl;
        rewrite ?bool_decide_eq_false_2 by done.
      all: split; [intros (r' & d & [= <-] & Hok' & _); congruence|].
      all: split; [intros (r' & [= <-] & Hs); congruence|done]. }
  destruct Hdoc' as (cls & -> & Hhealthy & Hlimited & Hoffline).
  split; [by map_lookup|].
  split; [intros Hh; rewrite (Hhealthy Hh); by map_lookup|].
  split; [intros Hl; rewrite (Hlimited Hl); by map_lookup|].
  split; [intros Hh Hl; rewrite (Hoffline Hh Hl); by map_lookup|].
  unfold checkSystemStatus. rewrite Hapi.
  by destruct (safeFetch_returns fetched) as [r ->].
Qed.

End DashboardStatus.

(** ** The session cookie *)

Section CookieFacts.

Import Cookie.

Lemma split_free (c : ascii) (s : string) : free c s -> split c s = [s].
Proof.
  induction s as [|a s IH]; [done|]. unfold free. simpl. intros Hfree.
  destruct (Ascii.eqb_spec a c) as [->|Hne]; [tauto|].
  rewrite IH; [done|]. unfold free. tauto.
Qed.

Lemma split_app (c : ascii) (s t : string) :
  free c s -> split c (s +:+ String c t) = s :: split c t.
Proof.
  induction s as [|a s IH]; unfold free; simpl; intros Hfree.
  - change ("" +:+ String c t) with (String c t). simpl. by rewrite Ascii.eqb_refl.
  - destruct (Ascii.eqb_spec a c) as [->|Hne]; [tauto|].
    rewrite IH; [done|]. unfold free. tauto.
Qed.

(** Splitting undoes joining, for parts without the separator. *)
Lemma split_concat (c : ascii) (parts : list string) :
  parts <> [] -> Forall (free c) parts ->
  split c (String.concat (String c EmptyString) parts) = parts.
Proof.
  induction parts as [|p parts IH]; [done|]. intros _ Hfree.
  apply Forall_cons in Hfree as [Hp Hparts].
  destruct parts as [|q parts].
  - simpl. by apply split_free.
  - change (String.concat (String c "") (p :: q :: parts))
      with (p +:+ String c (String.concat (String c "") (q :: parts))).
    rewrite split_app by done. by rewrite IH.
Qed.

Lemma stripSpaces_spaces (n : nat) (s : string) :
  stripSpaces (spaces n +:+ s) = stripSpaces s.
Proof. by induction n as [|n IH]. Qed.

Lemma prefix_app (s t : string) : String.prefix s (s +:+ t) = true.
Proof.
  induction s as [|a s IH]; [by destruct t|].
  simpl. by destruct (ascii_dec a a).
Qed.

Lemma find_middle {A} (f : A -> bool) (l1 l2 : list A) (x : A) :
  Forall (fun y => f y = false) l1 -> f x = true ->
  List.find f (l1 ++ x :: l2) = Some x.
Proof.
  induction 1 as [|y l1 Hy _ IH]; intros Hx; simpl.
  - by rewrite Hx.
  - rewrite Hy. by apply IH.
Qed.

(** X8.  [getAuthCookie] reads the token back from a cookie string: when
    the cookies are joined with [';'], each free of that character, and the
    [admin_token] cookie comes after any number of blanks and before it
    there is no other cookie of that name, the result is the token, whatever
    cookies stand around it; and in production [checkAuth] then holds the
    session for valid exactly when the token is not empty. *)
Theorem getAuthCookie_reads (before after : list string) (pad : nat) (token : string) :
  Forall (free ";") before -> Forall (free ";") after -> free ";" token ->
  Forall (fun p => String.prefix name (stripSpaces p) = false) before ->
  let decodedCookie :=
    String.concat ";" (before ++ (spaces pad +:+ name +:+ token) :: after) in
  getAuthCookie decodedCookie = Some token
  /\ Dashboard.checkAuth false decodedCookie = negb (String.eqb token "").
Proof.
  intros Hbefore Hafter Htoken Hother decodedCookie.
  assert (Hread : getAuthCookie decodedCookie = Some token).
  { unfold decodedCookie, getAuthCookie. rewrite split_concat.
    - rewrite fmap_app, fmap_cons, stripSpaces_spaces.
      change (stripSpaces (name +:+ token)) with (name +:+ token).
      rewrite (find_middle _ _ _ (name +:+ token)).
      + reflexivity.
      + by apply Forall_fmap.
      + apply prefix_app.
    - by destruct before.
    - apply Forall_app. split; [done|]. apply Forall_cons. split; [|done].
      unfold free. intros Hin. apply Htoken. clear -Hin.
      induction pad as [|n IH]; simpl in Hin.
      + repeat (destruct Hin as [Hin|Hin]; [discriminate|]). done.
      + destruct Hin as [Hin|Hin]; [discriminate|]. by apply IH. }
  split; [done|]. unfold Dashboard.checkAuth. by rewrite Hread.
Qed.

Lemma getAuthCookie_reads_witness :
  let decodedCookie :=
    String.concat ";" (["theme=dark"] ++ (spaces 1 +:+ name +:+ "tok") :: [" lang=en"]) in
  getAuthCookie decodedCookie = Some "tok"
  /\ Dashboard.checkAuth false decodedCookie = negb (String.eqb "tok" "").
Proof.
  apply (getAuthCookie_reads ["theme=dark"] [" lang=en"] 1 "tok").
  - repeat constructor. unfold free. simpl. intuition discriminate.
  - repeat constructor. unfold free. simpl. intuition discriminate.
  - unfold free. simpl. intuition discriminate.
  - repeat constructor.
Defined.

End CookieFacts.

Lemma checkSystemStatus_indicators_witness :
  let response : Http.response Z :=
    {| Http.status := 503; Http.statusText := "Service Unavailable";
       Http.json := Js.throw "Unexpected token"; Http.text := Js.ret "" |} in
  let doc : gmap string string :=
    {[ "apiStatus" := "status-indicator"; "dbStatus" := "status-indicator" ]} in
  let doc' := (Dashboard.checkSystemStatus (Js.ret response) doc).1 in
  let healthy :=
    exists r d,
      Js.ret response = inr r /\ Http.ok r = true /\ Http.json r = inr (d : Z) in
  let limited := exists r, Js.ret response = inr r /\ Http.status r = 429%Z in
  doc' !! "dbStatus" = Some "status-indicator online"
  /\ (healthy -> doc' !! "apiStatus" = Some "status-indicator online")
  /\ (limited -> doc' !! "apiStatus" = Some "status-indicator warning")
  /\ (~ healthy -> ~ limited -> doc' !! "apiStatus" = Some "status-indicator offline")
  /\ (Dashboard.checkSystemStatus (Js.ret response) doc).2 = true.
Proof.
  intros response doc.
  apply (checkSystemStatus_indicators (Js.ret response) doc).
  - by eexists.
  - by eexists.
Defined.

Lemma cachedFetch_serves_cache_witness :
  let truthy (n : Z) := negb (n =? 0)%Z in
  let response : Http.response Z :=
    {| Http.status := 200; Http.statusText := "OK"; Http.json := Js.ret 42%Z;
       Http.text := Js.ret "42" |} in
  let first := Dashboard.cachedFetch truthy 1000 1200 (Js.ret response) "teams" ∅ in
  first.1.1 = Dashboard.OkData 42%Z
  /\ first.2 = true
  /\ forall now' later' fetched', (now' - 1200 < Dashboard.cacheExpiry)%Z ->
       Dashboard.cachedFetch truthy now' later' fetched' "teams" first.1.2
       = (Dashboard.OkData 42%Z, first.1.2, false).
Proof.
  intros truthy response.
  apply (cachedFetch_serves_cache truthy 1000 1200 (Js.ret response) response 42%Z
           "teams" ∅).
  - reflexivity.
  - reflexivity.
  - reflexivity.
  - reflexivity.
  - intros d Hd. discriminate Hd.
Defined.

Lemma cachedFetch_failure_not_cached_witness :
  let truthy (n : Z) := negb (n =? 0)%Z in
  let result := Dashboard.cachedFetch truthy 1000 1200 (Js.throw "Failed to fetch") "teams" ∅ in
  result.1.2 = ∅
  /\ (forall d, result.1.1 = Dashboard.OkData d
        -> Dashboard.getCachedData 1000 "teams" (∅ : gmap string (Dashboard.cacheEntry Z))
           = Some d)
  /\ (Dashboard.getCachedData 1000 "teams" (∅ : gmap string (Dashboard.cacheEntry Z)) = None
      -> result.2 = true).
Proof.
  intros truthy.
  apply (cachedFetch_failure_not_cached truthy 1000 1200 (Js.throw "Failed to fetch")
           "teams" ∅).
  intros response Hresponse. discriminate Hresponse.
Defined.

(** ** Activity.js: the login page *)

Section LoginSession.

Import TeamSheldonAdmin.

(** [handleLoginSuccess] leaves the two keys in step: both hold the token of
    the response, or neither is there when the response has none. *)
Lemma handleLoginSuccess_tokens (sessionToken : string) (d : UserData) (st : state) :
  let ls := localStorage (handleLoginSuccess sessionToken d st) in
  if Js.truthy (responseToken d)
  then ls !! "adminToken" = responseToken d /\ ls !! "authToken" = responseToken d
  else ls !! "adminToken" = None /\ ls !! "authToken" = None.
Proof.
  unfold handleLoginSuccess.
  destruct (responseToken d) as [t|] eqn:Htok; simpl.
  - destruct (negb (String.eqb t "")); simpl.
    + by map_lookup.
    + by map_lookup.
  - by map_lookup.
Qed.

(** So does the login page's [logout] ... *)
Lemma logout_tokens (st : state) :
  localStorage (logout st) !! "adminToken" = None
  /\ localStorage (logout st) !! "authToken" = None.
Proof.
  unfold logout. simpl.
  by map_lookup.
Qed.

(** ... and so do the dashboard's [performLogout] and
    [handleMissingApiKey]. *)
Lemma dashboard_logout_tokens (ls : gmap string string) :
  Dashboard.performLogout ls !! "adminToken" = None
  /\ Dashboard.performLogout ls !! "authToken" = None
  /\ Dashboard.handleMissingApiKey ls !! "adminToken" = None
  /\ Dashboard.handleMissingApiKey ls !! "authToken" = None.
Proof.
  unfold Dashboard.performLogout, Dashboard.handleMissingApiKey.
  by map_lookup.
Qed.

(** The activity page's [performLogout] removes ['authToken'] and keeps
    ['adminToken']. *)
Lemma activity_logout_tokens (ls : gmap string string) :
  ActivityLogsManager.performLogout ls !! "authToken" = None
  /\ ActivityLogsManager.performLogout ls !! "adminToken" = ls !! "adminToken".
Proof.
  unfold ActivityLogsManager.performLogout.
  by map_lookup.
Qed.

(** C4, at the input where the code leaves the two keys out of step.  A
    login whose response carries the token ["tok"] stores it under both
    keys; the logout of the activity page then removes ['authToken'] only,
    so that ['adminToken'] alone still holds the token. *)
Theorem activity_logout_keeps_adminToken :
  let response :=
    {| token := Some "tok"; access_token := None; authToken := None;
       user := None; userData := None; name := Some "Ada"; username := None;
       email := Some "ada@example.org"; role := None |} in
  let loggedIn := handleLoginSuccess "session_0_x" response (new 0 ∅ None None) in
  let loggedOut := ActivityLogsManager.performLogout (localStorage loggedIn) in
  localStorage loggedIn !! "adminToken" = Some "tok"
  /\ localStorage loggedIn !! "authToken" = Some "tok"
  /\ loggedOut !! "adminToken" = Some "tok"
  /\ loggedOut !! "authToken" = None.
Proof. vm_compute. done. Qed.

End LoginSession.

Section LoginLockout.

Import TeamSheldonAdmin.

(** Each failure adds one to the counter. *)
Lemma handleLoginFailure_counts (now : Z) (st : state) :
  loginAttempts (handleLoginFailure now st) = (loginAttempts st + 1)%Z.
Proof.
  unfold handleLoginFailure.
  by destruct (MAX_LOGIN_ATTEMPTS - loginAttempts (incrementLoginAttempts now st) <=? 0)%Z.
Qed.

(** The failure that reaches the limit is recorded with its time. *)
Lemma handleLoginFailure_records (now : Z) (st : state) :
  (MAX_LOGIN_ATTEMPTS <= loginAttempts st + 1)%Z ->
  admin_login_attempts (handleLoginFailure now st)
  = Some {| count := MAX_LOGIN_ATTEMPTS; timestamp := now |}.
Proof.
  intros Hmax. unfold handleLoginFailure.
  destruct (MAX_LOGIN_ATTEMPTS - loginAttempts (incrementLoginAttempts now st) <=? 0)%Z
    eqn:Hleft; [done|].
  apply Z.leb_gt in Hleft. simpl in Hleft. lia.
Qed.

(** Five failures in a row lock the object, whatever the counter was. *)
Lemma five_failures_lock (t1 t2 t3 t4 t5 : Z) (st : state) :
  (0 <= loginAttempts st)%Z ->
  isLocked (handleLoginFailure t5 (handleLoginFailure t4 (handleLoginFailure t3
             (handleLoginFailure t2 (handleLoginFailure t1 st))))) = true.
Proof.
  intros Hpos. unfold isLocked. rewrite !handleLoginFailure_counts.
  apply Z.leb_le. unfold MAX_LOGIN_ATTEMPTS. lia.
Qed.

(** A locked object sends no request, at whatever time. *)
Lemma locked_no_request (now : Z) (isDevelopment : bool) (sessionToken : string)
    (c : Credentials) (authenticated : Js.M (option LoginResponse)) (st : state) :
  isLocked st = true ->
  handleLogin now isDevelopment sessionToken c authenticated st = (st, false).
Proof.
  intros Hlocked. unfold handleLogin. rewrite Hlocked.
  by rewrite orb_true_r.
Qed.

(** Once the lockout has run out [getLoginAttempts] reports 0, and an object
    constructed then (the page loaded again) is not locked. *)
Lemma getLoginAttempts_expired (now : Z) (a : Attempts) :
  (LOCKOUT_DURATION < now - timestamp a)%Z -> getLoginAttempts now (Some a) = 0%Z.
Proof.
  intros Hlate. unfold getLoginAttempts. simpl.
  by apply Z.ltb_lt in Hlate as ->.
Qed.

Lemma new_after_lockout (now : Z) (ls : gmap string string) (a : Attempts)
    (cookie : option string) :
  (LOCKOUT_DURATION < now - timestamp a)%Z ->
  isLocked (new now ls (Some a) cookie) = false.
Proof.
  intros Hlate. unfold isLocked, new. simpl.
  by rewrite getLoginAttempts_expired.
Qed.

(** Until then an object constructed from a full count is locked from the
    start. *)
Lemma new_within_lockout (now : Z) (ls : gmap string string) (a : Attempts)
    (cookie : option string) :
  (now - timestamp a <= LOCKOUT_DURATION)%Z -> (MAX_LOGIN_ATTEMPTS <= count a)%Z ->
  isLocked (new now ls (Some a) cookie) = true.
Proof.
  intros Hearly Hfull. unfold isLocked, new, getLoginAttempts. simpl.
  apply Z.ltb_ge in Hearly as ->. by apply Z.leb_le.
Qed.

(** A successful login puts the counter back to 0 and drops the record. *)
Lemma handleLoginSuccess_resets (sessionToken : string) (d : UserData) (st : state) :
  loginAttempts (handleLoginSuccess sessionToken d st) = 0%Z
  /\ admin_login_attempts (handleLoginSuccess sessionToken d st) = None.
Proof.
  unfold handleLoginSuccess.
  destruct (responseToken d) as [t|]; simpl; [|done].
  by destruct (negb (String.eqb t "")).
Qed.

(** C10, at the input where the code falls short of it.  Five logins that
    the server turns down lock the object.  Sixteen minutes after the last of
    them [getLoginAttempts] reports 0, and an object constructed then is not
    locked; but the object that counted the failures never reads the record
    again, so its [handleLogin] still returns without a request. *)
Theorem lockout_outlives_duration :
  let c := {| cred_username := Some "admin"; cred_password := Some "correct horse";
              cred_agreeToS := true; cred_turnstileToken := Some "turnstile" |} in
  let none := {| token := None; access_token := None; authToken := None;
                 user := None; userData := None; name := None; username := None;
                 email := None; role := None |} in
  let refused : Js.M (option LoginResponse) :=
    Js.ret (Some {| success := Some false; message := Some "Invalid credentials";
                    data := None; fields := none |}) in
  let attempt now st := handleLogin now false "session_0_x" c refused st in
  let st1 := (attempt 1000%Z (new 0 ∅ None None)).1 in
  let st2 := (attempt 2000%Z st1).1 in
  let st3 := (attempt 3000%Z st2).1 in
  let st4 := (attempt 4000%Z st3).1 in
  let st5 := (attempt 5000%Z st4).1 in
  let later := (5000 + LOCKOUT_DURATION + 60000)%Z in
  (attempt 5000%Z st4).2 = true
  /\ isLocked st5 = true
  /\ getLoginAttempts later (admin_login_attempts st5) = 0%Z
  /\ isLocked (new later (localStorage st5) (admin_login_attempts st5)
                   (admin_token st5)) = false
  /\ attempt later st5 = (st5, false).
Proof. vm_compute. done. Qed.

End LoginLockout.

Section LoginRequest.

Import TeamSheldonAdmin.

(** [authenticateUser] returns a value only for an ok response whose body
    is JSON; for everything else it throws. *)
Lemma authenticateUser_returns (fetched : Js.M (Http.response (option LoginResponse)))
    (retryAfterOf : string -> Js.M (option Z)) (r : option LoginResponse) :
  (authenticateUser fetched retryAfterOf).1 = inr r ->
  exists response,
    fetched = inr response /\ Http.ok response = true /\ Http.json response = inr r.
Proof.
  assert (Hcatch : forall (body : Js.M (option LoginResponse)),
    Js.try_catch body
      (fun message =>
         if Js.includes message "429" || Js.includes message "Rate limit"
            || Js.includes message "Too many requests"
         then Js.throw message
         else Js.throw ("Authentication failed: " +:+ message)) = inr r ->
    body = inr r).
  { intros [e|a]; simpl; [|done]. by destruct (_ || _). }
  unfold authenticateUser. cbn [fst]. intros Hr%Hcatch.
  destruct fetched as [e|response]; [done|].
  destruct (Http.ok response) eqn:Hok; simpl in Hr.
  - by exists response.
  - destruct (Http.text response) as [e|errorText]; [done|].
    destruct (Http.status response =? 429)%Z; [|done].
    by destruct (retryAfterOf errorText).
Qed.

(** X9.  A login attempt whose request does not end in an ok response with
    a JSON body (the fetch rejects, the status is outside 200-299, a 401 for
    a wrong password included, or the body cannot be read) goes to
    [handleLoginError]: it changes neither the attempt counter nor its
    stored record, nor the storage, nor the session.  Such attempts never
    count towards the lockout. *)
Theorem failed_request_keeps_attempts (now : Z) (isDevelopment : bool)
    (sessionToken : string) (c : Credentials)
    (fetched : Js.M (Http.response (option LoginResponse)))
    (retryAfterOf : string -> Js.M (option Z)) (st : state) :
  (forall response, fetched = inr response -> Http.ok response = true ->
     exists e, Http.json response = inl e) ->
  let st' := (handleLogin now isDevelopment sessionToken c
                (authenticateUser fetched retryAfterOf).1 st).1 in
  loginAttempts st' = loginAttempts st
  /\ admin_login_attempts st' = admin_login_attempts st
  /\ localStorage st' = localStorage st
  /\ isAuthenticated st' = isAuthenticated st
  /\ admin_token st' = admin_token st.
Proof.
  intros Hfail st'. unfold st', handleLogin.
  destruct (isLoggingIn st || isLocked st); [done|].
  destruct (negb (validateCredentials isDevelopment c)); [done|].
  destruct (authenticateUser fetched retryAfterOf).1 as [e|r] eqn:Hauth; [done|].
  apply authenticateUser_returns in Hauth as (response & Hfetched & Hok & Hjson).
  destruct (Hfail response Hfetched Hok) as [e He]. congruence.
Qed.

Lemma failed_request_keeps_attempts_witness :
  let c := {| cred_username := Some "admin"; cred_password := Some "wrong password";
              cred_agreeToS := true; cred_turnstileToken := Some "turnstile" |} in
  let unauthorized : Http.response (option LoginResponse) :=
    {| Http.status := 401; Http.statusText := "Unauthorized";
       Http.json := Js.throw "Unexpected token"; Http.text := Js.ret "Unauthorized" |} in
  let st := new 0 ∅ None None in
  let st' := (handleLogin 1000 false "session_0_x" c
                (authenticateUser (Js.ret unauthorized) (fun _ => Js.ret None)).1 st).1 in
  loginAttempts st' = loginAttempts st
  /\ admin_login_attempts st' = admin_login_attempts st
  /\ localStorage st' = localStorage st
  /\ isAuthenticated st' = isAuthenticated st
  /\ admin_token st' = admin_token st.
Proof.
  intros c unauthorized st.
  apply (failed_request_keeps_attempts 1000 false "session_0_x" c (Js.ret unauthorized)
           (fun _ => Js.ret None) st).
  intros response [= <-] Hok. discriminate Hok.
Defined.

Lemma handleLoginFailure_session (now : Z) (st : state) :
  isAuthenticated (handleLoginFailure now st) = isAuthenticated st
  /\ localStorage (handleLoginFailure now st) = localStorage st
  /\ admin_token (handleLoginFailure now st) = admin_token st.
Proof.
  unfold handleLoginFailure.
  by destruct (MAX_LOGIN_ATTEMPTS - loginAttempts (incrementLoginAttempts now st) <=? 0)%Z.
Qed.

(** The record a failed attempt leaves under ['admin_login_attempts']: the
    new count and the time, also when the attempt is the one that locks. *)
Lemma handleLoginFailure_record (now : Z) (st : state) :
  isLocked st = false ->
  admin_login_attempts (handleLoginFailure now st)
  = Some {| count := loginAttempts st + 1; timestamp := now |}.
Proof.
  unfold isLocked, handleLoginFailure, lockAccount, incrementLoginAttempts,
    MAX_LOGIN_ATTEMPTS.
  intros Hunlocked%Z.leb_gt.
  cbn [set_attempts loginAttempts admin_login_attempts].
  destruct (Z.leb_spec (5 - (loginAttempts st + 1)) 0) as [Hlast|Hleft]; [|done].
  cbn [set_attempts admin_login_attempts]. do 2 f_equal. lia.
Qed.

Lemma handleLoginSuccess_session (sessionToken : string) (d : UserData) (st : state) :
  isAuthenticated (handleLoginSuccess sessionToken d st) = true
  /\ localStorage (handleLoginSuccess sessionToken d st) !! "admin_session_active"
     = Some "true".
Proof.
  unfold handleLoginSuccess.
  destruct (responseToken d) as [t|]; simpl.
  - destruct (negb (String.eqb t "")); simpl; by map_lookup.
  - by map_lookup.
Qed.

(** X28.  A login attempt that is sent and answered with an ok response and
    a JSON body.  It counts as a failed attempt exactly when the body is
    [null] or has neither [success === true] nor a token nor a user: the
    counter goes up by one, the record under ['admin_login_attempts'] is
    rewritten with the new count and the time, and the session, the cookie
    and the other keys of the storage are left alone.  Every other body, one
    with [success: false] and a token included, is a successful login: the
    counter goes back to 0, its record is dropped, and the session is marked
    as authenticated and active. *)
Theorem answered_login_counts (now : Z) (isDevelopment : bool) (sessionToken : string)
    (c : Credentials) (fetched : Js.M (Http.response (option LoginResponse)))
    (retryAfterOf : string -> Js.M (option Z))
    (response : Http.response (option LoginResponse)) (body : option LoginResponse)
    (st : state) :
  isLoggingIn st = false -> isLocked st = false ->
  validateCredentials isDevelopment c = true ->
  fetched = inr response -> Http.ok response = true -> Http.json response = inr body ->
  let st' := (handleLogin now isDevelopment sessionToken c
                (authenticateUser fetched retryAfterOf).1 st).1 in
  let refused :=
    match body with
    | None => True
    | Some r =>
        success r <> Some true /\ Js.truthy (token (fields r)) = false
        /\ user (fields r) = None
    end in
  (refused ->
     loginAttempts st' = (loginAttempts st + 1)%Z
     /\ admin_login_attempts st'
        = Some {| count := loginAttempts st + 1; timestamp := now |}
     /\ isAuthenticated st' = isAuthenticated st
     /\ admin_token st' = admin_token st
     /\ localStorage st' = localStorage st)
  /\ (~ refused ->
     loginAttempts st' = 0%Z
     /\ admin_login_attempts st' = None
     /\ isAuthenticated st' = true
     /\ localStorage st' !! "admin_session_active" = Some "true").
Proof.
  intros Hidle Hunlocked Hvalid -> Hok Hjson st' refused.
  assert (Hst' : st' = set_isLoggingIn false
                         (dispatchResponse now sessionToken body (set_isLoggingIn true st))).
  { unfold st', handleLogin, authenticateUser.
    rewrite Hidle, Hunlocked, Hvalid, Hok, Hjson. done. }
  rewrite Hst'. clear st' Hst'. set (st1 := set_isLoggingIn true st).
  assert (Hfailure :
    loginAttempts (set_isLoggingIn false (handleLoginFailure now st1))
    = (loginAttempts st + 1)%Z
    /\ admin_login_attempts (set_isLoggingIn false (handleLoginFailure now st1))
       = Some {| count := loginAttempts st + 1; timestamp := now |}
    /\ isAuthenticated (set_isLoggingIn false (handleLoginFailure now st1))
       = isAuthenticated st
    /\ admin_token (set_isLoggingIn false (handleLoginFailure now st1))
       = admin_token st
    /\ localStorage (set_isLoggingIn false (handleLoginFailure now st1))
       = localStorage st).
  { cbn [set_isLoggingIn loginAttempts admin_login_attempts isAuthenticated
         admin_token localStorage].
    rewrite handleLoginFailure_counts, (handleLoginFailure_record now st1 Hunlocked).
    by destruct (handleLoginFailure_session now st1) as (-> & -> & ->). }
  assert (Hsuccess : forall d,
    loginAttempts (set_isLoggingIn false (handleLoginSuccess sessionToken d st1)) = 0%Z
    /\ admin_login_attempts (set_isLoggingIn false (handleLoginSuccess sessionToken d st1))
       = None
    /\ isAuthenticated (set_isLoggingIn false (handleLoginSuccess sessionToken d st1))
       = true
    /\ localStorage (set_isLoggingIn false (handleLoginSuccess sessionToken d st1))
       !! "admin_session_active" = Some "true").
  { intros d.
    cbn [set_isLoggingIn loginAttempts admin_login_attempts isAuthenticated localStorage].
    destruct (handleLoginSuccess_resets sessionToken d st1) as [-> ->].
    by destruct (handleLoginSuccess_session sessionToken d st1) as [-> ->]. }
  unfold refused, dispatchResponse.
  destruct body as [r|].
  2: { split; [by intros _|]. intros Hnot. by destruct Hnot. }
  destruct (bool_decide (success r = Some true) || Js.truthy (token (fields r))
            || bool_decide (is_Some (user (fields r)))) eqn:Haccepted.
  - split.
    + intros (Hsuccessful & Htoken & Huser). exfalso.
      rewrite bool_decide_eq_false_2, Htoken, Huser, bool_decide_eq_false_2
        in Haccepted; [done| |done].
      by intros [? ?].
    + intros _. destruct (success r) as [[|]|], (data r); apply Hsuccess.
  - split; [by intros _|]. intros Hnot. destruct Hnot.
    apply orb_false_elim in Haccepted as [Haccepted Huser].
    apply orb_false_elim in Haccepted as [Hsuccessful Htoken].
    apply bool_decide_eq_false in Hsuccessful, Huser.
    split; [done|]. split; [done|].
    destruct (user (fields r)); [|done]. destruct Huser. by eexists.
Qed.

Lemma answered_login_counts_witness :
  let c := {| cred_username := Some "admin"; cred_password := Some "wrong password";
              cred_agreeToS := true; cred_turnstileToken := Some "turnstile" |} in
  let none := {| token := None; access_token := None; authToken := None;
                 user := None; userData := None; name := None; username := None;
                 email := None; role := None |} in
  let body := Some {| success := Some false; message := Some "Invalid credentials";
                      data := None; fields := none |} in
  let response : Http.response (option LoginResponse) :=
    {| Http.status := 200; Http.statusText := "OK"; Http.json := Js.ret body;
       Http.text := Js.ret "" |} in
  let st := new 0 ∅ None None in
  let st' := (handleLogin 1000 false "session_0_x" c
                (authenticateUser (Js.ret response) (fun _ => Js.ret None)).1 st).1 in
  let refused :=
    match body with
    | None => True
    | Some r =>
        success r <> Some true /\ Js.truthy (token (fields r)) = false
        /\ user (fields r) = None
    end in
  (refused ->
     loginAttempts st' = (loginAttempts st + 1)%Z
     /\ admin_login_attempts st'
        = Some {| count := loginAttempts st + 1; timestamp := 1000 |}
     /\ isAuthenticated st' = isAuthenticated st
     /\ admin_token st' = admin_token st
     /\ localStorage st' = localStorage st)
  /\ (~ refused ->
     loginAttempts st' = 0%Z
     /\ admin_login_attempts st' = None
     /\ isAuthenticated st' = true
     /\ localStorage st' !! "admin_session_active" = Some "true").
Proof.
  intros c none body response st.
  apply (answered_login_counts 1000 false "session_0_x" c (Js.ret response)
           (fun _ => Js.ret None) response body st); reflexivity.
Defined.

Lemma short_username (u : string) :
  String.eqb u "" = true -> (3 <=? String.length u)%nat = false.
Proof. by intros ->%String.eqb_eq. Qed.

Lemma short_password (p : string) :
  String.eqb p "" = true -> (8 <=? String.length p)%nat = false.
Proof. by intros ->%String.eqb_eq. Qed.

(** X10.  [validateCredentials] accepts exactly when the user name has at
    least 3 characters, the password at least 8, the terms are agreed to and
    there is a Turnstile token.  Whether the page is served from localhost
    makes no difference: the development credentials, which would stand in
    for the token, have a password of 6 characters and fail the length
    check. *)
Theorem validateCredentials_needs_turnstile (isDevelopment : bool) (c : Credentials) :
  validateCredentials isDevelopment c
  = (3 <=? String.length (default "" (cred_username c)))%nat
    && (8 <=? String.length (default "" (cred_password c)))%nat
    && cred_agreeToS c
    && Js.truthy (cred_turnstileToken c).
Proof.
  unfold validateCredentials.
  rewrite !Nat.ltb_antisym.
  destruct (cred_username c) as [u|], (cred_password c) as [p|];
    cbn [default from_option id Js.truthy].
  - destruct (bool_decide (Some p = Some "dev123")) eqn:Hdev.
    + apply bool_decide_eq_true in Hdev as [= ->].
      change (8 <=? String.length "dev123")%nat with false.
      change (String.eqb "dev123" "") with false.
      by destruct (String.eqb u ""), (3 <=? String.length u)%nat,
                  (cred_agreeToS c), (Js.truthy (cred_turnstileToken c)).
    + rewrite andb_false_r.
      pose proof (short_username u) as Hu. pose proof (short_password p) as Hp.
      destruct (String.eqb u ""), (String.eqb p "");
        rewrite ?Hu, ?Hp by done;
        by destruct (3 <=? String.length u)%nat, (8 <=? String.length p)%nat,
                    (cred_agreeToS c), (Js.truthy (cred_turnstileToken c)).
  - change (8 <=? String.length "")%nat with false.
    by destruct (String.eqb u ""), (3 <=? String.length u)%nat.
  - done.
  - done.
Qed.

(** X11.  [validateForm] enables the login button exactly when
    [validateCredentials] accepts the credentials that [handleLogin] reads
    from the same form. *)
Theorem validateForm_agrees `{Host} (isDevelopment : bool) (f : form)
    (turnstileToken : option string) :
  validateForm isDevelopment f turnstileToken
  = negb (validateCredentials isDevelopment (credentials f turnstileToken)).
Proof.
  unfold validateForm, validateCredentials, credentials.
  cbn [cred_username cred_password cred_agreeToS cred_turnstileToken
       default from_option id Js.truthy].
  set (u := trim (form_username f)). set (p := form_password f).
  rewrite !Nat.ltb_antisym.
  assert (Hu : bool_decide (Some u = Some "dev") = String.eqb u "dev").
  { destruct (String.eqb_spec u "dev") as [->|Hne].
    - by apply bool_decide_eq_true_2.
    - apply bool_decide_eq_false_2. congruence. }
  assert (Hp : bool_decide (Some p = Some "dev123") = String.eqb p "dev123").
  { destruct (String.eqb_spec p "dev123") as [->|Hne].
    - by apply bool_decide_eq_true_2.
    - apply bool_decide_eq_false_2. congruence. }
  rewrite Hu, Hp.
  clearbody u p. clear Hu Hp.
  pose proof (short_username u) as Hu. pose proof (short_password p) as Hp.
  destruct (String.eqb u ""), (String.eqb p "");
    rewrite ?Hu, ?Hp by done;
    by destruct (3 <=? String.length u)%nat, (8 <=? String.length p)%nat,
                (form_agreeToS f), (Js.truthy turnstileToken), isDevelopment,
                (String.eqb u "dev"), (String.eqb p "dev123").
Qed.

(** X12.  [startRateLimitTimer(seconds)], for one second or more: while
    fewer than [seconds] seconds have passed the login button is disabled
    and shows the time that is left, and the form takes no input; from the
    tick of the last second on the button is enabled and reads "Sign In",
    the form takes input again and the interval is cleared.  Elements that
    the page lacks stay absent. *)
Theorem rate_limit_countdown (seconds : Z) (btn : option button) (frm : option bool)
    (k : nat) :
  (1 <= seconds)%Z ->
  let t := Nat.iter k tick (startRateLimitTimer seconds btn frm) in
  ((Z.of_nat k < seconds)%Z ->
     loginButton t
     = (fun _ => {| button_disabled := true;
                    button_label := WaitLabel (timeDisplay (seconds - Z.of_nat k)) |})
       <$> btn
     /\ loginForm t = (fun _ => false) <$> frm
     /\ rateLimitTimer t = true)
  /\ ((seconds <= Z.of_nat k)%Z ->
     loginButton t
     = (fun _ => {| button_disabled := false; button_label := SignInLabel |}) <$> btn
     /\ loginForm t = (fun _ => true) <$> frm
     /\ rateLimitTimer t = false).
Proof.
  intros Hseconds.
  assert (Hrunning : forall j, (Z.of_nat j < seconds)%Z ->
    Nat.iter j tick (startRateLimitTimer seconds btn frm)
    = {| remainingSeconds := seconds - Z.of_nat j - 1;
         loginButton :=
           (fun _ => {| button_disabled := true;
                        button_label := WaitLabel (timeDisplay (seconds - Z.of_nat j)) |})
           <$> btn;
         loginForm := (fun _ => false) <$> frm;
         rateLimitTimer := true |}).
  { induction j as [|j IH]; intros Hj.
    - simpl. unfold startRateLimitTimer, updateTimer. simpl.
      destruct (Z.ltb_spec (seconds - 1) 0); [lia|]. simpl.
      rewrite Z.sub_0_r. by destruct btn.
    - rewrite Nat.iter_succ, IH by lia. unfold tick, updateTimer. simpl.
      destruct (Z.ltb_spec (seconds - Z.of_nat j - 1 - 1) 0); [lia|]. simpl.
      replace (seconds - Z.of_nat j - 1)%Z with (seconds - Z.of_nat (S j))%Z by lia.
      by destruct btn. }
  assert (Hdone : forall j,
    Nat.iter (Z.to_nat seconds + j) tick (startRateLimitTimer seconds btn frm)
    = {| remainingSeconds := -1;
         loginButton :=
           (fun _ => {| button_disabled := false; button_label := SignInLabel |}) <$> btn;
         loginForm := (fun _ => true) <$> frm;
         rateLimitTimer := false |}).
  { induction j as [|j IH].
    - rewrite Nat.add_0_r.
      destruct (Z.to_nat seconds) as [|i] eqn:Hi; [lia|].
      rewrite Nat.iter_succ, Hrunning by lia. unfold tick, updateTimer. simpl.
      destruct (Z.ltb_spec (seconds - Z.of_nat i - 1 - 1) 0); [|lia]. simpl.
      f_equal; [lia| |]; [by destruct btn|by destruct frm].
    - by rewrite Nat.add_succ_r, Nat.iter_succ, IH. }
  intros t. split.
  - intros Hk. unfold t. by rewrite Hrunning.
  - intros Hk. unfold t.
    replace k with (Z.to_nat seconds + (k - Z.to_nat seconds)) by lia.
    by rewrite Hdone.
Qed.

Lemma rate_limit_countdown_witness :
  let btn := Some {| button_disabled := false; button_label := InitialLabel |} in
  let t := Nat.iter 60 tick (startRateLimitTimer 60 btn (Some true)) in
  ((Z.of_nat 60 < 60)%Z ->
     loginButton t
     = (fun _ => {| button_disabled := true;
                    button_label := WaitLabel (timeDisplay (60 - Z.of_nat 60)) |})
       <$> btn
     /\ loginForm t = (fun _ => false) <$> Some true
     /\ rateLimitTimer t = true)
  /\ ((60 <= Z.of_nat 60)%Z ->
     loginButton t
     = (fun _ => {| button_disabled := false; button_label := SignInLabel |}) <$> btn
     /\ loginForm t = (fun _ => true) <$> Some true
     /\ rateLimitTimer t = false).
Proof.
  intros btn.
  apply (rate_limit_countdown 60 btn (Some true) 60). lia.
Defined.

End LoginRequest.

(** ** The user profile: first-non-empty selection *)

Section UserProfile.

Lemma first_non_empty_or_else (a b : option string) (l : list (option string)) (d : string) :
  Js.first_non_empty (Js.or_else a b :: l) d = Js.first_non_empty (a :: b :: l) d.
Proof. unfold Js.or_else. simpl. by destruct (Js.truthy a) eqn:Ha; rewrite ?Ha. Qed.

Lemma first_non_empty_default (l : list (option string)) (d : string) :
  Js.first_non_empty (l ++ [Some d]) d = Js.first_non_empty l d.
Proof.
  induction l as [|o l IH]; simpl.
  - by destruct (negb (String.eqb d "")).
  - by rewrite IH.
Qed.

Lemma or_default_first_non_empty (a : option string) (d : string) :
  Js.or_default a d = Js.first_non_empty [a] d.
Proof.
  unfold Js.or_default, Js.or_else. simpl.
  destruct (Js.truthy a) eqn:Ha; [|done].
  destruct a; [done|discriminate].
Qed.

Lemma truthy_first_non_empty (a : option string) :
  Js.truthy a = negb (String.eqb (Js.first_non_empty [a] "") "").
Proof.
  simpl. destruct (Js.truthy a) eqn:Ha; [|done].
  destruct a as [s|]; [|discriminate]. done.
Qed.

Lemma includes_at_cons (a : ascii) (s : string) :
  Js.includes (String a s) "@" = Ascii.eqb a "@" || Js.includes s "@".
Proof.
  change (Js.includes (String a s) "@")
    with ((if ascii_dec "@" a then String.prefix "" s else false) || Js.includes s "@").
  f_equal. destruct (ascii_dec "@" a) as [<-|Hne].
  - by destruct s.
  - symmetry. apply Ascii.eqb_neq. congruence.
Qed.

(** What comes before the first ['@'] has no ['@'], and a string without
    one is all before it. *)
Lemma includes_before_first (s : string) :
  Js.includes (Js.before_first "@" s) "@" = false.
Proof.
  induction s as [|a s IH]; [done|].
  cbn [Js.before_first].
  destruct (Ascii.eqb a "@") eqn:Ha; [done|].
  by rewrite includes_at_cons, Ha, IH.
Qed.

Lemma before_first_without (s : string) :
  Js.includes s "@" = false -> Js.before_first "@" s = s.
Proof.
  induction s as [|a s IH]; [done|].
  rewrite includes_at_cons. intros [Hhead Htail]%orb_false_elim.
  cbn [Js.before_first]. by rewrite Hhead, IH.
Qed.

(** With ["ada@example.org"] stored under ['username'], the name shown is
    ["ada"], which is not the first non-empty value of the chain. *)
Lemma username_not_first_non_empty :
  let ls : gmap string string := {[ "username" := "ada@example.org" ]} in
  UserInfoFix.processedUserInfo ls = ("ada", "Administrator", "ada@example.org")
  /\ (UserInfoFix.processedUserInfo ls).1.1
     <> Js.first_non_empty
          [ls !! "username"; ls !! "userEmail"; ls !! "user"; ls !! "adminUsername"]
          "Admin User".
Proof. vm_compute. split; [done|discriminate]. Qed.

(** C5, as the code has it.  [updateUserDisplay] shows the first non-empty
    of [username], [name] and ['Admin User'], of [role], [userRole] and
    ['Administrator'], of [email], [userEmail] and
    ['admin@teamsheldon.tech']; [fetchFreshUserInfo] does the same with the
    stored ['username'], ['userRole'] and ['userEmail'] before the default.
    [loadUserInfoWithFallbacks] shows the first non-empty role of
    ['userRole'], ['role'], ['adminRole'] and the default, but for the name
    it takes the first non-empty of ['username'], ['userEmail'], ['user'],
    ['adminUsername'] and cuts it at its first ['@'] (the default when
    nothing is left), and for the email the first non-empty of
    ['userEmail'], ['email'], ['username'], then that uncut name when it has
    an ['@'], then the default. *)
Theorem user_profile_selection (u : Document.UserInfo) (ls : gmap string string) :
  Document.displayedUser u
  = (Js.first_non_empty [Document.username u; Document.name u] "Admin User",
     Js.first_non_empty [Document.role u; Document.userRole u] "Administrator",
     Js.first_non_empty [Document.email u; Document.userEmail u]
       "admin@teamsheldon.tech")
  /\ UserInfoFix.freshUserInfo u ls
  = (Js.first_non_empty [Document.username u; Document.name u; ls !! "username"]
       "Admin User",
     Js.first_non_empty [Document.role u; Document.userRole u; ls !! "userRole"]
       "Administrator",
     Js.first_non_empty [Document.email u; Document.userEmail u; ls !! "userEmail"]
       "admin@teamsheldon.tech")
  /\ let login :=
       Js.first_non_empty
         [ls !! "username"; ls !! "userEmail"; ls !! "user"; ls !! "adminUsername"] "" in
     UserInfoFix.processedUserInfo ls
     = (Js.first_non_empty [Some (Js.before_first "@" login)] "Admin User",
        Js.first_non_empty [ls !! "userRole"; ls !! "role"; ls !! "adminRole"]
          "Administrator",
        Js.first_non_empty
          [ls !! "userEmail"; ls !! "email"; ls !! "username";
           if Js.includes login "@" then Some login else None]
          "admin@teamsheldon.tech").
Proof.
  split; [|split].
  - unfold Document.displayedUser.
    by rewrite !or_default_first_non_empty, !first_non_empty_or_else.
  - unfold UserInfoFix.freshUserInfo.
    by rewrite !or_default_first_non_empty, !first_non_empty_or_else.
  - intros login. unfold UserInfoFix.processedUserInfo.
    set (U := Js.or_else (Js.or_else (Js.or_else (ls !! "username") (ls !! "userEmail"))
                                     (ls !! "user")) (ls !! "adminUsername")).
    set (E := Js.or_else (Js.or_else (ls !! "userEmail") (ls !! "email"))
                         (ls !! "username")).
    set (R := Js.or_else (Js.or_else (Js.or_else (ls !! "userRole") (ls !! "role"))
                                     (ls !! "adminRole")) (Some "Administrator")).
    assert (HU : login = Js.first_non_empty [U] "").
    { unfold U. by rewrite !first_non_empty_or_else. }
    assert (HR : Js.first_non_empty [ls !! "userRole"; ls !! "role"; ls !! "adminRole"]
                   "Administrator"
                 = if Js.truthy R then default "" R else "Administrator").
    { change (if Js.truthy R then default "" R else "Administrator")
        with (Js.first_non_empty [R] "Administrator").
      unfold R. rewrite !first_non_empty_or_else.
      by rewrite <- (first_non_empty_default [_; _; _]). }
    assert (HE : forall x d,
               Js.first_non_empty [ls !! "userEmail"; ls !! "email"; ls !! "username"; x] d
               = if Js.truthy E then default "" E else Js.first_non_empty [x] d).
    { intros x d.
      change (if Js.truthy E then default "" E else Js.first_non_empty [x] d)
        with (Js.first_non_empty [E; x] d).
      unfold E. by rewrite !first_non_empty_or_else. }
    rewrite HR, HE. clearbody U E R login. subst login. clear HR HE.
    destruct (Js.truthy U) eqn:HtU; cbn [andb].
    + destruct (Js.includes (default "" U) "@") eqn:Hat.
      * cbn [Js.first_non_empty Js.truthy default from_option id].
        destruct (Js.truthy E) eqn:HtE; rewrite ?HtE, ?HtU; [done|].
        rewrite Hat. destruct U as [s|]; [|done].
        simpl in HtU |- *. by rewrite HtU.
      * cbn [Js.first_non_empty Js.truthy default from_option id].
        rewrite HtU, (before_first_without _ Hat), Hat.
        destruct U as [s|]; [|done]. simpl in HtU |- *. rewrite HtU.
        by destruct (Js.truthy E).
    + cbn [Js.first_non_empty Js.truthy default from_option id].
      rewrite HtU. simpl. by destruct (Js.truthy E).
Qed.

End UserProfile.

(** ** From the login page to the other pages *)

Section LoginHandOver.

Import TeamSheldonAdmin.

Lemma or_default_nonempty (a : option string) (d : string) :
  d <> "" -> Js.or_default a d <> "".
Proof.
  intros Hd. unfold Js.or_default, Js.or_else.
  destruct (Js.truthy a) eqn:Ha; [|done].
  destruct a as [s|]; [|done]. simpl in Ha.
  by apply negb_true_iff, String.eqb_neq in Ha.
Qed.

Lemma or_else_truthy (a b : option string) : Js.truthy a = true -> Js.or_else a b = a.
Proof. intros Ha. unfold Js.or_else. by rewrite Ha. Qed.

Lemma or_else_None (b : option string) : Js.or_else None b = b.
Proof. done. Qed.

Lemma truthy_Some (s : string) : s <> "" -> Js.truthy (Some s) = true.
Proof. intros Hs. simpl. by apply negb_true_iff, String.eqb_neq. Qed.

(** What [handleLoginSuccess] stores of the user: an email and a role,
    neither empty; the key ['username'] is not written. *)
Lemma handleLoginSuccess_profile (sessionToken : string) (d : UserData) (st : state) :
  let ls := localStorage (handleLoginSuccess sessionToken d st) in
  exists userEmail userRole,
    userEmail <> "" /\ userRole <> ""
    /\ ls !! "userEmail" = Some userEmail
    /\ ls !! "userRole" = Some userRole
    /\ ls !! "username" = localStorage st !! "username".
Proof.
  unfold handleLoginSuccess.
  set (usr := match user d, userData d with
              | Some u, _ => u
              | None, Some u => u
              | None, None => _
              end).
  exists (Js.or_default (Js.or_else (user_email usr) (user_username usr)) "Loading..."),
         (Js.or_default (user_role usr) "Loading...").
  split; [by apply or_default_nonempty|]. split; [by apply or_default_nonempty|].
  destruct (responseToken d) as [t|]; simpl.
  - destruct (negb (String.eqb t "")); simpl; by map_lookup.
  - by map_lookup.
Qed.

(** X13.  A login that finds no ['username'] in the storage, and the
    sidebar after it: [loadUserInfoWithFallbacks] shows the email and the
    role that [handleLoginSuccess] stored, and for the name the stored email
    up to its first ['@'] (['Admin User'] when nothing comes before it).  The
    name the login stores under ['userName'] is not what is shown. *)
Theorem login_profile_in_sidebar (sessionToken : string) (d : UserData) (st : state) :
  localStorage st !! "username" = None ->
  let ls := localStorage (handleLoginSuccess sessionToken d st) in
  exists userEmail userRole,
    ls !! "userEmail" = Some userEmail
    /\ ls !! "userRole" = Some userRole
    /\ UserInfoFix.processedUserInfo ls
       = (Js.or_default (Some (Js.before_first "@" userEmail)) "Admin User",
          userRole, userEmail).
Proof.
  intros Hnone ls.
  destruct (handleLoginSuccess_profile sessionToken d st)
    as (userEmail & userRole & HE & HR & Hemail & Hrole & Hname).
  fold ls in Hemail, Hrole, Hname. rewrite Hnone in Hname.
  exists userEmail, userRole. split; [done|]. split; [done|].
  unfold UserInfoFix.processedUserInfo. rewrite Hemail, Hrole, Hname.
  pose proof (truthy_Some userEmail HE) as HtE.
  pose proof (truthy_Some userRole HR) as HtR.
  rewrite or_else_None, !(or_else_truthy (Some userEmail)),
    !(or_else_truthy (Some userRole)) by done.
  rewrite HtE, HtR. cbn [andb default from_option id].
  destruct (Js.includes userEmail "@") eqn:Hat.
  - rewrite HtE. unfold Js.or_default, Js.or_else.
    by destruct (Js.truthy (Some (Js.before_first "@" userEmail))).
  - rewrite HtE, (before_first_without _ Hat).
    unfold Js.or_default, Js.or_else. by rewrite HtE.
Qed.

Lemma login_profile_in_sidebar_witness :
  let response :=
    {| token := Some "tok"; access_token := None; authToken := None;
       user := Some {| user_name := Some "Ada Lovelace";
                       user_email := Some "ada@example.org";
                       user_role := Some "Mentor"; user_username := None |};
       userData := None; name := None; username := None; email := None;
       role := None |} in
  let ls := localStorage (handleLoginSuccess "session_0_x" response (new 0 ∅ None None)) in
  exists userEmail userRole,
    ls !! "userEmail" = Some userEmail
    /\ ls !! "userRole" = Some userRole
    /\ UserInfoFix.processedUserInfo ls
       = (Js.or_default (Some (Js.before_first "@" userEmail)) "Admin User",
          userRole, userEmail).
Proof.
  intros response.
  apply (login_profile_in_sidebar "session_0_x" response (new 0 ∅ None None)).
  reflexivity.
Defined.

(** X14.  A login and the dashboard after it: the constructor of
    [Dashboard] finds an API key, which is the token of the login response,
    exactly when that response carried a token.  After a login without one
    (for which the login page makes up a session cookie) the constructor
    takes the key for missing, does not initialise the dashboard and removes
    the mark of the session. *)
Theorem login_opens_dashboard (sessionToken : string) (d : UserData) (st : state) :
  let ls := localStorage (handleLoginSuccess sessionToken d st) in
  (Dashboard.new ls).2 = Js.truthy (responseToken d)
  /\ (Js.truthy (responseToken d) = true ->
      Dashboard.API_KEY ls = responseToken d /\ (Dashboard.new ls).1 = ls)
  /\ (Js.truthy (responseToken d) = false ->
      ls !! "admin_session_active" = Some "true"
      /\ (Dashboard.new ls).1 !! "admin_session_active" = None).
Proof.
  intros ls.
  pose proof (handleLoginSuccess_tokens sessionToken d st) as Htokens.
  fold ls in Htokens. cbv zeta in Htokens.
  assert (Hactive : ls !! "admin_session_active" = Some "true").
  { unfold ls, handleLoginSuccess.
    destruct (responseToken d) as [t|]; simpl.
    - destruct (negb (String.eqb t "")); simpl; by map_lookup.
    - by map_lookup. }
  unfold Dashboard.new, Dashboard.API_KEY.
  destruct (Js.truthy (responseToken d)) eqn:Htruthy.
  - destruct Htokens as [-> ->]. unfold Js.or_else. rewrite Htruthy. simpl.
    rewrite Htruthy. by simpl.
  - destruct Htokens as [-> ->]. simpl. split; [done|]. split; [done|].
    intros _. split; [done|].
    unfold Dashboard.handleMissingApiKey. by map_lookup.
Qed.

End LoginHandOver.

(** ** Activity.js: sorting the logs *)

Section SortLogs.

Import ActivityLogsManager.

Lemma StronglySorted_weaken {A} (R R' : A -> A -> Prop) (l : list A) :
  (forall x y, x ∈ l -> y ∈ l -> R x y -> R' x y) ->
  StronglySorted R l -> StronglySorted R' l.
Proof.
  intros Himpl Hsorted. induction Hsorted as [|x l Hsorted IH Hall].
  - constructor.
  - constructor.
    + apply IH. intros a b Ha Hb. apply Himpl; by apply list_elem_of_further.
    + rewrite Forall_forall in Hall |- *. intros y Hy.
      apply Himpl; [apply list_elem_of_here|by apply list_elem_of_further|by apply Hall].
Qed.

(** In a list ordered all the way any two of its entries are in order one
    way or the other. *)
Lemma StronglySorted_related {A} (R : A -> A -> Prop) (l : list A) (x y : A) :
  StronglySorted R l -> x ∈ l -> y ∈ l -> x = y \/ R x y \/ R y x.
Proof.
  intros Hsorted. induction Hsorted as [|z l Hsorted IH Hall]; intros Hx Hy.
  - by apply elem_of_nil in Hx.
  - rewrite Forall_forall in Hall.
    apply elem_of_cons in Hx as [->|Hx]; apply elem_of_cons in Hy as [->|Hy]; auto.
Qed.

Lemma defined_same_kind (f : field) (a b : log) :
  defined f a -> defined f b -> Js.same_kind (fieldValue f a) (fieldValue f b).
Proof. destruct f; simpl; by intros [? ->] [? ->] || done. Qed.

Lemma le_not_gt (a b : Js.value) :
  Js.same_kind a b -> Js.le a b = negb (Js.lt b a).
Proof.
  destruct a as [| |x|x], b as [| |y|y]; try done; intros _; simpl.
  - destruct (Z.leb_spec x y), (Z.ltb_spec y x); done || lia.
  - unfold String.leb, String.ltb. rewrite (String.compare_antisym y x).
    by destruct (String.compare x y).
Qed.

Lemma lt_le (a b : Js.value) : Js.lt a b = true -> Js.le a b = true.
Proof.
  destruct a as [| |x|x], b as [| |y|y]; try done; simpl.
  - intros H%Z.ltb_lt. apply Z.leb_le. lia.
  - unfold String.leb, String.ltb. by destruct (String.compare x y).
Qed.

Lemma le_trans (a b c : Js.value) :
  Js.le a b = true -> Js.le b c = true -> Js.le a c = true.
Proof.
  destruct a as [| |x|x], b as [| |y|y], c as [| |z|z]; try done; simpl.
  - rewrite !Z.leb_le. lia.
  - intros H1%Is_true_true H2%Is_true_true. apply Is_true_true.
    by trans y.
Qed.

Lemma le_total (a b : Js.value) :
  Js.same_kind a b -> Js.le a b = true \/ Js.le b a = true.
Proof.
  destruct a as [| |x|x], b as [| |y|y]; try done; intros _; simpl.
  - rewrite !Z.leb_le. lia.
  - apply String.leb_total.
Qed.

(** On logs that have the value, the comparator's order is [ordered]. *)
Lemma compareLogs_ordered (f : field) (d : direction) (a b : log) :
  defined f a -> defined f b ->
  Js.before (compareLogs f d) a b <-> ordered f d a b.
Proof.
  intros Ha Hb. unfold Js.before, compareLogs, ordered.
  pose proof (le_not_gt _ _ (defined_same_kind f a b Ha Hb)) as Hab.
  pose proof (le_not_gt _ _ (defined_same_kind f b a Hb Ha)) as Hba.
  pose proof (lt_le (fieldValue f a) (fieldValue f b)) as Hlt1.
  pose proof (lt_le (fieldValue f b) (fieldValue f a)) as Hlt2.
  destruct (Js.lt (fieldValue f a) (fieldValue f b)),
           (Js.lt (fieldValue f b) (fieldValue f a)), d; simpl in *;
    rewrite ?Hab, ?Hba; try (specialize (Hlt1 eq_refl)); try (specialize (Hlt2 eq_refl));
    split; try done; try lia; congruence.
Qed.

Lemma compareLogs_consistent (f : field) (d : direction) (l : list log) :
  Forall (defined f) l -> Js.consistent_on (compareLogs f d) l.
Proof.
  rewrite Forall_forall. intros Hdef. split.
  - intros x y z Hx Hy Hz.
    rewrite !compareLogs_ordered by auto.
    destruct d; simpl; eauto using le_trans.
  - intros x y Hx Hy.
    rewrite !compareLogs_ordered by auto.
    destruct d; simpl; apply le_total, defined_same_kind; auto.
Qed.

Lemma displayLogs_fields (st : state) :
  filteredLogs (displayLogs st) = filteredLogs st
  /\ allLogs (displayLogs st) = allLogs st
  /\ currentSort (displayLogs st) = currentSort st
  /\ currentPage (displayLogs st) = currentPage st
  /\ totalLogs (displayLogs st) = totalLogs st.
Proof. unfold displayLogs. by destruct (Js.slice _ _ _). Qed.

Lemma sortLogs_fields (f : field) (d : option direction) (updateDisplay : bool)
    (st : state) :
  let st' := sortLogs f d updateDisplay st in
  filteredLogs st' = Js.sort (compareLogs f (sortDirection f d st)) (filteredLogs st)
  /\ currentSort st' = {| sort_field := f; sort_direction := sortDirection f d st |}
  /\ allLogs st' = allLogs st
  /\ currentPage st' = currentPage st
  /\ totalLogs st' = totalLogs st.
Proof.
  unfold sortLogs. destruct updateDisplay; [|done].
  by destruct (displayLogs_fields
    {| currentPage := currentPage st; logsPerPage := logsPerPage st;
       totalLogs := totalLogs st;
       filteredLogs := Js.sort (compareLogs f (sortDirection f d st)) (filteredLogs st);
       allLogs := allLogs st;
       currentSort := {| sort_field := f; sort_direction := sortDirection f d st |};
       logsTableBody := logsTableBody st; logsCount := logsCount st |})
    as (-> & -> & -> & -> & ->).
Qed.

(** With an invalid date among the timestamps the logs are left as they
    were, out of order; and no arrangement of them is in order, since an
    invalid date is neither before nor after any date. *)
Lemma sortLogs_invalid_date_unsorted :
  let entry (t : option Z) :=
    {| id := "log_0"; timestamp := t; ipAddress := Some "10.0.0.1";
       username := "ada"; status := "success"; location := "" |} in
  let logs := [entry (Some 3%Z); entry None; entry (Some 1%Z)] in
  let st :=
    {| currentPage := 1; logsPerPage := 50; totalLogs := 3;
       filteredLogs := logs; allLogs := logs;
       currentSort := {| sort_field := Timestamp; sort_direction := desc |};
       logsTableBody := LoadingRow; logsCount := CountLoading |} in
  let st' := sortLogs Timestamp (Some asc) true st in
  filteredLogs st' = logs
  /\ ~ StronglySorted (ordered Timestamp (sort_direction (currentSort st')))
        (filteredLogs st')
  /\ forall l, l ≡ₚ logs -> ~ StronglySorted (ordered Timestamp asc) l.
Proof.
  intros entry logs st st'.
  split; [done|]. split.
  - intros Hsorted. apply StronglySorted_inv in Hsorted as [_ Hall].
    apply Forall_cons in Hall as [Hnan _]. discriminate Hnan.
  - intros l Hperm Hsorted.
    destruct (StronglySorted_related _ l (entry None) (entry (Some 1%Z)) Hsorted)
      as [Heq|[Hord|Hord]]; try discriminate.
    + rewrite Hperm. apply list_elem_of_further, list_elem_of_here.
    + rewrite Hperm. do 2 apply list_elem_of_further. apply list_elem_of_here.
Qed.

(** C6, as the code has it.  For logs that all have a value in the sort
    field (a valid date for the timestamp), [sortLogs] leaves in
    [filteredLogs] a permutation of what was there, ordered by the field in
    the direction it settles on: non-decreasing for [asc], non-increasing for
    [desc], timestamps compared as dates.  The direction is the one passed;
    with none passed and the field being the current sort field, it is the
    reverse of the current direction. *)
Theorem sortLogs_sorted (f : field) (d : option direction) (updateDisplay : bool)
    (st : state) :
  Forall (defined f) (filteredLogs st) ->
  let st' := sortLogs f d updateDisplay st in
  filteredLogs st' ≡ₚ filteredLogs st
  /\ StronglySorted (ordered f (sort_direction (currentSort st'))) (filteredLogs st')
  /\ sort_field (currentSort st') = f
  /\ (forall d0, d = Some d0 -> sort_direction (currentSort st') = d0)
  /\ (d = None -> sort_field (currentSort st) = f ->
      sort_direction (currentSort st') = reverse (sort_direction (currentSort st))).
Proof.
  intros Hdef st'.
  destruct (sortLogs_fields f d updateDisplay st) as (Hlogs & Hsort & _).
  fold st' in Hlogs, Hsort. rewrite Hlogs, Hsort. simpl.
  split; [apply sort_Permutation|].
  split.
  - apply (StronglySorted_weaken (Js.before (compareLogs f (sortDirection f d st)))).
    + intros x y Hx Hy. apply compareLogs_ordered.
      all: rewrite Forall_forall in Hdef; apply Hdef.
      all: by rewrite <- (sort_Permutation (compareLogs f (sortDirection f d st))).
    + by apply sort_sorted, compareLogs_consistent.
  - split; [done|]. split.
    + by intros d0 ->.
    + intros -> Hfield. unfold sortDirection.
      rewrite decide_True by done.
      by destruct (sort_direction (currentSort st)).
Qed.

Lemma sortLogs_sorted_witness :
  let entry (t : Z) :=
    {| id := "log_0"; timestamp := Some t; ipAddress := Some "10.0.0.1";
       username := "ada"; status := "success"; location := "" |} in
  let logs := [entry 3%Z; entry 1%Z; entry 2%Z] in
  let st :=
    {| currentPage := 1; logsPerPage := 50; totalLogs := 3;
       filteredLogs := logs; allLogs := logs;
       currentSort := {| sort_field := Timestamp; sort_direction := desc |};
       logsTableBody := LoadingRow; logsCount := CountLoading |} in
  let st' := sortLogs Timestamp None true st in
  Forall (defined Timestamp) (filteredLogs st)
  /\ filteredLogs st' ≡ₚ filteredLogs st
  /\ StronglySorted (ordered Timestamp (sort_direction (currentSort st')))
       (filteredLogs st')
  /\ sort_field (currentSort st') = Timestamp
  /\ (forall d0, @None direction = Some d0 -> sort_direction (currentSort st') = d0)
  /\ (@None direction = None -> sort_field (currentSort st) = Timestamp ->
      sort_direction (currentSort st') = reverse (sort_direction (currentSort st))).
Proof.
  intros entry logs st st'.
  assert (Hdef : Forall (defined Timestamp) (filteredLogs st)).
  { repeat constructor; by eexists. }
  split; [exact Hdef|].
  exact (sortLogs_sorted Timestamp None true st Hdef).
Defined.

End SortLogs.

(** ** Activity.js: filtering the logs *)

Section FilterLogs.

Import ActivityLogsManager.

Context `{Host}.

Lemma filterM_total {A} (p : A -> bool) (q : A -> Js.M bool) (l : list A) :
  Forall (fun x => q x = Js.ret (p x)) l ->
  Js.filterM q l = Js.ret (List.filter p l).
Proof.
  induction 1 as [|x l Hx _ IH]; [done|].
  simpl. rewrite Hx, IH. simpl. by destruct (p x).
Qed.

Lemma filter_filter_andb {A} (p q : A -> bool) (l : list A) :
  List.filter q (List.filter p l) = List.filter (fun x => p x && q x) l.
Proof.
  induction l as [|x l IH]; [done|]. simpl.
  destruct (p x); simpl; [|done]. destruct (q x); by rewrite IH.
Qed.

Lemma filter_ext_Forall {A} (p q : A -> bool) (l : list A) :
  Forall (fun x => p x = q x) l -> List.filter p l = List.filter q l.
Proof.
  induction 1 as [|x l Hx _ IH]; [done|]. simpl. by rewrite Hx, IH.
Qed.

(** East of Greenwich (and on it) the window of the date filter is the
    selected day of the local calendar. *)
Lemma filterDate_local (day : Z) :
  (0 <= LocalTZA < msPerDay)%Z -> filterDate day = (day * msPerDay - LocalTZA)%Z.
Proof.
  intros Htz. unfold filterDate.
  replace ((day * msPerDay + LocalTZA) / msPerDay)%Z with day; [done|].
  apply Z.div_unique with (r := LocalTZA); lia.
Qed.

Lemma dateCallback_localDay (day : Z) (l : log) (t : Z) :
  (0 <= LocalTZA < msPerDay)%Z -> timestamp l = Some t ->
  dateCallback day l = (localDay t =? day)%Z.
Proof.
  intros Htz Ht. unfold dateCallback, localDay. rewrite Ht, filterDate_local by done.
  unfold msPerDay in *.
  destruct (Z.eqb_spec ((t + LocalTZA) / (24 * 60 * 60 * 1000)) day) as [<-|Hne].
  - pose proof (Z.mul_div_le (t + LocalTZA) (24 * 60 * 60 * 1000)).
    pose proof (Z.mul_succ_div_gt (t + LocalTZA) (24 * 60 * 60 * 1000)).
    apply andb_true_iff. rewrite Z.leb_le, Z.ltb_lt. lia.
  - apply andb_false_iff. rewrite Z.leb_gt, Z.ltb_ge.
    destruct (Z.lt_ge_cases t (day * (24 * 60 * 60 * 1000) - LocalTZA)); [by left|].
    right. destruct (Z.lt_ge_cases t
             (day * (24 * 60 * 60 * 1000) - LocalTZA + 24 * 60 * 60 * 1000)); [|lia].
    contradict Hne. symmetry.
    apply Z.div_unique with (r := (t + LocalTZA - day * (24 * 60 * 60 * 1000))%Z); lia.
Qed.

Lemma filter_all {A} (l : list A) : List.filter (fun _ => true) l = l.
Proof. induction l as [|x l IH]; [done|]. simpl. by rewrite IH. Qed.

Lemma Forall_filter_bool {A} (P : A -> Prop) (p : A -> bool) (l : list A) :
  Forall P l -> Forall P (List.filter p l).
Proof.
  induction 1 as [|x l Hx _ IH]; [done|]. simpl.
  destruct (p x); [by constructor|done].
Qed.

(** When every log that reaches the IP filter has an [ipAddress],
    [applyFilters] returns; [filteredLogs] then holds the logs that pass the
    three stages, in the current sort order, [allLogs] is as it was and the
    page is 1. *)
Lemma applyFilters_stages (c : controls) (st : state) :
  Forall (fun l => is_Some (ipAddress l)) (allLogs st) ->
  exists st',
    applyFilters c st = inr st'
    /\ filteredLogs st'
       = Js.sort (compareLogs (sort_field (currentSort st))
                              (sort_direction (currentSort st)))
           (List.filter (fun l => dateStage c l && ipStage c l && statusStage c l)
                        (allLogs st))
    /\ allLogs st' = allLogs st
    /\ currentPage st' = 1
    /\ currentSort st' = currentSort st.
Proof.
  intros Hip. unfold applyFilters.
  set (byDate := match dateFilter c with
                 | Some day => List.filter (dateCallback day) (allLogs st)
                 | None => allLogs st
                 end).
  assert (HbyDate : byDate = List.filter (dateStage c) (allLogs st)).
  { unfold byDate, dateStage. destruct (dateFilter c); [done|by rewrite filter_all]. }
  assert (Hip' : Forall (fun l => is_Some (ipAddress l)) byDate).
  { rewrite HbyDate. by apply Forall_filter_bool. }
  set (byIp := if Js.truthy (trim <$> ipAddressInput c)
               then Js.filterM (ipCallback (default "" (trim <$> ipAddressInput c))) byDate
               else Js.ret byDate).
  assert (HbyIp : byIp = Js.ret (List.filter (ipStage c) byDate)).
  { unfold byIp, ipStage. destruct (Js.truthy (trim <$> ipAddressInput c)).
    - apply filterM_total. eapply Forall_impl; [exact Hip'|].
      intros l [ip Hl]. unfold ipCallback. by rewrite Hl.
    - by rewrite filter_all. }
  rewrite HbyIp. cbn [Js.bind Js.ret].
  set (byStatus := if Js.truthy (statusSelect c) then _ else _).
  assert (HbyStatus : byStatus = List.filter (statusStage c) (List.filter (ipStage c) byDate)).
  { unfold byStatus, statusStage. destruct (Js.truthy (statusSelect c)); [done|].
    by rewrite filter_all. }
  eexists. split; [done|].
  match goal with |- context [displayLogs ?s] =>
    destruct (displayLogs_fields s) as (-> & -> & -> & -> & _) end.
  match goal with |- context [sortLogs ?f ?d ?u ?s] =>
    destruct (sortLogs_fields f d u s) as (-> & -> & -> & -> & _) end.
  cbn [filteredLogs allLogs currentPage currentSort sortDirection sort_field sort_direction].
  rewrite HbyStatus, HbyDate.
  rewrite (filter_filter_andb (dateStage c) (ipStage c)), filter_filter_andb.
  repeat split. by destruct (currentSort st).
Qed.

(** The stages are the filters of the specification when local time is not
    behind UTC. *)
Lemma stages_selected (c : controls) (l : log) :
  (0 <= LocalTZA < msPerDay)%Z ->
  dateStage c l && ipStage c l && statusStage c l = selected c l.
Proof.
  intros Htz. unfold selected. do 2 f_equal. unfold dateStage, withinSelectedDay.
  destruct (dateFilter c) as [day|]; [|done].
  destruct (timestamp l) as [t|] eqn:Ht.
  - by apply dateCallback_localDay.
  - unfold dateCallback. by rewrite Ht.
Qed.

(** So there, and for logs that all have an [ipAddress], [applyFilters]
    keeps precisely the logs that pass every active filter. *)
Lemma applyFilters_exact (c : controls) (st : state) :
  (0 <= LocalTZA < msPerDay)%Z ->
  Forall (fun l => is_Some (ipAddress l)) (allLogs st) ->
  exists st',
    applyFilters c st = inr st'
    /\ filteredLogs st' ≡ₚ List.filter (selected c) (allLogs st)
    /\ allLogs st' = allLogs st
    /\ currentPage st' = 1.
Proof.
  intros Htz Hip.
  destruct (applyFilters_stages c st Hip) as (st' & Happly & Hlogs & Hall & Hpage & _).
  exists st'. split; [done|]. split; [|done].
  rewrite Hlogs, sort_Permutation.
  erewrite filter_ext_Forall; [done|].
  apply Forall_forall. intros l _. by apply stages_selected.
Qed.

End FilterLogs.

Section FilterLogsAt.

Import ActivityLogsManager.

(** C7, at two inputs where the code falls short of it.

    First, a history of two entries of which the second has neither [ip]
    nor [ipAddress]: [loadActivityLogs] keeps its [ipAddress] undefined
    (where [processDashboardActivityData] would put ['Unknown']), and with
    ["10."] typed in the IP input [applyFilters] throws in the filter's
    callback instead of keeping the first log.

    Second, five hours west of Greenwich, with 2024-05-10 picked (day
    19853): a log of noon that day, local time, passes every filter of the
    specification, and [applyFilters] drops it, the window being the day
    before. *)
Theorem applyFilters_misses :
  let entry (ip : option string) :=
    {| entry_id := None; entry_time := Some 1715360400000%Z;
       entry_ip := ip; entry_ipAddress := None;
       entry_username := Some "ada"; entry_user := None;
       entry_status := None; entry_success := Some true;
       entry_location := None; entry_country := None |} in
  let loaded := set_allLogs (imap historyLog [entry (Some "10.0.0.7"); entry None]) new in
  let byIp := {| dateFilter := None; ipAddressInput := Some "10."; statusSelect := None |} in
  let west := AsciiHost.host (-5 * 60 * 60 * 1000) in
  let noon := set_allLogs (imap historyLog [entry (Some "10.0.0.7")]) new in
  let byDate := {| dateFilter := Some 19853%Z; ipAddressInput := None;
                   statusSelect := None |} in
  ipAddress <$> allLogs loaded = [Some "10.0.0.7"; None]
  /\ List.filter (selected (H := AsciiHost.host 0) byIp) (allLogs loaded)
     = [historyLog 0 (entry (Some "10.0.0.7"))]
  /\ applyFilters (H := AsciiHost.host 0) byIp loaded
     = inl "Cannot read properties of undefined (reading 'toLowerCase')"
  /\ List.filter (selected (H := west) byDate) (allLogs noon) = allLogs noon
  /\ (st' <- applyFilters (H := west) byDate noon ;; Js.ret (filteredLogs st'))
     = Js.ret [].
Proof. vm_compute. done. Qed.

End FilterLogsAt.

(** ** Activity.js: what follows a failed request *)

Section FailureHandling.

Import ActivityLogsManager.

Context `{Host}.

(** When the health check is rejected and the probe answers 401, the probe
    is a second request that the code issues by itself after a failed one;
    likewise the history request after a dashboard that answers 500. *)
Lemma failed_fetch_falls_back :
  let answer (status : Z) : Http.response (option body) :=
    {| Http.status := status; Http.statusText := ""; Http.json := Js.ret None;
       Http.text := Js.ret "" |} in
  let net : network := fun r =>
    if String.eqb (Http.url r) (Http.url healthRequest) then Js.throw "Failed to fetch"
    else if String.eqb (Http.url r) (Http.url dashboardRequest) then Js.ret (answer 500%Z)
    else Js.ret (answer 401%Z) in
  let none := {| dateFilter := None; ipAddressInput := None; statusSelect := None |} in
  net healthRequest = inl "Failed to fetch"
  /\ (checkAPIStatus net ∅).1 = [healthRequest; probeRequest]
  /\ Http.ok (answer 500%Z) = false
  /\ (loadActivityLogs (H := AsciiHost.host 0) net none true new).1
     = [dashboardRequest; historyRequest]
  /\ ~ (forall (net : network) doc,
          (forall response, net healthRequest = inr response -> Http.ok response = false) ->
          (checkAPIStatus net doc).1 = [healthRequest]).
Proof.
  intros answer net none.
  split; [done|]. split; [done|]. split; [done|]. split; [done|].
  intros Hnone. specialize (Hnone net ∅). discriminate Hnone. by intros response [=].
Qed.

Lemma applyFilters_no_logs (c : controls) (st : state) :
  exists st', applyFilters c (set_allLogs [] st) = inr st'
    /\ allLogs st' = [] /\ filteredLogs st' = []
    /\ logsTableBody st' = NoActivityRow /\ logsCount st' = logsCount st.
Proof.
  unfold applyFilters. cbn [allLogs set_allLogs].
  destruct (dateFilter c); cbn [List.filter];
    destruct (Js.truthy (trim <$> ipAddressInput c)); cbn [Js.filterM Js.bind Js.ret];
    destruct (Js.truthy (statusSelect c)); cbn [List.filter];
    (eexists; split; [reflexivity|]);
    unfold sortLogs, displayLogs, Js.slice; cbn [filteredLogs Js.sort foldr];
    by rewrite drop_nil, take_nil.
Qed.

Lemma Forall_imap {A B} (P : B -> Prop) (f : nat -> A -> B) (l : list A) :
  (forall i x, P (f i x)) -> Forall P (imap f l).
Proof.
  revert f. induction l as [|x l IH]; intros f Hf; simpl; [done|].
  constructor; [done|]. apply IH. intros i y. apply Hf.
Qed.

(** The dashboard path returns exactly when the endpoint answered ok with
    comprehensive data: its logs all have an [ipAddress], so the filters do
    not throw there. *)
Lemma tryDashboard_returns (net : network) (c : controls) (st : state) :
  is_Some (tryDashboard net c st) <->
  exists response b, net dashboardRequest = inr response /\ Http.ok response = true
    /\ Http.json response = inr (Some b) /\ comprehensive b = true.
Proof.
  unfold tryDashboard.
  destruct (net dashboardRequest) as [e|response]; simpl.
  { split; [by intros [? [=]]|by intros (? & ? & [=] & _)]. }
  destruct (Http.ok response) eqn:Hok; simpl.
  2: { split; [by intros [? [=]]|]. intros (? & ? & [= <-] & ? & _). congruence. }
  destruct (Http.json response) as [e|[b|]] eqn:Hjson; simpl.
  - split; [by intros [? [=]]|]. intros (? & ? & [= <-] & _ & ? & _). congruence.
  - destruct (comprehensive b) eqn:Hb; simpl.
    + destruct (applyFilters_stages c (set_allLogs (imap dashboardLog (recentActivity b)) st))
        as (st' & Happly & _).
      { simpl. apply Forall_imap. intros i x. by eexists. }
      unfold processDashboardActivityData. rewrite Happly. simpl.
      split; [|by eexists]. intros _. by exists response, b.
    + split; [by intros [? [=]]|]. intros (? & ? & [= <-] & _ & ? & ?). congruence.
  - split; [by intros [? [=]]|]. intros (? & ? & [= <-] & _ & ? & _). congruence.
Qed.

(** C8, as the code has it.  Neither function asks the same thing twice,
    and there is no backoff.  [checkAPIStatus] issues the health request,
    and when that fails one probe of the history endpoint and nothing more.
    [loadActivityLogs] issues the dashboard request, and exactly when that
    gives no comprehensive data the history request, and nothing more; when
    that one fails too it ends with no logs and the counter reading
    "failed". *)
Theorem failure_handling_requests (net : network) (doc : gmap string string)
    (c : controls) (showLoading : bool) (st : state) :
  let status := (checkAPIStatus net doc).1 in
  let load := loadActivityLogs net c showLoading st in
  (status = [healthRequest] \/ status = [healthRequest; probeRequest])
  /\ NoDup status
  /\ (status = [healthRequest] <->
      exists response, net healthRequest = inr response /\ Http.ok response = true)
  /\ (load.1 = [dashboardRequest] \/ load.1 = [dashboardRequest; historyRequest])
  /\ NoDup load.1
  /\ (load.1 = [dashboardRequest] <->
      exists response b, net dashboardRequest = inr response /\ Http.ok response = true
        /\ Http.json response = inr (Some b) /\ comprehensive b = true)
  /\ (load.1 = [dashboardRequest; historyRequest] ->
      (forall response, net historyRequest = inr response -> Http.ok response = false) ->
      allLogs load.2 = [] /\ filteredLogs load.2 = [] /\ logsCount load.2 = CountFailed).
Proof.
  intros status load.
  assert (Hstatus : (status = [healthRequest] \/ status = [healthRequest; probeRequest])
                    /\ (status = [healthRequest] <->
                        exists response, net healthRequest = inr response
                                         /\ Http.ok response = true)).
  { unfold status, checkAPIStatus.
    destruct (net healthRequest) as [e|response]; simpl.
    - destruct (net probeRequest) as [e'|probe]; simpl.
      + split; [by right|]. split; [done|]. by intros (? & [=] & _).
      + destruct (negb _); simpl; (split; [by right|]);
          (split; [done|]); by intros (? & [=] & _).
    - destruct (Http.ok response) eqn:Hok; simpl.
      + split; [by left|]. split; [by eexists|done].
      + destruct (net probeRequest) as [e'|probe]; simpl.
        * split; [by right|]. split; [done|]. intros (? & [= <-] & ?). congruence.
        * destruct (negb _); simpl; (split; [by right|]);
            (split; [done|]); intros (? & [= <-] & ?); congruence. }
  destruct Hstatus as [Hshape Hiff].
  split; [done|]. split.
  { destruct Hshape as [-> | ->]; repeat constructor; set_solver. }
  split; [done|].
  unfold load, loadActivityLogs.
  set (st0 := if showLoading then showLoadingState st else st).
  pose proof (tryDashboard_returns net c st0) as Hreturns.
  destruct (tryDashboard net c st0) as [st'|]; simpl.
  { split; [by left|]. split; [repeat constructor; set_solver|].
    split; [|done]. split; [intros _; by apply Hreturns|done]. }
  split; [by right|]. split; [repeat constructor; set_solver|].
  split.
  { split; [done|]. intros Hdata. apply Hreturns in Hdata. by destruct Hdata. }
  intros _ Hfails.
  assert (Hthrows : exists e, loadHistory net c st0 = inl e).
  { unfold loadHistory. destruct (net historyRequest) as [e|response]; simpl.
    - by eexists.
    - rewrite (Hfails response eq_refl). simpl. by eexists. }
  destruct Hthrows as [e ->].
  destruct (applyFilters_no_logs c (showErrorState e st0))
    as (st' & -> & Hall & Hfiltered & _ & Hcount).
  by rewrite Hall, Hfiltered, Hcount.
Qed.

End FailureHandling.

(** ** Scouting.js: the team grid *)

Section TeamGrid.

Import ScoutingManager.

Context `{Host}.

Lemma setElementText_lookup_ne (id text k : string) (doc : gmap string string) :
  id <> k -> Document.setElementText id text doc !! k = doc !! k.
Proof.
  intros Hne. unfold Document.setElementText.
  destruct (doc !! id); [by rewrite lookup_insert_ne|done].
Qed.

Lemma setElementText_lookup_eq (id text : string) (doc : gmap string string) :
  is_Some (doc !! id) -> Document.setElementText id text doc !! id = Some text.
Proof.
  intros [old Hold]. unfold Document.setElementText.
  by rewrite Hold, lookup_insert_eq.
Qed.

Lemma setDisabled_page (id : string) (b : bool) (pg : page) :
  texts (setDisabled id b pg) = texts pg /\ teamsGrid (setDisabled id b pg) = teamsGrid pg.
Proof. unfold setDisabled. by destruct (texts pg !! id). Qed.

(** Apart from the grid and the counter the page functions leave both
    alone. *)
Lemma updatePaginationInfo_page (pg : page) (st : state) :
  texts (updatePaginationInfo pg st) !! "teamsCount" = texts pg !! "teamsCount"
  /\ teamsGrid (updatePaginationInfo pg st) = teamsGrid pg.
Proof.
  unfold updatePaginationInfo.
  repeat match goal with
         | |- context [setDisabled ?id ?b ?p] =>
             destruct (setDisabled_page id b p) as [-> ->]
         end.
  simpl. by rewrite setElementText_lookup_ne.
Qed.

Lemma updateStats_page (now : Z) (pg : page) (st : state) :
  texts (updateStats now pg st) !! "teamsCount" = texts pg !! "teamsCount"
  /\ teamsGrid (updateStats now pg st) = teamsGrid pg.
Proof.
  unfold updateStats.
  destruct (omap reliabilityScore (allTeams st)); simpl;
    by rewrite !setElementText_lookup_ne.
Qed.

Lemma populateScoutsFilter_page (pg : page) (st : state) :
  texts (populateScoutsFilter pg st) !! "teamsCount" = texts pg !! "teamsCount"
  /\ teamsGrid (populateScoutsFilter pg st) = teamsGrid pg.
Proof.
  unfold populateScoutsFilter.
  destruct (texts pg !! "scoutFilter"); simpl; [|done].
  by rewrite lookup_insert_ne.
Qed.

(** With no team left after the filters, [renderTeams] writes the "No teams
    found" box and ["0 teams"], as far as the page has the grid. *)
Lemma renderTeams_none (pg : page) (st : state) :
  filteredTeams st = [] ->
  match teamsGrid pg with
  | Some _ =>
      teamsGrid (renderTeams pg st) = Some NoTeamsFound
      /\ texts (renderTeams pg st) = Document.setElementText "teamsCount" "0 teams" (texts pg)
  | None => renderTeams pg st = pg
  end.
Proof.
  intros Hnone. unfold renderTeams. rewrite Hnone.
  by destruct (teamsGrid pg).
Qed.

(** [applyFilters] turns the direction round, whatever the filters. *)
Lemma applyFilters_direction (pg : page) (st : state) :
  sort_field (currentSort st) <> "" ->
  currentSort (applyFilters pg st).2
  = {| sort_field := sort_field (currentSort st);
       sort_direction := if decide (sort_direction (currentSort st) = asc)
                         then desc else asc |}.
Proof.
  intros Hfield. unfold applyFilters, sortTeams. simpl.
  apply String.eqb_neq in Hfield. rewrite Hfield. simpl.
  by rewrite String.eqb_refl.
Qed.

(** [applyFilters] filters, sorts (without drawing), then draws the grid
    and the pager. *)
Lemma applyFilters_draws (pg : page) (st : state) :
  exists st',
    applyFilters pg st = (updatePaginationInfo (renderTeams pg st') st', st')
    /\ filteredTeams st'
       ≡ₚ List.filter
            (teamCallback (Js.or_default (toLowerCase <$> texts pg !! "teamSearch") "")
                          (texts pg !! "reliabilityFilter")
                          (toLowerCase <$> texts pg !! "scoutFilter")
                          (texts pg !! "dateFilter"))
            (allTeams st)
    /\ allTeams st' = allTeams st.
Proof.
  unfold applyFilters, sortTeams. simpl.
  destruct (negb (negb (String.eqb (sort_field (currentSort st)) ""))); simpl.
  - eexists. split; [done|]. by simpl.
  - eexists. split; [done|]. simpl. by rewrite sort_Permutation.
Qed.

(** C2, as the code has it.  When the teams API answers with an empty
    array and the page has the grid, then after [loadTeams] the grid shows
    the "No teams found" box and the team-count element reads exactly
    ["0 teams"]. *)
Theorem loadTeams_empty_count (now : Z)
    (fetched : Js.M (Http.response (option (list team))))
    (response : Http.response (option (list team))) (pg : page) (st : state) :
  fetched = inr response -> Http.ok response = true ->
  Http.json response = inr (Some []) ->
  is_Some (teamsGrid pg) -> is_Some (texts pg !! "teamsCount") ->
  let pg' := (loadTeams now fetched pg st).1 in
  texts pg' !! "teamsCount" = Some "0 teams" /\ teamsGrid pg' = Some NoTeamsFound.
Proof.
  intros -> Hok Hjson Hgrid Hcount. unfold loadTeams. simpl.
  rewrite Hok, Hjson. simpl.
  set (st1 := set_allTeams [] st).
  destruct (populateScoutsFilter_page pg st1) as [Hcount1 Hgrid1].
  destruct (applyFilters_draws (populateScoutsFilter pg st1) st1)
    as (st2 & -> & Hfiltered & _).
  apply Permutation_nil_r in Hfiltered. cbn [fst].
  destruct (updateStats_page now
    (updatePaginationInfo (renderTeams (populateScoutsFilter pg st1) st2) st2) st2)
    as [-> ->].
  destruct (updatePaginationInfo_page (renderTeams (populateScoutsFilter pg st1) st2) st2)
    as [-> ->].
  pose proof (renderTeams_none (populateScoutsFilter pg st1) st2 Hfiltered) as Hrender.
  rewrite Hgrid1 in Hrender. destruct Hgrid as [g Hg]. rewrite Hg in Hrender.
  destruct Hrender as [-> ->]. split; [|done].
  apply setElementText_lookup_eq. by rewrite Hcount1.
Qed.

End TeamGrid.

Section TeamGridAt.

Import ScoutingManager.

(** A page that has the team-count element but no grid: [renderTeams]
    returns at its guard, and the count stays what it was. *)
Lemma loadTeams_without_grid :
  let response : Http.response (option (list team)) :=
    {| Http.status := 200; Http.statusText := "OK"; Http.json := Js.ret (Some []);
       Http.text := Js.ret "[]" |} in
  let pg := {| texts := {[ "teamsCount" := "12 teams" ]}; teamsGrid := None;
               options := ∅; disabled := ∅ |} in
  let pg' := (loadTeams (H := AsciiHost.host 0) 0 (Js.ret response) pg new).1 in
  Http.ok response = true
  /\ texts pg' !! "teamsCount" = Some "12 teams"
  /\ texts pg' !! "teamsCount" <> Some "0 teams".
Proof. vm_compute. split; [done|]. split; [done|discriminate]. Qed.

Lemma loadTeams_empty_count_witness :
  let response : Http.response (option (list team)) :=
    {| Http.status := 200; Http.statusText := "OK"; Http.json := Js.ret (Some []);
       Http.text := Js.ret "[]" |} in
  let pg := {| texts := {[ "teamsCount" := "12 teams" ]}; teamsGrid := Some InitialMarkup;
               options := ∅; disabled := ∅ |} in
  let pg' := (loadTeams (H := AsciiHost.host 0) 0 (Js.ret response) pg new).1 in
  texts pg' !! "teamsCount" = Some "0 teams" /\ teamsGrid pg' = Some NoTeamsFound.
Proof.
  intros response pg.
  apply (loadTeams_empty_count (H := AsciiHost.host 0) 0 (Js.ret response) response pg new).
  - reflexivity.
  - reflexivity.
  - reflexivity.
  - by eexists.
  - by eexists.
Defined.

(** C1, at an input where the code falls short of it.  Two teams are
    loaded and no filter is set.  [applyFilters] re-sorts through
    [sortTeams(this.currentSort.field, false)], which takes the field it is
    given for a second pick of the same column and turns the direction
    round: the first run leaves the teams in descending order of their
    numbers, the second run, with nothing changed, in ascending order, and
    the grids they draw differ.  ([ActivityLogsManager.applyFilters] passes
    the current direction to [sortLogs] and has no such turn.) *)
Theorem applyFilters_twice_differs :
  let team (n : Z) :=
    {| id := None; teamNumber := Some n; number := None; teamName := None;
       name := None; scoutName := None; scout := None; scoutedBy := None;
       createdBy := None; reliability := None; date := None; createdAt := None;
       timestamp := None |} in
  let pg := {| texts := {[ "teamsCount" := "" ]}; teamsGrid := Some InitialMarkup;
               options := ∅; disabled := ∅ |} in
  let loaded := set_allTeams [team 254%Z; team 1678%Z] new in
  let first := applyFilters (H := AsciiHost.host 0) pg loaded in
  let second := applyFilters (H := AsciiHost.host 0) first.1 first.2 in
  allTeams first.2 = allTeams loaded
  /\ filteredTeams first.2 = [team 1678%Z; team 254%Z]
  /\ filteredTeams second.2 = [team 254%Z; team 1678%Z]
  /\ teamsGrid first.1 <> teamsGrid second.1.
Proof. vm_compute. repeat split; discriminate. Qed.

End TeamGridAt.

(** ** The sidebar's user profile on the pages *)

Section SidebarProfile.

Lemma lookup_setElementText (id text k : string) (doc : gmap string string) :
  Document.setElementText id text doc !! k
  = if decide (id = k) then (fun _ => text) <$> doc !! k else doc !! k.
Proof.
  unfold Document.setElementText. case_decide as Hk.
  - subst k. destruct (doc !! id) as [old|] eqn:Hold; simpl.
    + by rewrite lookup_insert_eq.
    + done.
  - destruct (doc !! id); [by rewrite lookup_insert_ne|done].
Qed.

Lemma lookup_updateElement (id alt value k : string) (doc : gmap string string) :
  UserInfoFix.updateElement id alt value doc !! k
  = match doc !! id with
    | Some _ => if decide (id = k) then Some value else doc !! k
    | None => if decide (alt = k) then (fun _ => value) <$> doc !! k else doc !! k
    end.
Proof.
  unfold UserInfoFix.updateElement.
  destruct (doc !! id) as [old|] eqn:Hold.
  - case_decide as Hk; [subst; by rewrite lookup_insert_eq|by rewrite lookup_insert_ne].
  - apply lookup_setElementText.
Qed.

(** Showing a profile a second time changes nothing. *)
Lemma updateUserDisplay_idempotent (u : Document.UserInfo) (doc : gmap string string) :
  Document.updateUserDisplay u (Document.updateUserDisplay u doc)
  = Document.updateUserDisplay u doc.
Proof.
  unfold Document.updateUserDisplay.
  destruct (Document.displayedUser u) as [[username userRole] userEmail].
  apply map_eq. intros k. rewrite !lookup_setElementText.
  repeat case_decide; subst; try done; by destruct (doc !! _).
Qed.

Lemma updateUserInfoElements_idempotent (username userRole userEmail : string)
    (doc : gmap string string) :
  UserInfoFix.updateUserInfoElements username userRole userEmail
    (UserInfoFix.updateUserInfoElements username userRole userEmail doc)
  = UserInfoFix.updateUserInfoElements username userRole userEmail doc.
Proof.
  unfold UserInfoFix.updateUserInfoElements.
  apply map_eq. intros k. rewrite !lookup_updateElement.
  rewrite !decide_False by done.
  destruct (doc !! "sidebarUserName"), (doc !! "sidebarUserRole"),
           (doc !! "sidebarUserEmail"), (doc !! "UserName"), (doc !! "UserRole"),
           (doc !! "UserEmail"); simpl;
    repeat case_decide; subst; try done; by destruct (doc !! _).
Qed.

(** X15.  [loadUserInfo] of the activity page and of the scouting page ask
    the server once: with a token and no ['userInfo'] in the storage the
    profile is requested, and an ok answer is shown and stored; called
    again, whatever the network would answer, they send no request and leave
    the storage and the sidebar as they are. *)
Theorem loadUserInfo_asks_once
    (fetched fetched' : Js.M (Http.response Document.UserInfo))
    (response : Http.response Document.UserInfo) (userInfo : Document.UserInfo)
    (ls doc : gmap string string) :
  Js.truthy (ls !! "authToken") = true ->
  fetched = inr response -> Http.ok response = true ->
  Http.json response = inr userInfo ->
  let shown := Document.updateUserDisplay userInfo doc in
  ActivityLogsManager.loadUserInfo fetched ls None doc = (ls, Some userInfo, shown, true)
  /\ ActivityLogsManager.loadUserInfo fetched' ls (Some userInfo) shown
     = (ls, Some userInfo, shown, false)
  /\ ScoutingManager.loadUserInfo fetched ls None doc = (ls, Some userInfo, shown, true)
  /\ ScoutingManager.loadUserInfo fetched' ls (Some userInfo) shown
     = (ls, Some userInfo, shown, false).
Proof.
  intros Htoken -> Hok Hjson shown.
  unfold ActivityLogsManager.loadUserInfo, ScoutingManager.loadUserInfo.
  rewrite Htoken. simpl. rewrite Hok, Hjson. simpl.
  unfold shown. by rewrite updateUserDisplay_idempotent.
Qed.

Lemma loadUserInfo_asks_once_witness :
  let userInfo :=
    {| Document.username := Some "ada"; Document.name := None;
       Document.role := Some "Mentor"; Document.userRole := None;
       Document.email := Some "ada@example.org"; Document.userEmail := None |} in
  let response : Http.response Document.UserInfo :=
    {| Http.status := 200; Http.statusText := "OK"; Http.json := Js.ret userInfo;
       Http.text := Js.ret "" |} in
  let ls : gmap string string := {[ "authToken" := "tok" ]} in
  let doc : gmap string string := {[ "sidebarUserName" := "Loading..." ]} in
  let shown := Document.updateUserDisplay userInfo doc in
  ActivityLogsManager.loadUserInfo (Js.ret response) ls None doc
  = (ls, Some userInfo, shown, true)
  /\ ActivityLogsManager.loadUserInfo (Js.throw "offline") ls (Some userInfo) shown
     = (ls, Some userInfo, shown, false)
  /\ ScoutingManager.loadUserInfo (Js.ret response) ls None doc
     = (ls, Some userInfo, shown, true)
  /\ ScoutingManager.loadUserInfo (Js.throw "offline") ls (Some userInfo) shown
     = (ls, Some userInfo, shown, false).
Proof.
  intros userInfo response ls doc.
  apply (loadUserInfo_asks_once (Js.ret response) (Js.throw "offline") response userInfo
           ls doc); reflexivity.
Defined.

(** X16.  A 401 from the profile endpoint on the activity page: the whole
    storage is cleared.  With it go both tokens, so that the page's next
    [loadUserInfo] sends no request and shows the name for a missing token,
    and the constructor of [Dashboard] finds no API key.  The scouting page
    leaves the storage alone on the same answer. *)
Theorem loadUserInfo_unauthorized
    (fetched fetched' : Js.M (Http.response Document.UserInfo))
    (response : Http.response Document.UserInfo) (ls doc : gmap string string) :
  Js.truthy (ls !! "authToken") = true ->
  fetched = inr response -> Http.status response = 401%Z ->
  ActivityLogsManager.loadUserInfo fetched ls None doc = (∅, None, doc, true)
  /\ ActivityLogsManager.loadUserInfo fetched' ∅ None doc
     = (∅, None,
        Document.updateUserDisplay (Document.defaultUser "Admin User (No Token)") doc,
        false)
  /\ (Dashboard.new ∅).2 = false
  /\ ScoutingManager.loadUserInfo fetched ls None doc = (ls, None, doc, true).
Proof.
  intros Htoken -> Hstatus.
  unfold ActivityLogsManager.loadUserInfo, ScoutingManager.loadUserInfo.
  rewrite Htoken. simpl. unfold Http.ok. rewrite Hstatus. by simpl.
Qed.

Lemma loadUserInfo_unauthorized_witness :
  let response : Http.response Document.UserInfo :=
    {| Http.status := 401; Http.statusText := "Unauthorized";
       Http.json := Js.throw "Unexpected token"; Http.text := Js.ret "" |} in
  let ls : gmap string string := {[ "authToken" := "tok" ]} in
  let doc : gmap string string := {[ "sidebarUserName" := "Loading..." ]} in
  ActivityLogsManager.loadUserInfo (Js.ret response) ls None doc = (∅, None, doc, true)
  /\ ActivityLogsManager.loadUserInfo (Js.throw "offline") ∅ None doc
     = (∅, None,
        Document.updateUserDisplay (Document.defaultUser "Admin User (No Token)") doc,
        false)
  /\ (Dashboard.new ∅).2 = false
  /\ ScoutingManager.loadUserInfo (Js.ret response) ls None doc = (ls, None, doc, true).
Proof.
  intros response ls doc.
  apply (loadUserInfo_unauthorized (Js.ret response) (Js.throw "offline") response ls doc);
    reflexivity.
Defined.

Lemma truthy_nonempty (o : option string) : Js.truthy o = true -> default "" o <> "".
Proof.
  destruct o as [s|]; [|done]. simpl.
  by intros Hs%negb_true_iff%String.eqb_neq.
Qed.

(** X17.  Whatever the storage holds, the three values that
    [loadUserInfoWithFallbacks] shows are not empty, and the name has no
    ['@'] in it. *)
Theorem processedUserInfo_presentable (ls : gmap string string) :
  let '(username, userRole, userEmail) := UserInfoFix.processedUserInfo ls in
  username <> "" /\ userRole <> "" /\ userEmail <> ""
  /\ Js.includes username "@" = false.
Proof.
  unfold UserInfoFix.processedUserInfo.
  set (U := Js.or_else (Js.or_else (Js.or_else (ls !! "username") (ls !! "userEmail"))
                                   (ls !! "user")) (ls !! "adminUsername")).
  set (E := Js.or_else (Js.or_else (ls !! "userEmail") (ls !! "email"))
                       (ls !! "username")).
  set (R := Js.or_else (Js.or_else (Js.or_else (ls !! "userRole") (ls !! "role"))
                                   (ls !! "adminRole")) (Some "Administrator")).
  clearbody U E R.
  assert (HR : (if Js.truthy R then default "" R else "Administrator") <> "").
  { destruct (Js.truthy R) eqn:HtR; [by apply truthy_nonempty|done]. }
  destruct (Js.truthy U) eqn:HtU; cbn [andb].
  - destruct (Js.includes (default "" U) "@") eqn:Hat.
    + set (name := Js.before_first "@" (default "" U)).
      assert (Hname : Js.includes
                (if Js.truthy (Some name) then default "" (Some name) else "Admin User")
                "@" = false).
      { destruct (Js.truthy (Some name)); [apply includes_before_first|done]. }
      rewrite Hname. split; [|split; [done|split; [|done]]].
      * destruct (Js.truthy (Some name)) eqn:Htn; [by apply truthy_nonempty|done].
      * destruct (Js.truthy E) eqn:HtE; rewrite ?HtE, ?HtU; by apply truthy_nonempty.
    + rewrite HtU, Hat. split; [by apply truthy_nonempty|].
      split; [done|]. split; [|done].
      destruct (Js.truthy E) eqn:HtE; [by apply truthy_nonempty|done].
  - rewrite HtU. simpl. split; [done|]. split; [done|]. split; [|done].
    destruct (Js.truthy E) eqn:HtE; [by apply truthy_nonempty|done].
Qed.

Lemma or_default_stable (a b : option string) (d : string) :
  d <> "" ->
  Js.or_default (Js.or_else a (Some (Js.or_default (Js.or_else a b) d))) d
  = Js.or_default (Js.or_else a b) d.
Proof.
  intros Hd. destruct (Js.truthy a) eqn:Ha.
  - by rewrite !(or_else_truthy a).
  - assert (Hfalsy : forall c, Js.or_else a c = c).
    { intros c. unfold Js.or_else. by rewrite Ha. }
    rewrite !Hfalsy.
    pose proof (or_default_nonempty b d Hd) as Hne.
    unfold Js.or_default at 1. by rewrite (or_else_truthy _ _ (truthy_Some _ Hne)).
Qed.

Lemma fetchFreshUserInfo_success
    (fetched : Js.M (Http.response Document.UserInfo))
    (response : Http.response Document.UserInfo) (userInfo : Document.UserInfo)
    (ls : gmap string string) (stored : option Document.UserInfo)
    (doc : gmap string string) :
  Js.truthy (Js.or_else (Js.or_else (ls !! "authToken") (ls !! "adminToken"))
                        (ls !! "token")) = true ->
  fetched = inr response -> Http.ok response = true ->
  Http.json response = inr userInfo ->
  UserInfoFix.fetchFreshUserInfo fetched ls stored doc
  = (<["userEmail" := (UserInfoFix.freshUserInfo userInfo ls).2]>
       (<["userRole" := (UserInfoFix.freshUserInfo userInfo ls).1.2]>
          (<["username" := (UserInfoFix.freshUserInfo userInfo ls).1.1]> ls)),
     Some userInfo,
     UserInfoFix.updateUserInfoElements (UserInfoFix.freshUserInfo userInfo ls).1.1
       (UserInfoFix.freshUserInfo userInfo ls).1.2
       (UserInfoFix.freshUserInfo userInfo ls).2 doc,
     true).
Proof.
  intros Htoken -> Hok Hjson. unfold UserInfoFix.fetchFreshUserInfo.
  rewrite Htoken. simpl. by rewrite Hok, Hjson.
Qed.

Lemma fetchFreshUserInfo_failure
    (fetched : Js.M (Http.response Document.UserInfo))
    (ls : gmap string string) (stored : option Document.UserInfo)
    (doc : gmap string string) :
  (forall response, fetched = inr response -> Http.ok response = true ->
     exists e, Http.json response = inl e) ->
  UserInfoFix.fetchFreshUserInfo fetched ls stored doc
  = (ls, stored, doc,
     Js.truthy (Js.or_else (Js.or_else (ls !! "authToken") (ls !! "adminToken"))
                           (ls !! "token"))).
Proof.
  intros Hfail. unfold UserInfoFix.fetchFreshUserInfo.
  destruct (Js.truthy _); [|done]. simpl.
  destruct fetched as [e|response]; [done|]. simpl.
  destruct (Http.ok response) eqn:Hok; [|done].
  by destruct (Hfail response eq_refl Hok) as [e ->].
Qed.

(** X18.  [fetchFreshUserInfo], which the page runs every thirty seconds,
    is idempotent: a second run that gets the same answer from the server
    sends the request again when the first did, and leaves the storage, the
    stored profile and the sidebar as the first run left them. *)
Theorem fetchFreshUserInfo_idempotent
    (fetched : Js.M (Http.response Document.UserInfo))
    (ls : gmap string string) (stored : option Document.UserInfo)
    (doc : gmap string string) :
  let first := UserInfoFix.fetchFreshUserInfo fetched ls stored doc in
  UserInfoFix.fetchFreshUserInfo fetched first.1.1.1 first.1.1.2 first.1.2 = first.
Proof.
  intros first.
  destruct (Js.truthy (Js.or_else (Js.or_else (ls !! "authToken") (ls !! "adminToken"))
                                  (ls !! "token"))) eqn:Htoken.
  2: { assert (Hfirst : first = (ls, stored, doc, false)).
       { unfold first, UserInfoFix.fetchFreshUserInfo. by rewrite Htoken. }
       rewrite Hfirst. unfold UserInfoFix.fetchFreshUserInfo. cbn [fst snd].
       by rewrite Htoken. }
  assert (Hfailure :
    (forall response, fetched = inr response -> Http.ok response = true ->
       exists e, Http.json response = inl e) ->
    UserInfoFix.fetchFreshUserInfo fetched first.1.1.1 first.1.1.2 first.1.2 = first).
  { intros Hfail.
    assert (Hfirst : first = (ls, stored, doc, true)).
    { unfold first. by rewrite fetchFreshUserInfo_failure, Htoken. }
    rewrite Hfirst. cbn [fst snd]. by rewrite fetchFreshUserInfo_failure, Htoken. }
  destruct fetched as [e|response] eqn:Hfetched; [by apply Hfailure|].
  destruct (Http.ok response) eqn:Hok.
  2: { apply Hfailure. intros r [= <-]. congruence. }
  destruct (Http.json response) as [e|userInfo] eqn:Hjson.
  { apply Hfailure. intros r [= <-] _. by exists e. }
  clear Hfailure.
  pose proof (fetchFreshUserInfo_success (inr response) response userInfo ls stored doc
                Htoken eq_refl Hok Hjson) as Hfirst.
  fold first in Hfirst. rewrite Hfirst. cbn [fst snd].
  unfold UserInfoFix.freshUserInfo. cbn [fst snd].
  set (username := Js.or_default _ "Admin User").
  set (userRole := Js.or_default _ "Administrator").
  set (userEmail := Js.or_default _ "admin@teamsheldon.tech").
  set (ls1 := <["userEmail" := userEmail]> (<["userRole" := userRole]>
                (<["username" := username]> ls))).
  assert (Htoken1 : Js.truthy (Js.or_else (Js.or_else (ls1 !! "authToken")
                       (ls1 !! "adminToken")) (ls1 !! "token")) = true).
  { unfold ls1. by map_lookup. }
  rewrite (fetchFreshUserInfo_success (inr response) response userInfo ls1 _ _
             Htoken1 eq_refl Hok Hjson).
  assert (Hname : ls1 !! "username" = Some username) by (unfold ls1; by map_lookup).
  assert (Hrole : ls1 !! "userRole" = Some userRole) by (unfold ls1; by map_lookup).
  assert (Hemail : ls1 !! "userEmail" = Some userEmail) by (unfold ls1; by map_lookup).
  unfold UserInfoFix.freshUserInfo. cbn [fst snd].
  rewrite Hname, Hrole, Hemail.
  unfold username at 1 2 3, userRole at 1 2 3, userEmail at 1 2 3.
  rewrite !or_default_stable by done.
  fold username userRole userEmail.
  rewrite updateUserInfoElements_idempotent.
  rewrite (insert_id ls1 "username") by done.
  rewrite (insert_id ls1 "userRole") by done.
  by rewrite (insert_id ls1 "userEmail") by done.
Qed.

(** X29.  [loadUserInfo] of [Dashboard].  The request is sent exactly when
    there is a token in ['authToken'] or in the cookie.  The name, the role
    and the email it writes to the sidebar are never empty.  When the
    request gives an ok response with a JSON body the three values are also
    what it stores under ['username'], ['userRole'] and ['userEmail'], and
    the body is stored as the profile; in every other case the storage and
    the stored profile are as they were. *)
Theorem dashboard_loadUserInfo_shown (cookieToken : option string)
    (fetched : Js.M (Http.response Document.UserInfo))
    (ls : gmap string string) (stored : option Document.UserInfo)
    (doc : gmap string string) :
  let after := DashboardProfile.loadUserInfo cookieToken fetched ls stored doc in
  let fresh userInfo :=
    Js.truthy (Js.or_else (ls !! "authToken") cookieToken) = true
    /\ exists response,
         fetched = inr response /\ Http.ok response = true
         /\ Http.json response = inr userInfo in
  after.2 = Js.truthy (Js.or_else (ls !! "authToken") cookieToken)
  /\ exists username userRole userEmail,
       username <> "" /\ userRole <> "" /\ userEmail <> ""
       /\ after.1.2
          = Document.setElementText "sidebarUserEmail" userEmail
              (Document.setElementText "sidebarUserRole" userRole
                (Document.setElementText "sidebarUserName" username doc))
       /\ (forall userInfo, fresh userInfo ->
              after.1.1.1
              = <["userEmail" := userEmail]> (<["userRole" := userRole]>
                  (<["username" := username]> ls))
              /\ after.1.1.2 = Some userInfo)
       /\ ((forall userInfo, ~ fresh userInfo) ->
              after.1.1.1 = ls /\ after.1.1.2 = stored).
Proof.
  intros after fresh. unfold after, DashboardProfile.loadUserInfo.
  set (U := Js.or_else (ls !! "username") (ls !! "userEmail")).
  set (E := Js.or_else (ls !! "userEmail") (ls !! "username")).
  set (R := Js.or_else (ls !! "userRole") (Some "Administrator")).
  set (cut := if Js.truthy U && Js.includes (default "" U) "@" then _ else (U, E)).
  destruct cut as [username0 userEmail0] eqn:Hcut.
  set (username := if Js.truthy username0 then default "" username0 else "Admin User").
  set (userEmail := if Js.truthy userEmail0 then default "" userEmail0
                    else "admin@teamsheldon.tech").
  set (userRole := if Js.truthy R then default "" R else "Administrator").
  assert (Hname : username <> "").
  { unfold username. destruct (Js.truthy username0) eqn:Ht; [by apply truthy_nonempty|done]. }
  assert (Hemail : userEmail <> "").
  { unfold userEmail. destruct (Js.truthy userEmail0) eqn:Ht; [by apply truthy_nonempty|done]. }
  assert (Hrole : userRole <> "").
  { unfold userRole. destruct (Js.truthy R) eqn:Ht; [by apply truthy_nonempty|done]. }
  clearbody username userEmail userRole. clear Hcut.
  unfold fresh.
  destruct (Js.truthy (Js.or_else (ls !! "authToken") cookieToken)) eqn:Htoken.
  2: { cbn [fst snd]. split; [done|]. exists username, userRole, userEmail.
       repeat (split; [done|]). split; [by intros userInfo [? _]|done]. }
  destruct fetched as [e|response]; cbn [Js.bind].
  { cbn [fst snd]. split; [done|]. exists username, userRole, userEmail.
    repeat (split; [done|]). split; [by intros userInfo (_ & ? & ? & _)|done]. }
  destruct (Http.ok response) eqn:Hok.
  2: { cbn [Js.ret fst snd]. split; [done|]. exists username, userRole, userEmail.
       repeat (split; [done|]).
       split; [intros userInfo (_ & r & [= <-] & Hok' & _); congruence|done]. }
  destruct (Http.json response) as [e|userInfo] eqn:Hjson; cbn [Js.bind Js.ret fst snd].
  { split; [done|]. exists username, userRole, userEmail.
    repeat (split; [done|]).
    split; [intros userInfo (_ & r & [= <-] & _ & Hjson'); congruence|done]. }
  split; [done|].
  exists (Js.or_default (Js.or_else (Document.username userInfo) (Document.name userInfo))
                        username),
         (Js.or_default (Js.or_else (Document.role userInfo) (Document.userRole userInfo))
                        userRole),
         (Js.or_default (Js.or_else (Document.email userInfo) (Document.userEmail userInfo))
                        userEmail).
  split; [by apply or_default_nonempty|]. split; [by apply or_default_nonempty|].
  split; [by apply or_default_nonempty|]. split; [done|].
  split.
  - intros userInfo' (_ & r & [= <-] & _ & Hjson'). split; [done|]. congruence.
  - intros Hnot. destruct (Hnot userInfo). split; [done|]. by exists response.
Qed.

End SidebarProfile.

(** ** Scouting.js: sorting, paging and the details of a team *)

Section TeamPages.

Import ScoutingManager.

Context `{Host}.

Lemma getFieldValue_same_kind (f : string) (a b : team) :
  Js.same_kind (getFieldValue a f) (getFieldValue b f).
Proof. unfold getFieldValue. by repeat destruct (String.eqb f _). Qed.

(** The comparator's order is [ordered], for every field. *)
Lemma compareTeams_ordered (f : string) (d : direction) (a b : team) :
  Js.before (compareTeams f d) a b <-> ordered f d a b.
Proof.
  unfold Js.before, compareTeams, ordered.
  pose proof (le_not_gt _ _ (getFieldValue_same_kind f a b)) as Hab.
  pose proof (le_not_gt _ _ (getFieldValue_same_kind f b a)) as Hba.
  pose proof (lt_le (getFieldValue a f) (getFieldValue b f)) as Hlt1.
  pose proof (lt_le (getFieldValue b f) (getFieldValue a f)) as Hlt2.
  destruct (Js.lt (getFieldValue a f) (getFieldValue b f)),
           (Js.lt (getFieldValue b f) (getFieldValue a f)), d; simpl in *;
    rewrite ?Hab, ?Hba; try (specialize (Hlt1 eq_refl)); try (specialize (Hlt2 eq_refl));
    split; try done; try lia; congruence.
Qed.

Lemma compareTeams_consistent (f : string) (d : direction) (l : list team) :
  Js.consistent_on (compareTeams f d) l.
Proof.
  split.
  - intros x y z _ _ _. rewrite !compareTeams_ordered.
    destruct d; simpl; eauto using le_trans.
  - intros x y _ _. rewrite !compareTeams_ordered.
    destruct d; simpl; apply le_total, getFieldValue_same_kind.
Qed.

(** X19.  [sortTeams] with a field: [filteredTeams] becomes a permutation
    of what it was, ordered by the field in the direction the call settles
    on, ascending for a field that was not the sort field and the reverse of
    the current direction for the one that was; [allTeams] is as it was.
    This holds for every field and every list of teams: [getFieldValue]
    gives a number for each team or a string for each. *)
Theorem sortTeams_sorted (f : string) (updateDisplay : bool) (pg : page) (st : state) :
  f <> "" ->
  let st' := (sortTeams (Some f) updateDisplay pg st).2 in
  filteredTeams st' ≡ₚ filteredTeams st
  /\ StronglySorted (ordered f (sort_direction (currentSort st'))) (filteredTeams st')
  /\ sort_field (currentSort st') = f
  /\ sort_direction (currentSort st')
     = (if String.eqb (sort_field (currentSort st)) f
        then (if decide (sort_direction (currentSort st) = asc) then desc else asc)
        else asc)
  /\ allTeams st' = allTeams st.
Proof.
  intros Hf. unfold sortTeams. simpl.
  apply String.eqb_neq in Hf. rewrite Hf. simpl.
  set (d := if String.eqb (sort_field (currentSort st)) f then _ else asc).
  assert (Hsorted : StronglySorted (ordered f d)
                      (Js.sort (compareTeams f d) (filteredTeams st))).
  { apply (StronglySorted_weaken (Js.before (compareTeams f d))).
    - intros x y _ _. apply compareTeams_ordered.
    - apply sort_sorted, compareTeams_consistent. }
  destruct updateDisplay; simpl;
    (split; [apply sort_Permutation|split; [exact Hsorted|done]]).
Qed.

Lemma slice_page {A} (n p : nat) (l : list A) :
  Js.slice (p * n) (p * n + n) l = take n (drop (p * n) l).
Proof. unfold Js.slice. f_equal. lia. Qed.

Lemma ceil_covers (len n : nat) : 0 < n -> len <= (len + n - 1) / n * n.
Proof.
  intros Hn.
  pose proof (Nat.div_mod_eq (len + n - 1) n) as Hdiv.
  pose proof (Nat.mod_upper_bound (len + n - 1) n) as Hmod.
  nia.
Qed.

Lemma ceil_least (len n p : nat) : 0 < n -> p < (len + n - 1) / n -> p * n < len.
Proof.
  intros Hn Hp.
  pose proof (Nat.div_mod_eq (len + n - 1) n) as Hdiv.
  nia.
Qed.

(** What [renderTeams] leaves in a grid: the cards of the teams of the
    current page. *)
Lemma cards_renderTeams (pg : page) (st : state) :
  is_Some (teamsGrid pg) ->
  cards (renderTeams pg st)
  = teamCard <$> take (teamsPerPage st)
                      (drop ((currentPage st - 1) * teamsPerPage st) (filteredTeams st)).
Proof.
  intros [g Hg]. unfold renderTeams, cards. rewrite Hg.
  destruct (filteredTeams st) as [|t l] eqn:Hteams; simpl.
  - by rewrite drop_nil, take_nil.
  - by rewrite slice_page.
Qed.

Lemma cards_updatePaginationInfo (pg : page) (st : state) :
  cards (updatePaginationInfo pg st) = cards pg.
Proof.
  unfold cards. by destruct (updatePaginationInfo_page pg st) as [_ ->].
Qed.

(** X20.  The pages of the grid cover the filtered teams: the cards that
    [renderTeams] draws for the pages 1 to [totalPages], one page after the
    other, are the cards of [filteredTeams] in order, each team once; and no
    page has more than [teamsPerPage] cards. *)
Theorem pages_cover (pg : page) (st : state) :
  0 < teamsPerPage st -> is_Some (teamsGrid pg) ->
  concat ((fun p => cards (renderTeams pg (set_currentPage p st)))
          <$> seq 1 (totalPages st))
  = teamCard <$> filteredTeams st
  /\ forall p, length (cards (renderTeams pg (set_currentPage p st))) <= teamsPerPage st.
Proof.
  intros Hn Hgrid. split.
  - assert (Hpages : forall k,
      concat ((fun p => cards (renderTeams pg (set_currentPage p st))) <$> seq 1 k)
      = teamCard <$> take (k * teamsPerPage st) (filteredTeams st)).
    { induction k as [|k IH]; [done|].
      rewrite seq_S, fmap_app, concat_app, IH. simpl.
      rewrite app_nil_r, cards_renderTeams by done. simpl.
      rewrite Nat.sub_0_r, <- fmap_app, take_take_drop. do 2 f_equal. lia. }
    rewrite Hpages, take_ge; [done|].
    unfold totalPages.
    pose proof (ceil_covers (length (filteredTeams st)) (teamsPerPage st) Hn). nia.
  - intros p. rewrite cards_renderTeams by done. simpl.
    rewrite length_fmap, length_take. lia.
Qed.

Lemma set_currentPage_back (n : nat) (st : state) :
  set_currentPage (currentPage st) (set_currentPage n st) = st.
Proof. by destruct st. Qed.

(** X21.  [nextPage] before the last page moves to the next page and draws
    it: the cards are those of the next [teamsPerPage] teams, and there is at
    least one, so that "Next" never leads to an empty grid; [previousPage]
    after it leads back to the state it started from.  On the last page
    [nextPage] does nothing. *)
Theorem nextPage_shows_next (pg : page) (st : state) :
  0 < teamsPerPage st -> 1 <= currentPage st -> is_Some (teamsGrid pg) ->
  let after := nextPage pg st in
  (currentPage st < totalPages st ->
     after.2 = set_currentPage (currentPage st + 1) st
     /\ cards after.1
        = teamCard <$> take (teamsPerPage st)
                            (drop (currentPage st * teamsPerPage st) (filteredTeams st))
     /\ cards after.1 <> []
     /\ (previousPage after.1 after.2).2 = st)
  /\ (totalPages st <= currentPage st -> after = (pg, st)).
Proof.
  intros Hn Hpage Hgrid after. unfold after, nextPage, totalPages.
  set (pages := (length (filteredTeams st) + teamsPerPage st - 1) / teamsPerPage st).
  split.
  - intros Hmore.
    assert (Hlt : currentPage st < pages) by lia.
    apply Nat.ltb_lt in Hlt as Hltb. rewrite Hltb. cbn [fst snd].
    rewrite cards_updatePaginationInfo, cards_renderTeams by done. simpl.
    replace (currentPage st + 1 - 1) with (currentPage st) by lia.
    split; [done|]. split; [done|]. split.
    + pose proof (ceil_least _ _ _ Hn Hlt) as Hleast.
      intros Hnil. apply (f_equal length) in Hnil.
      rewrite length_fmap, length_take, length_drop in Hnil. simpl in Hnil. lia.
    + unfold previousPage. simpl.
      assert (Hback : (1 <? currentPage st + 1) = true) by (apply Nat.ltb_lt; lia).
      rewrite Hback. simpl.
      replace (currentPage st + 1 - 1) with (currentPage st) by lia.
      by destruct st.
  - intros Hlast.
    assert (Hge : (currentPage st <? pages) = false) by (apply Nat.ltb_ge; lia).
    by rewrite Hge.
Qed.

(** X22.  The pager's buttons and the pager agree: after
    [updatePaginationInfo] the "next" button is disabled exactly when
    [nextPage] would leave the state as it is, and the "previous" button
    exactly when [previousPage] would. *)
Theorem pager_buttons_agree (pg : page) (st : state) :
  0 < teamsPerPage st -> 1 <= currentPage st ->
  is_Some (texts pg !! "prevPage") -> is_Some (texts pg !! "nextPage") ->
  let pg' := updatePaginationInfo pg st in
  (exists b, disabled pg' !! "nextPage" = Some b
             /\ (b = true <-> (nextPage pg' st).2 = st))
  /\ (exists b, disabled pg' !! "prevPage" = Some b
                /\ (b = true <-> (previousPage pg' st).2 = st)).
Proof.
  intros Hn Hpage [prev Hprev] [next Hnext] pg'.
  assert (Hdisabled :
    disabled pg' !! "nextPage" = Some (totalPages st <=? currentPage st)
    /\ disabled pg' !! "prevPage" = Some (currentPage st <=? 1)).
  { unfold pg', updatePaginationInfo, setDisabled. simpl.
    rewrite !lookup_setElementText, !decide_False, Hprev by done. simpl.
    rewrite !lookup_setElementText, !decide_False, Hnext by done. simpl.
    by map_lookup. }
  destruct Hdisabled as [Hnextb Hprevb]. split.
  - eexists. split; [exact Hnextb|].
    unfold nextPage, totalPages.
    set (pages := (length (filteredTeams st) + teamsPerPage st - 1) / teamsPerPage st).
    destruct (Nat.ltb_spec (currentPage st) pages) as [Hlt|Hge]; cbn [snd].
    + split.
      * intros Hb%Nat.leb_le. lia.
      * intros Hst%(f_equal currentPage). simpl in Hst. lia.
    + split; [done|]. intros _. apply Nat.leb_le. lia.
  - eexists. split; [exact Hprevb|].
    unfold previousPage.
    destruct (Nat.ltb_spec 1 (currentPage st)) as [Hlt|Hge]; cbn [snd].
    + split.
      * intros Hb%Nat.leb_le. lia.
      * intros Hst%(f_equal currentPage). simpl in Hst. lia.
    + split; [done|]. intros _. apply Nat.leb_le. lia.
Qed.

Lemma applyFilters_page (pg : page) (st : state) :
  currentPage (applyFilters pg st).2 = 1.
Proof.
  unfold applyFilters, sortTeams. simpl.
  by destruct (negb (negb (String.eqb (sort_field (currentSort st)) ""))).
Qed.

(** X23.  [resetFilters] shows every team: with the four controls emptied,
    as far as the page has them, [applyFilters] keeps all of [allTeams], and
    the page is 1. *)
Theorem resetFilters_shows_all (pg : page) (st : state) :
  toLowerCase "" = "" ->
  let st' := (resetFilters pg st).2 in
  filteredTeams st' ≡ₚ allTeams st /\ allTeams st' = allTeams st /\ currentPage st' = 1.
Proof.
  intros Hlower st'. unfold st', resetFilters.
  set (pg' := setElementText "dateFilter" "" _).
  assert (Hempty : forall k,
    k = "teamSearch" \/ k = "reliabilityFilter" \/ k = "scoutFilter" \/ k = "dateFilter" ->
    texts pg' !! k = Some "" \/ texts pg' !! k = None).
  { intros k Hk. unfold pg'. simpl. rewrite !lookup_setElementText.
    destruct Hk as [-> | [-> | [-> | ->]]]; rewrite ?decide_False by done;
      rewrite decide_True by done;
      match goal with |- context [texts pg !! ?k] => destruct (texts pg !! k) end;
      simpl; auto. }
  destruct (applyFilters_draws pg' st) as (st2 & Happly & Hfiltered & Hall).
  rewrite applyFilters_page. rewrite Happly. cbn [snd].
  split; [|done]. rewrite Hfiltered.
  erewrite filter_ext_Forall; [by rewrite filter_all|].
  apply Forall_forall. intros t _. unfold teamCallback.
  pose proof (Hempty "teamSearch" ltac:(auto)) as Hsearch.
  pose proof (Hempty "reliabilityFilter" ltac:(auto)) as Hreliability.
  pose proof (Hempty "scoutFilter" ltac:(auto)) as Hscout.
  pose proof (Hempty "dateFilter" ltac:(auto)) as Hdate.
  destruct Hsearch as [-> | ->], Hreliability as [-> | ->], Hscout as [-> | ->],
           Hdate as [-> | ->]; simpl; by rewrite ?Hlower.
Qed.

End TeamPages.

Lemma sortTeams_sorted_witness :
  let team (n : Z) :=
    {| ScoutingManager.id := None; ScoutingManager.teamNumber := Some n;
       ScoutingManager.number := None; ScoutingManager.teamName := None;
       ScoutingManager.name := None; ScoutingManager.scoutName := None;
       ScoutingManager.scout := None; ScoutingManager.scoutedBy := None;
       ScoutingManager.createdBy := None; ScoutingManager.reliability := None;
       ScoutingManager.date := None; ScoutingManager.createdAt := None;
       ScoutingManager.timestamp := None |} in
  let teams := [team 1678%Z; team 254%Z; team 971%Z] in
  let st :=
    {| ScoutingManager.currentPage := 1; ScoutingManager.teamsPerPage := 2;
       ScoutingManager.allTeams := teams; ScoutingManager.filteredTeams := teams;
       ScoutingManager.currentSort :=
         ScoutingManager.currentSort ScoutingManager.new |} in
  let pg := {| ScoutingManager.texts := ∅; ScoutingManager.teamsGrid := None;
               ScoutingManager.options := ∅; ScoutingManager.disabled := ∅ |} in
  let st' := (ScoutingManager.sortTeams (H := AsciiHost.host 0) (Some "teamNumber") true
                pg st).2 in
  ScoutingManager.filteredTeams st' ≡ₚ ScoutingManager.filteredTeams st
  /\ StronglySorted
       (ScoutingManager.ordered "teamNumber"
          (ScoutingManager.sort_direction (ScoutingManager.currentSort st')))
       (ScoutingManager.filteredTeams st')
  /\ ScoutingManager.sort_field (ScoutingManager.currentSort st') = "teamNumber"
  /\ ScoutingManager.sort_direction (ScoutingManager.currentSort st')
     = (if String.eqb (ScoutingManager.sort_field (ScoutingManager.currentSort st))
                      "teamNumber"
        then (if decide (ScoutingManager.sort_direction (ScoutingManager.currentSort st)
                         = ScoutingManager.asc)
              then ScoutingManager.desc else ScoutingManager.asc)
        else ScoutingManager.asc)
  /\ ScoutingManager.allTeams st' = ScoutingManager.allTeams st.
Proof.
  intros team teams st pg.
  apply (sortTeams_sorted (H := AsciiHost.host 0) "teamNumber" true pg st).
  discriminate.
Defined.

Lemma pages_cover_witness :
  let team (n : Z) :=
    {| ScoutingManager.id := None; ScoutingManager.teamNumber := Some n;
       ScoutingManager.number := None; ScoutingManager.teamName := None;
       ScoutingManager.name := None; ScoutingManager.scoutName := None;
       ScoutingManager.scout := None; ScoutingManager.scoutedBy := None;
       ScoutingManager.createdBy := None; ScoutingManager.reliability := None;
       ScoutingManager.date := None; ScoutingManager.createdAt := None;
       ScoutingManager.timestamp := None |} in
  let teams := [team 1678%Z; team 254%Z; team 971%Z] in
  let st :=
    {| ScoutingManager.currentPage := 1; ScoutingManager.teamsPerPage := 2;
       ScoutingManager.allTeams := teams; ScoutingManager.filteredTeams := teams;
       ScoutingManager.currentSort :=
         ScoutingManager.currentSort ScoutingManager.new |} in
  let pg := {| ScoutingManager.texts := ∅;
               ScoutingManager.teamsGrid := Some ScoutingManager.InitialMarkup;
               ScoutingManager.options := ∅; ScoutingManager.disabled := ∅ |} in
  concat ((fun p => ScoutingManager.cards
                      (ScoutingManager.renderTeams (H := AsciiHost.host 0) pg
                         (ScoutingManager.set_currentPage p st)))
          <$> seq 1 (ScoutingManager.totalPages st))
  = ScoutingManager.teamCard (H := AsciiHost.host 0) <$> ScoutingManager.filteredTeams st
  /\ forall p, length (ScoutingManager.cards
                         (ScoutingManager.renderTeams (H := AsciiHost.host 0) pg
                            (ScoutingManager.set_currentPage p st)))
               <= ScoutingManager.teamsPerPage st.
Proof.
  intros team teams st pg.
  apply (pages_cover (H := AsciiHost.host 0) pg st).
  - simpl. lia.
  - by eexists.
Defined.

Lemma nextPage_shows_next_witness :
  let team (n : Z) :=
    {| ScoutingManager.id := None; ScoutingManager.teamNumber := Some n;
       ScoutingManager.number := None; ScoutingManager.teamName := None;
       ScoutingManager.name := None; ScoutingManager.scoutName := None;
       ScoutingManager.scout := None; ScoutingManager.scoutedBy := None;
       ScoutingManager.createdBy := None; ScoutingManager.reliability := None;
       ScoutingManager.date := None; ScoutingManager.createdAt := None;
       ScoutingManager.timestamp := None |} in
  let teams := [team 1678%Z; team 254%Z; team 971%Z] in
  let st :=
    {| ScoutingManager.currentPage := 1; ScoutingManager.teamsPerPage := 2;
       ScoutingManager.allTeams := teams; ScoutingManager.filteredTeams := teams;
       ScoutingManager.currentSort :=
         ScoutingManager.currentSort ScoutingManager.new |} in
  let pg := {| ScoutingManager.texts := ∅;
               ScoutingManager.teamsGrid := Some ScoutingManager.InitialMarkup;
               ScoutingManager.options := ∅; ScoutingManager.disabled := ∅ |} in
  let after := ScoutingManager.nextPage (H := AsciiHost.host 0) pg st in
  (ScoutingManager.currentPage st < ScoutingManager.totalPages st ->
     after.2 = ScoutingManager.set_currentPage (ScoutingManager.currentPage st + 1) st
     /\ ScoutingManager.cards after.1
        = ScoutingManager.teamCard (H := AsciiHost.host 0)
          <$> take (ScoutingManager.teamsPerPage st)
                   (drop (ScoutingManager.currentPage st * ScoutingManager.teamsPerPage st)
                         (ScoutingManager.filteredTeams st))
     /\ ScoutingManager.cards after.1 <> []
     /\ (ScoutingManager.previousPage (H := AsciiHost.host 0) after.1 after.2).2 = st)
  /\ (ScoutingManager.totalPages st <= ScoutingManager.currentPage st -> after = (pg, st)).
Proof.
  intros team teams st pg.
  apply (nextPage_shows_next (H := AsciiHost.host 0) pg st).
  - simpl. lia.
  - simpl. lia.
  - by eexists.
Defined.

Lemma pager_buttons_agree_witness :
  let team (n : Z) :=
    {| ScoutingManager.id := None; ScoutingManager.teamNumber := Some n;
       ScoutingManager.number := None; ScoutingManager.teamName := None;
       ScoutingManager.name := None; ScoutingManager.scoutName := None;
       ScoutingManager.scout := None; ScoutingManager.scoutedBy := None;
       ScoutingManager.createdBy := None; ScoutingManager.reliability := None;
       ScoutingManager.date := None; ScoutingManager.createdAt := None;
       ScoutingManager.timestamp := None |} in
  let teams := [team 1678%Z; team 254%Z; team 971%Z] in
  let st :=
    {| ScoutingManager.currentPage := 1; ScoutingManager.teamsPerPage := 2;
       ScoutingManager.allTeams := teams; ScoutingManager.filteredTeams := teams;
       ScoutingManager.currentSort :=
         ScoutingManager.currentSort ScoutingManager.new |} in
  let pg := {| ScoutingManager.texts := {[ "prevPage" := ""; "nextPage" := "" ]};
               ScoutingManager.teamsGrid := Some ScoutingManager.InitialMarkup;
               ScoutingManager.options := ∅; ScoutingManager.disabled := ∅ |} in
  let pg' := ScoutingManager.updatePaginationInfo pg st in
  (exists b, ScoutingManager.disabled pg' !! "nextPage" = Some b
             /\ (b = true <-> (ScoutingManager.nextPage (H := AsciiHost.host 0) pg' st).2 = st))
  /\ (exists b, ScoutingManager.disabled pg' !! "prevPage" = Some b
                /\ (b = true
                    <-> (ScoutingManager.previousPage (H := AsciiHost.host 0) pg' st).2 = st)).
Proof.
  intros team teams st pg.
  apply (pager_buttons_agree (H := AsciiHost.host 0) pg st).
  - simpl. lia.
  - simpl. lia.
  - by eexists.
  - by eexists.
Defined.

Lemma resetFilters_shows_all_witness :
  let team (n : Z) :=
    {| ScoutingManager.id := None; ScoutingManager.teamNumber := Some n;
       ScoutingManager.number := None; ScoutingManager.teamName := None;
       ScoutingManager.name := None; ScoutingManager.scoutName := None;
       ScoutingManager.scout := None; ScoutingManager.scoutedBy := None;
       ScoutingManager.createdBy := None; ScoutingManager.reliability := None;
       ScoutingManager.date := None; ScoutingManager.createdAt := None;
       ScoutingManager.timestamp := None |} in
  let teams := [team 1678%Z; team 254%Z; team 971%Z] in
  let st :=
    {| ScoutingManager.currentPage := 1; ScoutingManager.teamsPerPage := 2;
       ScoutingManager.allTeams := teams; ScoutingManager.filteredTeams := teams;
       ScoutingManager.currentSort :=
         ScoutingManager.currentSort ScoutingManager.new |} in
  let pg := {| ScoutingManager.texts := {[ "teamSearch" := "254" ]};
               ScoutingManager.teamsGrid := Some ScoutingManager.InitialMarkup;
               ScoutingManager.options := ∅; ScoutingManager.disabled := ∅ |} in
  let st' := (ScoutingManager.resetFilters (H := AsciiHost.host 0) pg st).2 in
  ScoutingManager.filteredTeams st' ≡ₚ ScoutingManager.allTeams st
  /\ ScoutingManager.allTeams st' = ScoutingManager.allTeams st
  /\ ScoutingManager.currentPage st' = 1.
Proof.
  intros team teams st pg.
  apply (resetFilters_shows_all (H := AsciiHost.host 0) pg st).
  reflexivity.
Defined.

Section TeamDetails.

Import ScoutingManager.

Context `{Host}.

(** X24.  [loadTeams] when no list of teams comes back (the fetch rejects,
    the status is not ok, the body is not JSON, or the JSON is not an array):
    the teams loaded before are dropped, nothing is left after the filters,
    and a page with the grid shows the "No teams found" box and a count of
    ["0 teams"]. *)
Theorem loadTeams_failure (now : Z)
    (fetched : Js.M (Http.response (option (list team)))) (pg : page) (st : state) :
  (forall response teams, fetched = inr response -> Http.ok response = true ->
     Http.json response <> inr (Some teams)) ->
  let after := loadTeams now fetched pg st in
  allTeams after.2 = [] /\ filteredTeams after.2 = []
  /\ (is_Some (teamsGrid pg) -> teamsGrid after.1 = Some NoTeamsFound)
  /\ (is_Some (teamsGrid pg) -> is_Some (texts pg !! "teamsCount") ->
      texts after.1 !! "teamsCount" = Some "0 teams").
Proof.
  intros Hfail after. unfold after, loadTeams.
  set (st1 := match Js.try_catch _ _ with inr st' => st' | inl _ => st end).
  assert (Hst1 : st1 = set_allTeams [] st).
  { unfold st1. destruct fetched as [e|response]; [done|]. simpl.
    destruct (Http.ok response) eqn:Hok; [|done].
    destruct (Http.json response) as [e|[teams|]] eqn:Hjson; try done.
    by destruct (Hfail response teams eq_refl Hok). }
  rewrite Hst1. clear st1 Hst1. set (st1 := set_allTeams [] st).
  destruct (populateScoutsFilter_page pg st1) as [Hcount1 Hgrid1].
  destruct (applyFilters_draws (populateScoutsFilter pg st1) st1)
    as (st2 & -> & Hfiltered & Hall).
  apply Permutation_nil_r in Hfiltered. cbn [fst snd].
  destruct (updateStats_page now
    (updatePaginationInfo (renderTeams (populateScoutsFilter pg st1) st2) st2) st2)
    as [-> ->].
  destruct (updatePaginationInfo_page (renderTeams (populateScoutsFilter pg st1) st2) st2)
    as [-> ->].
  pose proof (renderTeams_none (populateScoutsFilter pg st1) st2 Hfiltered) as Hrender.
  rewrite Hgrid1 in Hrender.
  split; [done|]. split; [done|].
  split.
  - intros [g Hg]. rewrite Hg in Hrender. by destruct Hrender as [-> _].
  - intros [g Hg] Hcount. rewrite Hg in Hrender. destruct Hrender as [_ ->].
    apply setElementText_lookup_eq. by rewrite Hcount1.
Qed.




(** The id of a card drawn for a team without an [id] of its own is its
    number, or [undefined]: such an id is always read back as written. *)
Lemma teamKey_number_safe (t : team) :
  Js.truthy (id t) = false -> attributeSafe (teamKey t) = true.
Proof.
  intros Hid. unfold teamKey. rewrite Hid.
  destruct (teamNumber t) as [n|]; [|done].
  assert (Hdigits : forall d, attributeSafe (NilEmpty.string_of_uint d) = true).
  { induction d; [done|exact IHd..]. }
  assert (Hnumber : forall d, attributeSafe (NilZero.string_of_uint d) = true).
  { intros d. destruct d; [done|apply Hdigits..]. }
  unfold Js.String_of, NilZero.string_of_int.
  destruct (Z.to_int n) as [d|d]; [apply Hnumber|].
  exact (Hnumber d).
Qed.


End TeamDetails.

Lemma loadTeams_failure_witness :
  let response : Http.response (option (list ScoutingManager.team)) :=
    {| Http.status := 503; Http.statusText := "Service Unavailable";
       Http.json := Js.throw "Unexpected token"; Http.text := Js.ret "" |} in
  let pg := {| ScoutingManager.texts := {[ "teamsCount" := "12 teams" ]};
               ScoutingManager.teamsGrid := Some ScoutingManager.InitialMarkup;
               ScoutingManager.options := ∅; ScoutingManager.disabled := ∅ |} in
  let after := ScoutingManager.loadTeams (H := AsciiHost.host 0) 0 (Js.ret response) pg
                 ScoutingManager.new in
  ScoutingManager.allTeams after.2 = [] /\ ScoutingManager.filteredTeams after.2 = []
  /\ (is_Some (ScoutingManager.teamsGrid pg) ->
      ScoutingManager.teamsGrid after.1 = Some ScoutingManager.NoTeamsFound)
  /\ (is_Some (ScoutingManager.teamsGrid pg) ->
      is_Some (ScoutingManager.texts pg !! "teamsCount") ->
      ScoutingManager.texts after.1 !! "teamsCount" = Some "0 teams").
Proof.
  intros response pg.
  apply (loadTeams_failure (H := AsciiHost.host 0) 0 (Js.ret response) pg
           ScoutingManager.new).
  intros r teams [= <-] Hok. discriminate Hok.
Defined.


(** ** Activity.js: the pages of the log table *)

Section LogPages.

Import ActivityLogsManager.

(** What [displayLogs] draws, for a state whose [totalLogs] is the number of
    filtered logs: the rows of the current page; with rows, a counter that
    numbers the first and the last of them; without, the "No Activity Found"
    row and the counter as it was. *)
Lemma displayLogs_page (st : state) :
  0 < logsPerPage st -> 1 <= currentPage st ->
  totalLogs st = length (filteredLogs st) ->
  let first := (currentPage st - 1) * logsPerPage st in
  let rows := take (logsPerPage st) (drop first (filteredLogs st)) in
  match rows with
  | [] =>
      logsTableBody (displayLogs st) = NoActivityRow
      /\ logsCount (displayLogs st) = logsCount st
  | _ =>
      logsTableBody (displayLogs st) = LogRows rows
      /\ logsCount (displayLogs st)
         = CountShowing (first + 1) (first + length rows) (length (filteredLogs st))
  end.
Proof.
  intros Hn Hpage Htotal first rows. unfold displayLogs, Js.slice.
  fold first. replace (first + logsPerPage st - first) with (logsPerPage st) by lia.
  fold rows. destruct rows as [|r rows'] eqn:Hrows; [done|].
  assert (Hfirst : first < length (filteredLogs st)).
  { destruct (Nat.lt_ge_cases first (length (filteredLogs st))) as [Hlt|Hge]; [done|].
    unfold rows in Hrows. by rewrite drop_ge, take_nil in Hrows. }
  split; [done|]. rewrite Htotal, <- Hrows. unfold rows.
  rewrite length_take, length_drop. simpl. f_equal. lia.
Qed.

(** X26.  After [applyFilters] the counter and the table agree:
    [totalLogs] is the number of logs that passed the filters; when there
    are some, the table shows the first [logsPerPage] of them and the counter
    reads "Showing 1-b of n" with [b] the number of rows and [n] the number
    of logs; when there are none, the table shows "No Activity Found" and
    the counter keeps the text it had. *)
Theorem applyFilters_counter `{Host} (c : controls) (st st' : state) :
  0 < logsPerPage st -> applyFilters c st = inr st' ->
  totalLogs st' = length (filteredLogs st')
  /\ currentPage st' = 1
  /\ match filteredLogs st' with
     | [] => logsTableBody st' = NoActivityRow /\ logsCount st' = logsCount st
     | _ =>
         let rows := take (logsPerPage st) (filteredLogs st') in
         logsTableBody st' = LogRows rows
         /\ logsCount st' = CountShowing 1 (length rows) (length (filteredLogs st'))
     end.
Proof.
  intros Hn Happly. unfold applyFilters in Happly.
  destruct (if Js.truthy (trim <$> ipAddressInput c) then _ else _) as [e|filtered];
    [done|].
  cbn [Js.bind Js.ret] in Happly. injection Happly as <-.
  set (filtered' := if Js.truthy (statusSelect c) then _ else filtered).
  match goal with |- context [displayLogs ?s] => set (st0 := s) end.
  assert (Hst0 : logsPerPage st0 = logsPerPage st /\ currentPage st0 = 1
                 /\ totalLogs st0 = length (filteredLogs st0)
                 /\ logsCount st0 = logsCount st).
  { unfold st0. simpl. by rewrite sort_length. }
  destruct Hst0 as (Hper & Hpage & Htotal & Hcount). clearbody st0.
  destruct (displayLogs_fields st0) as (Hlogs & _ & _ & Hpage' & Htotal').
  rewrite Hlogs, Hpage', Htotal'. split; [done|]. split; [done|].
  pose proof (displayLogs_page st0) as Hdisplay. cbv zeta in Hdisplay.
  rewrite Hper, Hpage, Hcount in Hdisplay. specialize (Hdisplay Hn (le_n 1) Htotal).
  change ((1 - 1) * logsPerPage st) with 0 in Hdisplay.
  rewrite drop_0 in Hdisplay.
  destruct (filteredLogs st0) as [|l logs] eqn:Hfiltered.
  - by rewrite take_nil in Hdisplay.
  - destruct (logsPerPage st) as [|n] eqn:Hlpp; [lia|]. exact Hdisplay.
Qed.

(** X27.  [nextPage] on the log table, for a state whose [totalLogs] is the
    number of filtered logs: before the last page it moves to the next page,
    which has at least one row: the next [logsPerPage] logs, numbered by the
    counter; on the last page it does nothing.  [previousPage] after a
    [nextPage] that moved leads back to the page it started from. *)
Theorem nextPage_shows_rows (st : state) :
  0 < logsPerPage st -> 1 <= currentPage st ->
  totalLogs st = length (filteredLogs st) ->
  let st' := nextPage st in
  (currentPage st < totalPages st ->
     let first := currentPage st * logsPerPage st in
     let rows := take (logsPerPage st) (drop first (filteredLogs st)) in
     currentPage st' = currentPage st + 1
     /\ rows <> []
     /\ logsTableBody st' = LogRows rows
     /\ logsCount st'
        = CountShowing (first + 1) (first + length rows) (length (filteredLogs st))
     /\ currentPage (previousPage st') = currentPage st)
  /\ (totalPages st <= currentPage st -> st' = st).
Proof.
  intros Hn Hpage Htotal st'. unfold st', nextPage. split.
  - intros Hmore. apply Nat.ltb_lt in Hmore as Hltb. rewrite Hltb.
    set (st1 := set_page (currentPage st + 1) (logsPerPage st) st).
    destruct (displayLogs_fields st1) as (Hlogs & _ & _ & Hpage1 & Htotal1).
    pose proof (displayLogs_page st1 Hn) as Hdisplay.
    unfold st1 at 1 2 in Hdisplay. simpl in Hdisplay.
    specialize (Hdisplay ltac:(lia) Htotal).
    replace (currentPage st + 1 - 1) with (currentPage st) in Hdisplay by lia.
    set (first := currentPage st * logsPerPage st) in *.
    set (rows := take (logsPerPage st) (drop first (filteredLogs st))) in *.
    assert (Hrows : rows <> []).
    { unfold totalPages in Hmore. rewrite Htotal in Hmore.
      assert (first < length (filteredLogs st)).
      { unfold first.
        pose proof (Nat.div_mod_eq (length (filteredLogs st) + logsPerPage st - 1)
                      (logsPerPage st)). nia. }
      intros Hnil. apply (f_equal length) in Hnil.
      unfold rows in Hnil. rewrite length_take, length_drop in Hnil. simpl in Hnil. lia. }
    split; [by rewrite Hpage1|]. split; [done|].
    destruct rows as [|r rows'] eqn:Heq; [done|].
    destruct Hdisplay as [Hbody Hcount]. split; [done|]. split; [done|].
    unfold previousPage. rewrite Hpage1. simpl.
    assert (Hback : (1 <? currentPage st + 1) = true) by (apply Nat.ltb_lt; lia).
    rewrite Hback.
    match goal with |- currentPage (displayLogs ?s) = _ =>
      destruct (displayLogs_fields s) as (_ & _ & _ & -> & _) end.
    simpl. lia.
  - intros Hlast.
    assert (Hge : (currentPage st <? totalPages st) = false) by (apply Nat.ltb_ge; lia).
    by rewrite Hge.
Qed.

End LogPages.

Lemma applyFilters_counter_witness :
  let entry (t : Z) (s : string) :=
    {| ActivityLogsManager.id := "log_0"; ActivityLogsManager.timestamp := Some t;
       ActivityLogsManager.ipAddress := Some "10.0.0.1";
       ActivityLogsManager.username := "ada"; ActivityLogsManager.status := s;
       ActivityLogsManager.location := "" |} in
  let c := {| ActivityLogsManager.dateFilter := None;
              ActivityLogsManager.ipAddressInput := Some "";
              ActivityLogsManager.statusSelect := Some "failed" |} in
  let st := ActivityLogsManager.set_allLogs
              [entry 1000%Z "success"; entry 2000%Z "failed"; entry 3000%Z "failed"]
              ActivityLogsManager.new in
  let st' := match ActivityLogsManager.applyFilters (H := AsciiHost.host 0) c st with
             | inr s => s
             | inl _ => st
             end in
  ActivityLogsManager.totalLogs st' = length (ActivityLogsManager.filteredLogs st')
  /\ ActivityLogsManager.currentPage st' = 1
  /\ match ActivityLogsManager.filteredLogs st' with
     | [] =>
         ActivityLogsManager.logsTableBody st' = ActivityLogsManager.NoActivityRow
         /\ ActivityLogsManager.logsCount st' = ActivityLogsManager.logsCount st
     | _ =>
         let rows := take (ActivityLogsManager.logsPerPage st)
                          (ActivityLogsManager.filteredLogs st') in
         ActivityLogsManager.logsTableBody st' = ActivityLogsManager.LogRows rows
         /\ ActivityLogsManager.logsCount st'
            = ActivityLogsManager.CountShowing 1 (length rows)
                (length (ActivityLogsManager.filteredLogs st'))
     end.
Proof.
  intros entry c st st'.
  apply (applyFilters_counter (H := AsciiHost.host 0) c st st').
  - unfold st. simpl. lia.
  - reflexivity.
Defined.

Lemma nextPage_shows_rows_witness :
  let entry (t : Z) :=
    {| ActivityLogsManager.id := "log_0"; ActivityLogsManager.timestamp := Some t;
       ActivityLogsManager.ipAddress := Some "10.0.0.1";
       ActivityLogsManager.username := "ada"; ActivityLogsManager.status := "success";
       ActivityLogsManager.location := "" |} in
  let logs := [entry 3000%Z; entry 2000%Z; entry 1000%Z] in
  let st :=
    {| ActivityLogsManager.currentPage := 1; ActivityLogsManager.logsPerPage := 2;
       ActivityLogsManager.totalLogs := 3; ActivityLogsManager.filteredLogs := logs;
       ActivityLogsManager.allLogs := logs;
       ActivityLogsManager.currentSort :=
         ActivityLogsManager.currentSort ActivityLogsManager.new;
       ActivityLogsManager.logsTableBody := ActivityLogsManager.LogRows (take 2 logs);
       ActivityLogsManager.logsCount := ActivityLogsManager.CountShowing 1 2 3 |} in
  let st' := ActivityLogsManager.nextPage st in
  (ActivityLogsManager.currentPage st < ActivityLogsManager.totalPages st ->
     let first := ActivityLogsManager.currentPage st * ActivityLogsManager.logsPerPage st in
     let rows := take (ActivityLogsManager.logsPerPage st)
                      (drop first (ActivityLogsManager.filteredLogs st)) in
     ActivityLogsManager.currentPage st' = ActivityLogsManager.currentPage st + 1
     /\ rows <> []
     /\ ActivityLogsManager.logsTableBody st' = ActivityLogsManager.LogRows rows
     /\ ActivityLogsManager.logsCount st'
        = ActivityLogsManager.CountShowing (first + 1) (first + length rows)
            (length (ActivityLogsManager.filteredLogs st))
     /\ ActivityLogsManager.currentPage (ActivityLogsManager.previousPage st')
        = ActivityLogsManager.currentPage st)
  /\ (ActivityLogsManager.totalPages st <= ActivityLogsManager.currentPage st -> st' = st).
Proof.
  intros entry logs st.
  apply (nextPage_shows_rows st).
  - simpl. lia.
  - simpl. lia.
  - reflexivity.
Defined.
